(** * Token-aware conversation memory: a shallow embedding

    This development embeds the memory subsystem of the Flask backend
    ([memory.py]: [TokenAwareMemoryManager], [Summarizer]) and the token
    estimator of the chat route ([routes/chat.py]: [count_tokens]) and
    proves or refutes the properties the specification states about them.

    Conventions of the embedding.
    - Python [int] is [Z]; Python [float] is IEEE 754 binary64, through the
      standard library's [SpecFloat]: every product, sum and quotient the
      code writes is rounded as the interpreter rounds it, and the
      exceptions Python adds to the arithmetic are results of the
      operations.
    - A method that may raise returns a [result]; a method that mutates
      [self] takes the mutable fields as a [memory] record and returns the
      new record together with its [result], so the state left behind by
      an exception stays observable.
    - Library and remote calls ([json.loads], [json.dumps], the Together
      chat completion, [tiktoken], the SQLite insert, the clock) are
      parameters of the functions that use them. *)

From Stdlib Require Import ZArith QArith List String Ascii Bool Lia.
From Stdlib Require Import SpecFloat DecimalString.
Import ListNotations.
Set Warnings "-register-all".
Open Scope string_scope.
Open Scope list_scope.
Open Scope Z_scope.

(** ** Python primitives *)

Module Py.

(** The exception classes the modelled code can raise or catch. *)
Inductive exn : Type :=
| ZeroDivisionError
| OverflowError
| ValueError
| AttributeError
| TypeError
| JSONDecodeError
| ConnectionError
| Sqlite3Error.

Inductive result (A : Type) : Type :=
| Ret (a : A)
| Raise (e : exn).
Arguments Ret {A} a.
Arguments Raise {A} e.

Definition bind {A B : Type} (r : result A) (k : A -> result B) : result B :=
  match r with
  | Ret a => k a
  | Raise e => Raise e
  end.

Declare Scope py_scope.
Delimit Scope py_scope with py.
Notation "x <- c1 ;; c2" := (bind c1 (fun x => c2))
  (at level 61, c1 at next level, right associativity) : py_scope.
Open Scope py_scope.

Definition exn_eqb (e1 e2 : exn) : bool :=
  match e1, e2 with
  | ZeroDivisionError, ZeroDivisionError
  | OverflowError, OverflowError
  | ValueError, ValueError
  | AttributeError, AttributeError
  | TypeError, TypeError
  | JSONDecodeError, JSONDecodeError
  | ConnectionError, ConnectionError
  | Sqlite3Error, Sqlite3Error => true
  | _, _ => false
  end.

(** [len(l)] as a Python integer. *)
Definition len {A : Type} (l : list A) : Z := Z.of_nat (List.length l).

(** [range(n)]. *)
Definition range (n : Z) : list Z := List.map Z.of_nat (List.seq 0 (Z.to_nat n)).

(** [sum(l)] over integers: left to right from 0. *)
Definition sum (l : list Z) : Z := List.fold_left Z.add l 0.

(** The items of a list comprehension or of a generator, evaluated in
    order: the first exception ends the evaluation. *)
Fixpoint collect {A : Type} (items : list (result A)) : result (list A) :=
  match items with
  | [] => Ret []
  | item :: rest => a <- item ;; l <- collect rest ;; Ret (a :: l)
  end.

(** Slice bounds: a negative bound counts from the end, and every bound is
    clipped to [0, len]. *)
Definition clip_index {A : Type} (l : list A) (k : Z) : nat :=
  let n := len l in
  let k' := if k <? 0 then n + k else k in
  Z.to_nat (Z.max 0 (Z.min n k')).

(** [l[:k]] and [l[k:]]. *)
Definition slice_to {A : Type} (l : list A) (k : Z) : list A :=
  List.firstn (clip_index l k) l.
Definition slice_from {A : Type} (l : list A) (k : Z) : list A :=
  List.skipn (clip_index l k) l.

(** [l[i:j]] with both bounds given. *)
Definition slice {A : Type} (l : list A) (i j : Z) : list A :=
  List.skipn (clip_index l i) (List.firstn (clip_index l j) l).

(** [try: r except handled: handler]. *)
Definition try_except {A : Type} (r : result A) (handled : exn -> bool)
    (handler : result A) : result A :=
  match r with
  | Ret a => Ret a
  | Raise e => if handled e then handler else Raise e
  end.

(** Truthiness of a string and of an optional string ([None] or [str]). *)
Definition str_truthy (s : string) : bool :=
  match s with
  | EmptyString => false
  | String _ _ => true
  end.

Definition opt_truthy (o : option string) : bool :=
  match o with
  | None => false
  | Some s => str_truthy s
  end.

Definition nl : string := String (ascii_of_nat 10) EmptyString.

(** [sep.join(parts)] for a list of strings. *)
Fixpoint join (sep : string) (parts : list string) : string :=
  match parts with
  | [] => ""
  | [p] => p
  | p :: rest => (p ++ sep ++ join sep rest)%string
  end.

End Py.

Import Py.
Open Scope py_scope.

(** ** Python floats

    A Python [float] is an IEEE 754 binary64 number.  The operations are
    those of [SpecFloat] at precision 53 and maximal exponent 1024, each
    result rounded to nearest, ties to even.  What Python adds is written
    out: the exceptions of [/], [**], [int()] and of the conversion of an
    [int] operand, and the exact comparison of an [int] with a [float]. *)

Module Float.

Definition float : Type := spec_float.

Definition prec : Z := 53.
Definition emax : Z := 1024.

Definition zero : float := S754_zero false.
Definition one : float := S754_finite false 4503599627370496 (-52).

Definition is_zero (x : float) : bool :=
  match x with
  | S754_zero _ => true
  | _ => false
  end.

(** Neither an infinity nor a NaN. *)
Definition is_finite (x : float) : bool :=
  match x with
  | S754_zero _ | S754_finite _ _ _ => true
  | _ => false
  end.

Definition add (x y : float) : float := SFadd prec emax x y.
Definition mul (x y : float) : float := SFmul prec emax x y.

(** The float nearest to an integer. *)
Definition of_Z (z : Z) : float := binary_normalize prec emax z 0 false.

(** An [int] operand of a float operation is converted first, and an
    integer beyond the largest float raises. *)
Definition of_int (z : Z) : result float :=
  match of_Z z with
  | S754_infinity _ => Raise OverflowError
  | x => Ret x
  end.

(** A value that is an [int] on one path and a [float] on another. *)
Inductive number : Type :=
| Int (z : Z)
| Flt (x : float).

Definition of_number (v : number) : result float :=
  match v with
  | Int z => of_int z
  | Flt x => Ret x
  end.

(** An integer as mantissa with exponent 0, not normalised: the operand
    of a division that rounds the exact quotient once. *)
Definition exact (z : Z) : float :=
  match z with
  | Z0 => zero
  | Zpos p => S754_finite false p 0
  | Zneg p => S754_finite true p 0
  end.

(** The literal [digits * 10 ** -places], read as Python reads a decimal
    literal: the float nearest to its exact value. *)
Definition decimal (digits places : Z) : float :=
  SFdiv prec emax (exact digits) (exact (10 ^ places)).

(** [x / y] on floats. *)
Definition truediv (x y : float) : result float :=
  if is_zero y then Raise ZeroDivisionError else Ret (SFdiv prec emax x y).

(** [a / b] on integers: the exact quotient, rounded once. *)
Definition int_truediv (a b : Z) : result float :=
  if b =? 0 then Raise ZeroDivisionError
  else
    match SFdiv prec emax (exact a) (exact b) with
    | S754_infinity _ => Raise OverflowError
    | x => Ret x
    end.

(** [x ** k] for an integer [k] (below 2^53 in size, as a list length is).
    The special cases are those of the interpreter; on the others the C
    library's [pow] is taken to return the float nearest to the exact
    power, and a result beyond the largest float raises. *)
Definition pow (x : float) (k : Z) : result float :=
  match k with
  | Z0 => Ret one
  | Zpos p =>
      match x with
      | S754_nan => Ret x
      | S754_infinity s => Ret (S754_infinity (s && Z.odd k))
      | S754_zero s => Ret (S754_zero (s && Z.odd k))
      | S754_finite s m e =>
          match binary_round prec emax (s && Z.odd k) (Pos.pow m p) (e * k) with
          | S754_infinity _ => Raise OverflowError
          | y => Ret y
          end
      end
  | Zneg p =>
      match x with
      | S754_nan => Ret x
      | S754_infinity s => Ret (S754_zero (s && Z.odd k))
      | S754_zero _ => Raise ZeroDivisionError
      | S754_finite s m e =>
          match SFdiv prec emax (S754_finite (s && Z.odd k) 1 0)
                      (S754_finite false (Pos.pow m p) (e * Zpos p)) with
          | S754_infinity _ => Raise OverflowError
          | y => Ret y
          end
      end
  end.

(** [sum(l)] over floats: the interpreter adds from the left, starting
    from the integer 0 (its loop up to CPython 3.11; later versions carry
    a compensation term, which is not modelled). *)
Definition sum (l : list float) : float := List.fold_left add l zero.

(** [x < y] on floats; false when either is a NaN. *)
Definition lt (x y : float) : bool := SFltb x y.

(** The integer [±m] of a sign and a mantissa. *)
Definition signed (s : bool) (m : positive) : Z := if s then Zneg m else Zpos m.

(** [z >= x] for an integer [z]: Python compares the two exactly. *)
Definition int_ge (z : Z) (x : float) : bool :=
  match x with
  | S754_nan => false
  | S754_infinity s => s
  | S754_zero _ => 0 <=? z
  | S754_finite s m e =>
      match e with
      | Zneg p => signed s m <=? z * 2 ^ Zpos p
      | _ => signed s m * 2 ^ e <=? z
      end
  end.

(** [int(x)]: truncation towards zero. *)
Definition to_int (x : float) : result Z :=
  match x with
  | S754_nan => Raise ValueError
  | S754_infinity _ => Raise OverflowError
  | S754_zero _ => Ret 0
  | S754_finite s m e =>
      let magnitude :=
        match e with
        | Zneg p => Zpos m / 2 ^ Zpos p
        | _ => Zpos m * 2 ^ e
        end in
      Ret (if s then - magnitude else magnitude)
  end.

(** [math.floor(x)]. *)
Definition floor (x : float) : result Z :=
  match x with
  | S754_nan => Raise ValueError
  | S754_infinity _ => Raise OverflowError
  | S754_zero _ => Ret 0
  | S754_finite s m e =>
      match e with
      | Zneg p => Ret (signed s m / 2 ^ Zpos p)
      | _ => Ret (signed s m * 2 ^ e)
      end
  end.

(** The rational a finite float stands for. *)
Definition to_Q (x : float) : Q :=
  match x with
  | S754_finite s m e =>
      match e with
      | Zneg p => Qmake (signed s m) (2 ^ p)%positive
      | _ => inject_Z (signed s m * 2 ^ e)
      end
  | _ => 0
  end.

(** [x <= z] as numbers, for an integer [z]: false for a NaN and for
    the positive infinity. *)
Definition le_Z (x : float) (z : Z) : Prop :=
  match x with
  | S754_nan => False
  | S754_infinity s => s = true
  | S754_zero _ => 0 <= z
  | S754_finite _ _ _ => (to_Q x <= inject_Z z)%Q
  end.

(** A float with a full mantissa and an exponent above the smallest. *)
Definition normal (x : float) : Prop :=
  exists s m e, x = S754_finite s m e /\ Zpos (digits2_pos m) = 53 /\ -1073 <= e <= 971.

(** A zero of either sign, or a NaN. *)
Definition zero_or_nan (x : float) : Prop := is_zero x = true \/ x = S754_nan.

End Float.

(** ** JSON values, as [json.loads] returns them *)

Module Json.

(** Objects keep their members in order, as Python dictionaries do.
    Numbers are kept as integers: the modelled code only tests a number
    for truthiness, for a [get] attribute and for iterability. *)
Inductive json : Type :=
| JNull
| JBool (b : bool)
| JInt (z : Z)
| JStr (s : string)
| JArr (items : list json)
| JObj (members : list (string * json)).

(** [bool(v)]. *)
Definition truthy (v : json) : bool :=
  match v with
  | JNull => false
  | JBool b => b
  | JInt z => negb (z =? 0)
  | JStr s => str_truthy s
  | JArr items => match items with [] => false | _ => true end
  | JObj members => match members with [] => false | _ => true end
  end.

(** [isinstance(v, str)]. *)
Definition is_str (v : json) : bool :=
  match v with
  | JStr _ => true
  | _ => false
  end.

(** [isinstance(v, dict)]. *)
Definition is_object (v : json) : bool :=
  match v with
  | JObj _ => true
  | _ => false
  end.

(** [d.get(key, default)] on the members of an object. *)
Fixpoint dict_get (members : list (string * json)) (key : string) (default : json) : json :=
  match members with
  | [] => default
  | (k, v) :: rest => if String.eqb k key then v else dict_get rest key default
  end.

(** [v.get(key, default)]: only a dictionary has the attribute. *)
Definition get (v : json) (key : string) (default : json) : result json :=
  match v with
  | JObj members => Ret (dict_get members key default)
  | _ => Raise AttributeError
  end.

(** The items of a sequence that [str.join] accepts: all must be strings. *)
Fixpoint all_strings (items : list json) : result (list string) :=
  match items with
  | [] => Ret []
  | JStr s :: rest => ss <- all_strings rest ;; Ret (s :: ss)
  | _ :: _ => Raise TypeError
  end.

Fixpoint chars (s : string) : list string :=
  match s with
  | EmptyString => []
  | String c rest => String c EmptyString :: chars rest
  end.

(** [sep.join(v)]: a list is joined when all its items are strings, a
    string is iterated by character, a dictionary by key; anything else
    is not iterable. *)
Definition str_join (sep : string) (v : json) : result string :=
  match v with
  | JArr items => ss <- all_strings items ;; Ret (join sep ss)
  | JStr s => Ret (join sep (chars s))
  | JObj members => Ret (join sep (List.map fst members))
  | _ => Raise TypeError
  end.

(** [len(v)]. *)
Definition py_len (v : json) : result Z :=
  match v with
  | JStr s => Ret (Z.of_nat (String.length s))
  | JArr items => Ret (len items)
  | JObj members => Ret (len members)
  | _ => Raise TypeError
  end.

(** The [json] module: [loads] answers [None] for [JSONDecodeError]. *)
Record library : Type := {
  loads : string -> option json;
  dumps : json -> string
}.

End Json.

Import Json.

(** ** The memory manager ([memory.py]) *)

Module Memory.

(** One entry of [history_buffer].  [token_count] is optional because a
    buffer loaded from a row written before token tracking lacks the key
    ([interaction.get('token_count', 0)] in [_load_from_db]). *)
Record interaction : Type := {
  prompt : string;
  response : string;
  timestamp : string;
  token_count : option Z
}.

(** [interaction.get('token_count', 0)]. *)
Definition token_count_or_zero (i : interaction) : Z :=
  match token_count i with
  | Some c => c
  | None => 0
  end.

(** A chat message of [get_context]. *)
Record message : Type := {
  role : string;
  content : string
}.

(** The keys of [current_app.config] the manager reads ([config.py]). *)
Record config : Type := {
  MAX_CONTEXT_TOKENS : Z;
  MIN_INTERACTIONS_BEFORE_SUMMARY : Z;
  MAX_INTERACTIONS_LIMIT : Z;
  SMOOTHING_FACTOR : Float.float;
  SAFETY_MARGIN : Float.float
}.

(** The fields [__init__] sets once. *)
Record manager : Type := {
  user_id : Z;
  session_number : Z;
  tok_K : Z;
  min_interactions : Z;
  max_interactions : Z;
  smoothing_factor : Float.float;
  safety_margin : Float.float;
  adaptive_threshold : Float.float
}.

(** The configuration part of [__init__], with
    [self.adaptive_threshold = self.tok_K * self.safety_margin]: the
    product of an [int] and a [float]. *)
Definition configure (cfg : config) (user_id session_number : Z) : result manager :=
  tok_K <- Float.of_int (MAX_CONTEXT_TOKENS cfg) ;;
  Ret {| user_id := user_id;
         session_number := session_number;
         tok_K := MAX_CONTEXT_TOKENS cfg;
         min_interactions := MIN_INTERACTIONS_BEFORE_SUMMARY cfg;
         max_interactions := MAX_INTERACTIONS_LIMIT cfg;
         smoothing_factor := SMOOTHING_FACTOR cfg;
         safety_margin := SAFETY_MARGIN cfg;
         adaptive_threshold := Float.mul tok_K (SAFETY_MARGIN cfg) |}.

(** The fields the methods mutate. *)
Record memory : Type := {
  summary_json : option string;
  history_buffer : list interaction;
  token_buffer : list Z;
  current_token_sum : Z
}.

Definition set_current_token_sum (st : memory) (s : Z) : memory :=
  {| summary_json := summary_json st;
     history_buffer := history_buffer st;
     token_buffer := token_buffer st;
     current_token_sum := s |}.

(** The state [__init__] builds before [_load_from_db]. *)
Definition init : memory :=
  {| summary_json := None; history_buffer := []; token_buffer := [];
     current_token_sum := 0 |}.

(** *** [_calculate_dynamic_threshold] *)

(** [[self.smoothing_factor ** (n - 1 - i) for i in range(n)]]. *)
Definition weights (m : manager) (n : Z) : result (list Float.float) :=
  collect (List.map (fun i => Float.pow (smoothing_factor m) (n - 1 - i)) (range n)).

(** [token * weight for token, weight in zip(token_buffer, weights)]. *)
Definition weighted_tokens (token_buffer : list Z) (weights : list Float.float)
    : result (list Float.float) :=
  collect (List.map (fun tw => token <- Float.of_int (fst tw) ;;
                               Ret (Float.mul token (snd tw)))
                    (List.combine token_buffer weights)).

(** The exponentially smoothed average of the [else] branch (two or more
    buffered counts): a float, or the last count itself when the weights
    do not sum to a positive number. *)
Definition smoothed_average (m : manager) (token_buffer : list Z) : result Float.number :=
  weights <- weights m (len token_buffer) ;;
  terms <- weighted_tokens token_buffer weights ;;
  let weighted_sum := Float.sum terms in
  let weight_sum := Float.sum weights in
  if Float.lt Float.zero weight_sum
  then avg <- Float.truediv weighted_sum weight_sum ;; Ret (Float.Flt avg)
  else Ret (Float.Int (List.last token_buffer 0)).

Definition avg_tokens (m : manager) (token_buffer : list Z) : result Float.number :=
  if len token_buffer =? 1
  then Ret (Float.Int (List.nth 0 token_buffer 0))
  else smoothed_average m token_buffer.

Definition _calculate_dynamic_threshold (m : manager) (st : memory) : result Z :=
  match token_buffer st with
  | [] => Ret (min_interactions m)
  | _ :: _ =>
      avg_tokens <- avg_tokens m (token_buffer st) ;;
      divisor <- Float.of_number avg_tokens ;;
      quotient <- Float.truediv (adaptive_threshold m) divisor ;;
      truncated <- Float.to_int quotient ;;
      let optimal_k := Z.max 1 truncated in
      let dynamic_k :=
        Z.max (min_interactions m) (Z.min (max_interactions m) optimal_k) in
      Ret dynamic_k
  end.

(** *** [_should_trigger_summarization] *)

Definition _should_trigger_summarization (m : manager) (st : memory) : memory * bool :=
  if len (history_buffer st) <? min_interactions m then (st, false)
  else
    let st := set_current_token_sum st (sum (token_buffer st)) in
    if Float.int_ge (current_token_sum st) (adaptive_threshold m)
    then (st, true)
    else if max_interactions m <=? len (history_buffer st) then (st, true)
    else (st, false).

(** *** [Summarizer.summarize] *)

(** The answer of [self.client.chat.completions.create(...)] followed by
    [response.choices[0].message.content]: either some exception inside
    the [try] block, or the content string.  The system prompt, the model
    and the sampling parameters are constants of the call and are folded
    into the oracle, which receives [user_prompt]. *)
Inductive llm_result : Type :=
| LlmRaises
| LlmContent (summary_json_str : string).

Definition caught_parse_errors (e : exn) : bool :=
  exn_eqb e JSONDecodeError || exn_eqb e TypeError.

(** The [if previous_summary_json:] block: the text it adds to
    [formatted_log].  [summary_data.get] is outside what the [except]
    clause catches when the parsed value is not a dictionary. *)
Definition previous_summary_log (J : library) (previous_summary_json : option string)
    : result string :=
  match previous_summary_json with
  | None => Ret ""
  | Some s =>
      if str_truthy s then
        match loads J s with
        | None => Ret ""
        | Some summary_data =>
            let log := ("Previous Summary:" ++ nl)%string in
            interactions <- get summary_data "interactions" (JArr []) ;;
            let log := (log ++ "- Interactions: " ++ dumps J interactions ++ nl)%string in
            details <- get summary_data "important_details" (JArr []) ;;
            try_except
              (joined <- str_join ", " details ;;
               Ret (log ++ "- Important Details: " ++ joined ++ nl ++ nl)%string)
              caught_parse_errors
              (Ret log)
        end
      else Ret ""
  end.

Definition format_interaction (i : interaction) : string :=
  ("[" ++ timestamp i ++ "] USER: " ++ prompt i ++ nl ++
   "[" ++ timestamp i ++ "] ASSISTANT: " ++ response i ++ nl ++ nl)%string.

Definition summarize (J : library) (llm : string -> llm_result)
    (previous_summary_json : option string) (conversation_log : list interaction)
    : result (option string) :=
  match conversation_log with
  | [] => Ret previous_summary_json
  | _ :: _ =>
      formatted_log <- previous_summary_log J previous_summary_json ;;
      let formatted_log :=
        List.fold_left (fun acc i => (acc ++ format_interaction i)%string)
                       conversation_log formatted_log in
      let user_prompt :=
        ("Here is the conversation log to summarize:" ++ nl ++ nl ++ formatted_log)%string in
      match llm user_prompt with
      | LlmRaises => Ret previous_summary_json
      | LlmContent summary_json_str =>
          match loads J summary_json_str with
          | None => Ret previous_summary_json
          | Some _ => Ret (Some summary_json_str)
          end
      end
  end.

(** *** [_adaptive_prune] *)

(** The four slices the retention strategy computes. *)
Record split : Type := {
  to_summarize : list interaction;
  to_summarize_tokens : list Z;
  retained : list interaction;
  retained_tokens : list Z
}.

Definition retention_split (st : memory) (dynamic_k : Z) : split :=
  if len (history_buffer st) <=? dynamic_k then
    let split_point := Z.max 1 (len (history_buffer st) / 2) in
    {| to_summarize := slice_to (history_buffer st) split_point;
       to_summarize_tokens := slice_to (token_buffer st) split_point;
       retained := slice_from (history_buffer st) split_point;
       retained_tokens := slice_from (token_buffer st) split_point |}
  else
    {| to_summarize := slice_to (history_buffer st) (- dynamic_k);
       to_summarize_tokens := slice_to (token_buffer st) (- dynamic_k);
       retained := slice_from (history_buffer st) (- dynamic_k);
       retained_tokens := slice_from (token_buffer st) (- dynamic_k) |}.

Definition _adaptive_prune (J : library) (m : manager) (llm : string -> llm_result)
    (st : memory) : memory * result unit :=
  match _calculate_dynamic_threshold m st with
  | Raise e => (st, Raise e)
  | Ret dynamic_k =>
      let sp := retention_split st dynamic_k in
      match summarize J llm (summary_json st) (to_summarize sp) with
      | Raise e => (st, Raise e)
      | Ret new_summary =>
          if opt_truthy new_summary then
            ({| summary_json := new_summary;
                history_buffer := retained sp;
                token_buffer := retained_tokens sp;
                current_token_sum := current_token_sum st |}, Ret tt)
          else (st, Ret tt)
      end
  end.

(** *** [_log_interaction_to_db] and [add_interaction] *)

(** A row of the [chat_history] table, the permanent transcript. *)
Record row : Type := {
  row_user_id : Z;
  row_session_number : Z;
  row_prompt : string;
  row_response : string;
  row_timestamp : string;
  row_token_count : Z
}.

(** What SQLite answers to the [INSERT]; [get_db_connection()] itself, which
    is outside the [try], is taken to succeed. *)
Inductive insert_outcome : Type :=
| Inserted
| InsertFails.

(** [with conn: conn.execute("INSERT INTO chat_history ...")]: the row is
    committed, or the transaction is rolled back and [sqlite3.Error]
    raised. *)
Definition execute_insert (outcome : insert_outcome) (chat_history : list row) (r : row)
    : list row * result unit :=
  match outcome with
  | Inserted => (chat_history ++ [r], Ret tt)
  | InsertFails => (chat_history, Raise Sqlite3Error)
  end.

Definition _log_interaction_to_db (m : manager) (outcome : insert_outcome)
    (chat_history : list row) (prompt response timestamp : string) (token_count : Z)
    : list row * result unit :=
  let r := {| row_user_id := user_id m; row_session_number := session_number m;
              row_prompt := prompt; row_response := response;
              row_timestamp := timestamp; row_token_count := token_count |} in
  let '(chat_history, res) := execute_insert outcome chat_history r in
  (chat_history, try_except res (fun e => exn_eqb e Sqlite3Error) (Ret tt)).

(** What one call of [add_interaction] observes of the outside: the clock,
    the answer of the database and the answer of the summarizer model. *)
Record world : Type := {
  now : string;
  insert : insert_outcome;
  llm : string -> llm_result
}.

Definition append_interaction (st : memory) (i : interaction) (tokens : Z) : memory :=
  {| summary_json := summary_json st;
     history_buffer := history_buffer st ++ [i];
     token_buffer := token_buffer st ++ [tokens];
     current_token_sum := current_token_sum st |}.

Definition add_interaction (J : library) (m : manager) (w : world)
    (prompt response : string) (response_token_count : Z)
    (full_response_for_history : option string)
    (db : list row) (st : memory) : (list row * memory) * result unit :=
  let timestamp := now w in
  let db_response :=
    match full_response_for_history with
    | Some full => full
    | None => response
    end in
  let '(db, logged) :=
    _log_interaction_to_db m (insert w) db prompt db_response timestamp
                           response_token_count in
  match logged with
  | Raise e => ((db, st), Raise e)
  | Ret _ =>
      let st :=
        append_interaction st
          {| prompt := prompt; response := response; timestamp := timestamp;
             token_count := Some response_token_count |}
          response_token_count in
      let '(st, trigger) := _should_trigger_summarization m st in
      if trigger then
        let '(st, res) := _adaptive_prune J m (llm w) st in ((db, st), res)
      else ((db, st), Ret tt)
  end.

(** *** [_load_from_db] *)

(** The [conversation_memory] row of the session, with the JSON text of
    [history_buffer] already decoded ([json.loads] of what [save_to_db]
    dumped); [None] when the column is NULL or the empty string. *)
Record memory_row : Type := {
  row_summary_json : option string;
  row_history_buffer : option (list interaction)
}.

Definition _load_from_db (found : option memory_row) (st : memory) : memory :=
  match found with
  | None => st
  | Some r =>
      match row_history_buffer r with
      | Some loaded_buffer =>
          {| summary_json := row_summary_json r;
             history_buffer := loaded_buffer;
             token_buffer := List.map token_count_or_zero loaded_buffer;
             current_token_sum := current_token_sum st |}
      | None =>
          {| summary_json := row_summary_json r;
             history_buffer := history_buffer st;
             token_buffer := token_buffer st;
             current_token_sum := current_token_sum st |}
      end
  end.

(** [TokenAwareMemoryManager(user_id, session_number)]. *)
Definition load (found : option memory_row) : memory := _load_from_db found init.

(** [token_buffer[i]] is the stored count of [history_buffer[i]]. *)
Definition aligned (st : memory) : Prop :=
  token_buffer st = List.map token_count_or_zero (history_buffer st).

(** The summarizer model fails: whatever the prompt, the call raises or
    its content does not decode. *)
Definition llm_fails (J : library) (llm : string -> llm_result) : Prop :=
  forall user_prompt,
    llm user_prompt = LlmRaises \/
    exists content, llm user_prompt = LlmContent content /\ loads J content = None.

(** The states of a manager: what the constructor loads, then any
    sequence of [add_interaction] calls, whatever the database and the
    summarizer answer and whether or not the call raises. *)
Inductive reachable (J : library) (m : manager) : memory -> Prop :=
| reach_load (found : option memory_row) : reachable J m (load found)
| reach_add (st : memory) (w : world) (prompt response : string)
    (response_token_count : Z) (full_response_for_history : option string)
    (db : list row) :
    reachable J m st ->
    reachable J m
      (snd (fst (add_interaction J m w prompt response response_token_count
                                 full_response_for_history db st))).

(** *** [get_context] *)

Definition summary_message (J : library) (summary_json : string) : result (list message) :=
  try_except
    (match loads J summary_json with
     | None => Raise JSONDecodeError
     | Some summary_data =>
         let text := ("Here is a summary of the conversation so far:" ++ nl)%string in
         interactions <- get summary_data "interactions" (JArr []) ;;
         details <- get summary_data "important_details" (JArr []) ;;
         let text :=
           if truthy interactions
           then (text ++ "- Key topics discussed: " ++ dumps J interactions ++ nl)%string
           else text in
         text <- (if truthy details
                  then joined <- str_join ", " details ;;
                       Ret (text ++ "- Important details to remember: " ++ joined ++ nl)%string
                  else Ret text) ;;
         Ret [{| role := "system"; content := text |}]
     end)
    caught_parse_errors
    (Ret []).

Definition interaction_messages (i : interaction) : list message :=
  (if str_truthy (prompt i) then [{| role := "user"; content := prompt i |}] else [])
  ++ (if str_truthy (response i)
      then [{| role := "assistant"; content := response i |}] else []).

Definition short_term_messages (history_buffer : list interaction) : list message :=
  List.flat_map interaction_messages history_buffer.

Definition get_context (J : library) (st : memory) : result (list message) :=
  messages <- match summary_json st with
              | Some s => if str_truthy s then summary_message J s else Ret []
              | None => Ret []
              end ;;
  Ret (messages ++ short_term_messages (history_buffer st)).

End Memory.

Import Memory.

(** ** The token estimator ([routes/chat.py]) *)

Module Chat.

(** A [tiktoken] encoding: [encode] may raise (a disallowed special token
    in the text, for instance). *)
Record encoding : Type := {
  encode : string -> result (list Z)
}.

(** [tiktoken.get_encoding]: it may raise (the vocabulary cannot be
    fetched), and a second call need not answer as the first did, so the
    oracle receives the number of earlier calls. *)
Record tiktoken : Type := {
  get_encoding : nat -> string -> result encoding
}.

Definition model_tokenizer_map : list (string * string) :=
  [ ("meta-llama/Llama-3.3-70B-Instruct-Turbo", "cl100k_base");
    ("meta-llama/Llama-3.3-70B-Instruct-Turbo-Free", "cl100k_base");
    ("meta-llama/Meta-Llama-3.1-8B-Instruct-Turbo", "cl100k_base");
    ("meta-llama/Meta-Llama-3.1-70B-Instruct-Turbo", "cl100k_base");
    ("Qwen/Qwen3-235B-A22B-fp8-tput", "cl100k_base");
    ("Qwen/Qwen2.5-VL-72B-Instruct", "cl100k_base");
    ("Qwen/Qwen2.5-72B-Instruct-Turbo", "cl100k_base");
    ("Qwen/Qwen3-Coder-480B-A35B-Instruct-FP8", "cl100k_base");
    ("default", "cl100k_base") ].

Fixpoint map_get (d : list (string * string)) (key default : string) : string :=
  match d with
  | [] => default
  | (k, v) :: rest => if String.eqb k key then v else map_get rest key default
  end.

Definition any_exception (e : exn) : bool := true.

Definition get_tokenizer_for_model (tk : tiktoken) (model_name : string) : result encoding :=
  try_except
    (let encoding_name := map_get model_tokenizer_map model_name "cl100k_base" in
     get_encoding tk 0%nat encoding_name)
    any_exception
    (get_encoding tk 1%nat "cl100k_base").

(** [tokenizer.encode(text)]: the text is a string on this path. *)
Definition encode_value (tokenizer : encoding) (text : json) : result (list Z) :=
  match text with
  | JStr s => encode tokenizer s
  | _ => Raise TypeError
  end.

(** The body of the [try] block of [count_tokens]. *)
Definition tokenizer_path (tk : tiktoken) (text : json) (model_name : string) : result Z :=
  if negb (truthy text) || negb (is_str text) then Ret 0
  else
    tokenizer <- get_tokenizer_for_model tk model_name ;;
    tokens <- encode_value tokenizer text ;;
    Ret (len tokens).

Definition count_tokens (tk : tiktoken) (text : json) (model_name : string) : result Z :=
  try_except (tokenizer_path tk text model_name)
    any_exception
    (n <- py_len text ;; Ret (Z.max 1 (n / 4))).

End Chat.

Import Chat.

(** ** A reference [json] library

    A reader and a printer for the fragment of JSON the examples use
    (literals, integers, strings without escapes, arrays, objects).  The
    general theorems quantify over every [library]; this instance runs the
    examples. *)

Module JsonRef.

Definition is_ws (c : ascii) : bool :=
  let n := nat_of_ascii c in
  Nat.eqb n 32 || Nat.eqb n 10 || Nat.eqb n 13 || Nat.eqb n 9.

Fixpoint skip_ws (s : string) : string :=
  match s with
  | String c rest => if is_ws c then skip_ws rest else s
  | EmptyString => s
  end.

Definition dquote : ascii := ascii_of_nat 34.
Definition backslash : ascii := ascii_of_nat 92.

Definition digit_of (c : ascii) : option Z :=
  let n := nat_of_ascii c in
  if Nat.leb 48 n && Nat.leb n 57 then Some (Z.of_nat (n - 48)) else None.

(** Reads the digits that continue the number [acc]. *)
Fixpoint read_digits (acc : Z) (s : string) : Z * string :=
  match s with
  | String c rest =>
      match digit_of c with
      | Some d => read_digits (10 * acc + d) rest
      | None => (acc, s)
      end
  | EmptyString => (acc, s)
  end.

(** Reads a string body up to its closing quote; an escape or a control
    character is outside the fragment. *)
Fixpoint read_string (s : string) : option (string * string) :=
  match s with
  | EmptyString => None
  | String c rest =>
      if Ascii.eqb c dquote then Some (EmptyString, rest)
      else if Ascii.eqb c "\"%char then None
      else if Nat.ltb (nat_of_ascii c) 32 then None
      else match read_string rest with
           | Some (body, rest') => Some (String c body, rest')
           | None => None
           end
  end.

Definition expect (prefix : string) (s : string) : option string :=
  if String.prefix prefix s
  then Some (String.substring (String.length prefix)
                              (String.length s - String.length prefix) s)
  else None.

Fixpoint read_value (fuel : nat) (s : string) : option (json * string) :=
  match fuel with
  | O => None
  | S fuel =>
      match skip_ws s with
      | EmptyString => None
      | String c rest =>
          if Ascii.eqb c "n"%char then
            option_map (fun r => (JNull, r)) (expect "ull" rest)
          else if Ascii.eqb c "t"%char then
            option_map (fun r => (JBool true, r)) (expect "rue" rest)
          else if Ascii.eqb c "f"%char then
            option_map (fun r => (JBool false, r)) (expect "alse" rest)
          else if Ascii.eqb c dquote then
            option_map (fun br => (JStr (fst br), snd br)) (read_string rest)
          else if Ascii.eqb c "-"%char then
            match rest with
            | String d rest' =>
                match digit_of d with
                | Some v => let '(z, r) := read_digits v rest' in Some (JInt (- z), r)
                | None => None
                end
            | EmptyString => None
            end
          else if Ascii.eqb c "["%char then
            match skip_ws rest with
            | String c' rest' =>
                if Ascii.eqb c' "]"%char then Some (JArr [], rest')
                else option_map (fun ir => (JArr (fst ir), snd ir)) (read_items fuel rest)
            | EmptyString => None
            end
          else if Ascii.eqb c "{"%char then
            match skip_ws rest with
            | String c' rest' =>
                if Ascii.eqb c' "}"%char then Some (JObj [], rest')
                else option_map (fun mr => (JObj (fst mr), snd mr)) (read_members fuel rest)
            | EmptyString => None
            end
          else
            match digit_of c with
            | Some v => let '(z, r) := read_digits v rest in Some (JInt z, r)
            | None => None
            end
      end
  end

with read_items (fuel : nat) (s : string) : option (list json * string) :=
  match fuel with
  | O => None
  | S fuel =>
      match read_value fuel s with
      | None => None
      | Some (v, rest) =>
          match skip_ws rest with
          | String c rest' =>
              if Ascii.eqb c ","%char then
                option_map (fun ir => (v :: fst ir, snd ir)) (read_items fuel rest')
              else if Ascii.eqb c "]"%char then Some ([v], rest')
              else None
          | EmptyString => None
          end
      end
  end

with read_members (fuel : nat) (s : string) : option (list (string * json) * string) :=
  match fuel with
  | O => None
  | S fuel =>
      match skip_ws s with
      | String q rest =>
          if Ascii.eqb q dquote then
            match read_string rest with
            | None => None
            | Some (key, rest) =>
                match skip_ws rest with
                | String colon rest =>
                    if Ascii.eqb colon ":"%char then
                      match read_value fuel rest with
                      | None => None
                      | Some (v, rest) =>
                          match skip_ws rest with
                          | String c rest' =>
                              if Ascii.eqb c ","%char then
                                option_map (fun mr => ((key, v) :: fst mr, snd mr))
                                           (read_members fuel rest')
                              else if Ascii.eqb c "}"%char then Some ([(key, v)], rest')
                              else None
                          | EmptyString => None
                          end
                      end
                    else None
                | EmptyString => None
                end
            end
          else None
      | EmptyString => None
      end
  end.

(** [json.loads]: one value, then only white space. *)
Definition loads (s : string) : option json :=
  match read_value (S (String.length s)) s with
  | Some (v, rest) =>
      match skip_ws rest with
      | EmptyString => Some v
      | String _ _ => None
      end
  | None => None
  end.

Definition quote (s : string) : string :=
  String dquote (s ++ String dquote EmptyString).

(** [json.dumps] with its default separators. *)
Fixpoint dumps (v : json) : string :=
  match v with
  | JNull => "null"
  | JBool true => "true"
  | JBool false => "false"
  | JInt z => NilZero.string_of_int (Z.to_int z)
  | JStr s => quote s
  | JArr items => ("[" ++ join ", " (List.map dumps items) ++ "]")%string
  | JObj members =>
      ("{" ++ join ", " (List.map (fun kv => (quote (fst kv) ++ ": " ++ dumps (snd kv))%string)
                                  members) ++ "}")%string
  end.

Definition lib : library := {| Json.loads := loads; Json.dumps := dumps |}.

End JsonRef.

(** ** The dynamic retention size as the specification words it

    The formula of the specification, each operation evaluated as Python
    evaluates it on floats: one formula for every buffer length, without
    the special case and without the guard of the code. *)

Module Spec.

(** The weight of the [i]-th buffered count, oldest first, among [n]:
    [smoothing_factor ^ (n-1-i)]. *)
Definition weight (m : manager) (n i : Z) : result Float.float :=
  Float.pow (smoothing_factor m) (n - 1 - i).

Definition weights (m : manager) (n : Z) : result (list Float.float) :=
  collect (List.map (weight m n) (range n)).

(** [avg = (sum of token_i * weight_i) / (sum of weight_i)]. *)
Definition average (m : manager) (tokens : list Z) : result Float.float :=
  weights <- weights m (len tokens) ;;
  terms <- collect (List.map (fun tw => token <- Float.of_int (fst tw) ;;
                                        Ret (Float.mul token (snd tw)))
                             (List.combine tokens weights)) ;;
  Float.truediv (Float.sum terms) (Float.sum weights).

(** [optimal_k = max(1, floor(adaptive_threshold / avg))]. *)
Definition optimal_k (m : manager) (tokens : list Z) : result Z :=
  avg <- average m tokens ;;
  quotient <- Float.truediv (adaptive_threshold m) avg ;;
  floor <- Float.floor quotient ;;
  Ret (Z.max 1 floor).

(** [clamp(x, lo, hi)]: [x] brought into [lo, hi]. *)
Definition clamp (x lo hi : Z) : Z := Z.max lo (Z.min hi x).

Definition dynamic_k (m : manager) (tokens : list Z) : result Z :=
  optimal_k <- optimal_k m tokens ;;
  Ret (clamp optimal_k (min_interactions m) (max_interactions m)).

End Spec.

(** ** Running several calls, and the data of the scenarios *)

Module Scenario.

(** The arguments of one [add_interaction] call with what it observes. *)
Record call : Type := {
  call_world : world;
  call_prompt : string;
  call_response : string;
  call_tokens : Z;
  call_full_response : option string
}.

(** The chat route calls [add_interaction] once per completed generation;
    an exception ends the run. *)
Fixpoint run (J : library) (m : manager) (calls : list call)
    (s : list row * memory) : (list row * memory) * result unit :=
  match calls with
  | [] => (s, Ret tt)
  | c :: rest =>
      let '(s', res) :=
        add_interaction J m (call_world c) (call_prompt c) (call_response c)
                        (call_tokens c) (call_full_response c) (fst s) (snd s) in
      match res with
      | Ret _ => run J m rest s'
      | Raise e => (s', Raise e)
      end
  end.

(** [config.py]: MAX_CONTEXT_TOKENS = 3000, MIN_INTERACTIONS_BEFORE_SUMMARY
    = 2, MAX_INTERACTIONS_LIMIT = 50, SMOOTHING_FACTOR = 0.8,
    SAFETY_MARGIN = 0.9. *)
Definition default_config : config :=
  {| MAX_CONTEXT_TOKENS := 3000;
     MIN_INTERACTIONS_BEFORE_SUMMARY := 2;
     MAX_INTERACTIONS_LIMIT := 50;
     SMOOTHING_FACTOR := Float.decimal 8 1;
     SAFETY_MARGIN := Float.decimal 9 1 |}.

(** The manager of user 1, session 1 under [config.py]; its threshold
    [3000 * 0.9] is the float 2700.0. *)
Definition default_manager : manager :=
  {| user_id := 1; session_number := 1;
     tok_K := 3000; min_interactions := 2; max_interactions := 50;
     smoothing_factor := Float.decimal 8 1; safety_margin := Float.decimal 9 1;
     adaptive_threshold := S754_finite false 5937362789990400 (-41) |}.

(** The configuration of the specification's scenario: min 2, max 50,
    margin 0.9, 100 context tokens, and the smoothing factor of
    [config.py]. *)
Definition scenario_config : config :=
  {| MAX_CONTEXT_TOKENS := 100;
     MIN_INTERACTIONS_BEFORE_SUMMARY := 2;
     MAX_INTERACTIONS_LIMIT := 50;
     SMOOTHING_FACTOR := Float.decimal 8 1;
     SAFETY_MARGIN := Float.decimal 9 1 |}.

(** Its manager; the threshold [100 * 0.9] is the float 90.0. *)
Definition scenario_manager : manager :=
  {| user_id := 1; session_number := 1;
     tok_K := 100; min_interactions := 2; max_interactions := 50;
     smoothing_factor := Float.decimal 8 1; safety_margin := Float.decimal 9 1;
     adaptive_threshold := S754_finite false 6333186975989760 (-46) |}.

(** A configuration whose two interaction bounds are both zero, and its
    manager. *)
Definition unbounded_config : config :=
  {| MAX_CONTEXT_TOKENS := 100;
     MIN_INTERACTIONS_BEFORE_SUMMARY := 0;
     MAX_INTERACTIONS_LIMIT := 0;
     SMOOTHING_FACTOR := Float.decimal 8 1;
     SAFETY_MARGIN := Float.decimal 9 1 |}.

Definition unbounded_manager : manager :=
  {| user_id := 1; session_number := 1;
     tok_K := 100; min_interactions := 0; max_interactions := 0;
     smoothing_factor := Float.decimal 8 1; safety_margin := Float.decimal 9 1;
     adaptive_threshold := S754_finite false 6333186975989760 (-46) |}.

(** A margin of 0.55 on 100 context tokens: the product [100 * 0.55] is
    the float next above 55. *)
Definition margin_55_config : config :=
  {| MAX_CONTEXT_TOKENS := 100;
     MIN_INTERACTIONS_BEFORE_SUMMARY := 2;
     MAX_INTERACTIONS_LIMIT := 50;
     SMOOTHING_FACTOR := Float.decimal 8 1;
     SAFETY_MARGIN := Float.decimal 55 2 |}.

Definition turn (p r : string) (tokens : Z) : interaction :=
  {| prompt := p; response := r; timestamp := "2025-08-29T21:44:30+00:00";
     token_count := Some tokens |}.

Definition t1 : interaction := turn "first question" "first answer" 40.
Definition t2 : interaction := turn "second question" "second answer" 40.
Definition t3 : interaction := turn "third question" "third answer" 40.

(** A summarizer model that is down, and one that answers [content]. *)
Definition llm_down : string -> llm_result := fun _ => LlmRaises.
Definition llm_answers (content : string) : string -> llm_result :=
  fun _ => LlmContent content.

Definition quiet_world (o : insert_outcome) (l : string -> llm_result) : world :=
  {| now := "2025-08-29T21:44:30+00:00"; insert := o; llm := l |}.

(** A world whose clock shows [ts]. *)
Definition world_at (ts : string) (o : insert_outcome) (l : string -> llm_result) : world :=
  {| now := ts; insert := o; llm := l |}.

(** A summarizer model that answers [content] to the prompt [expected]
    and fails on every other prompt. *)
Definition llm_expecting (expected content : string) : string -> llm_result :=
  fun user_prompt =>
    if String.eqb user_prompt expected then LlmContent content else LlmRaises.

(** The user prompt of a summarization of the first turn alone, asked at
    21:44:30. *)
Definition first_turn_prompt : string :=
  ("Here is the conversation log to summarize:" ++ nl ++ nl
   ++ "[2025-08-29T21:44:30+00:00] USER: first question" ++ nl
   ++ "[2025-08-29T21:44:30+00:00] ASSISTANT: first answer" ++ nl ++ nl)%string.

(** A summary object without entries. *)
Definition empty_summary : string :=
  ("{" ++ JsonRef.quote "interactions" ++ ": [], "
   ++ JsonRef.quote "important_details" ++ ": []}")%string.

(** A completed generation whose stored answer is empty: the reasoning
    mode stores the answer with its think block removed and counts the
    tokens of what is left. *)
Definition empty_answer (o : insert_outcome) : call :=
  {| call_world := quiet_world o llm_down;
     call_prompt := "hello"; call_response := "";
     call_tokens := 0; call_full_response := Some "<think>...</think>" |}.

(** A buffer of three 40-token turns under a summary written earlier. *)
Definition summarized_state : memory :=
  {| summary_json := Some "{}"; history_buffer := [t1; t2; t3];
     token_buffer := [40; 40; 40]; current_token_sum := 120 |}.

(** The same buffer before any summary exists. *)
Definition three_forties : memory :=
  {| summary_json := None; history_buffer := [t1; t2; t3];
     token_buffer := [40; 40; 40]; current_token_sum := 120 |}.


(** One turn whose stored answer is empty. *)
Definition one_zero : memory :=
  {| summary_json := None; history_buffer := [turn "hello" "" 0];
     token_buffer := [0]; current_token_sum := 0 |}.

(** Two turns whose stored answers are empty. *)
Definition two_zeros : memory :=
  {| summary_json := None;
     history_buffer := [turn "hello" "" 0; turn "are you there" "" 0];
     token_buffer := [0; 0]; current_token_sum := 0 |}.

(** Five turns of 450 tokens each. *)
Definition five_450 : memory :=
  {| summary_json := None;
     history_buffer := List.repeat (turn "question" "answer" 450) 5;
     token_buffer := [450; 450; 450; 450; 450]; current_token_sum := 2250 |}.

(** The buffer after 49 empty answers under the default configuration. *)
Definition forty_nine_zeros : list row * memory :=
  fst (run JsonRef.lib default_manager (List.repeat (empty_answer Inserted) 49)
           ([], load None)).

(** [tiktoken] without its vocabulary: every [get_encoding] raises. *)
Definition offline_tiktoken : tiktoken :=
  {| get_encoding := fun _ _ => Raise ConnectionError |}.

(** A stored summary that is valid JSON but an array, not an object. *)
Definition array_summary_state : memory :=
  {| summary_json := Some "[]"; history_buffer := [t1];
     token_buffer := [40]; current_token_sum := 0 |}.

End Scenario.

Import Scenario.

(** ** Memory statistics ([get_memory_stats]) *)

Module Stats.

(** The dictionary [get_memory_stats] returns. *)
Record memory_stats : Type := {
  current_interactions : Z;
  current_tokens : Z;
  token_threshold : Float.float;
  has_summary : bool;
  avg_tokens_per_interaction : Float.number;
  dynamic_k : Z;
  user_id : Z;
  session_number : Z
}.

(** The entries are evaluated in order: the plain average, a quotient of
    two integers, then [dynamic_k]. *)
Definition get_memory_stats (m : manager) (st : memory) : result memory_stats :=
  let current_tokens :=
    match token_buffer st with
    | [] => 0
    | _ :: _ => sum (token_buffer st)
    end in
  avg_tokens_per_interaction <-
    match token_buffer st with
    | [] => Ret (Float.Int 0)
    | _ :: _ =>
        avg <- Float.int_truediv (sum (token_buffer st)) (len (token_buffer st)) ;;
        Ret (Float.Flt avg)
    end ;;
  k <- match token_buffer st with
       | [] => Ret (min_interactions m)
       | _ :: _ => _calculate_dynamic_threshold m st
       end ;;
  Ret {| current_interactions := len (history_buffer st);
         current_tokens := current_tokens;
         token_threshold := adaptive_threshold m;
         has_summary := opt_truthy (summary_json st);
         avg_tokens_per_interaction := avg_tokens_per_interaction;
         dynamic_k := k;
         user_id := Memory.user_id m;
         session_number := Memory.session_number m |}.

End Stats.

(** ** The [conversation_memory] table ([save_to_db], the constructor) *)

Module Store.

(** A row of [conversation_memory]; (user_id, session_number) is its
    primary key.  The [history_buffer] column is kept decoded, as in
    [memory_row]. *)
Record conversation_row : Type := {
  key_user_id : Z;
  key_session_number : Z;
  columns : memory_row;
  last_updated : string
}.

Definition same_key (r : conversation_row) (user session : Z) : bool :=
  (key_user_id r =? user) && (key_session_number r =? session).

(** [SELECT summary_json, history_buffer ... WHERE user_id = ? AND
    session_number = ?] followed by [fetchone()]. *)
Fixpoint select (table : list conversation_row) (user session : Z) : option memory_row :=
  match table with
  | [] => None
  | r :: rest => if same_key r user session then Some (columns r) else select rest user session
  end.

(** [INSERT ... ON CONFLICT(user_id, session_number) DO UPDATE SET] every
    other column. *)
Fixpoint upsert (table : list conversation_row) (new : conversation_row)
    : list conversation_row :=
  match table with
  | [] => [new]
  | r :: rest =>
      if same_key r (key_user_id new) (key_session_number new)
      then new :: rest
      else r :: upsert rest new
  end.

(** [save_to_db]: the statement runs inside [with conn:], so a failure
    rolls back and the [sqlite3.Error] leaves the method. *)
Definition save_to_db (m : manager) (outcome : insert_outcome) (now : string)
    (table : list conversation_row) (st : memory)
    : list conversation_row * result unit :=
  match outcome with
  | Inserted =>
      (upsert table
         {| key_user_id := Memory.user_id m;
            key_session_number := Memory.session_number m;
            columns := {| row_summary_json := summary_json st;
                          row_history_buffer := Some (history_buffer st) |};
            last_updated := now |},
       Ret tt)
  | InsertFails => (table, Raise Sqlite3Error)
  end.

(** [TokenAwareMemoryManager(user_id, session_number)] over the table. *)
Definition construct (m : manager) (table : list conversation_row) : memory :=
  load (select table (Memory.user_id m) (Memory.session_number m)).

End Store.

(** ** The manager with a fixed window ([flask_project/memory.py]) *)

Module ShortTerm.

(** The mutable fields of the manager without token tracking. *)
Record memory : Type := {
  summary_json : option string;
  history_buffer : list interaction
}.

(** A row of [chat_history] as this manager writes it. *)
Record row : Type := {
  row_user_id : Z;
  row_session_number : Z;
  row_prompt : string;
  row_response : string;
  row_timestamp : string
}.

Definition _log_interaction_to_db (user session : Z) (outcome : insert_outcome)
    (chat_history : list row) (prompt response timestamp : string)
    : list row * result unit :=
  let r := {| row_user_id := user; row_session_number := session;
              row_prompt := prompt; row_response := response;
              row_timestamp := timestamp |} in
  let '(chat_history, res) :=
    match outcome with
    | Inserted => (chat_history ++ [r], Ret tt)
    | InsertFails => (chat_history, Raise Sqlite3Error)
    end in
  (chat_history, try_except res (fun e => exn_eqb e Sqlite3Error) (Ret tt)).

(** [prune], with [k = SHORT_TERM_MEMORY_K]. *)
Definition prune (J : library) (k : Z) (llm : string -> llm_result) (st : memory)
    : memory * result unit :=
  let to_summarize := slice_to (history_buffer st) (- k) in
  let retained := slice_from (history_buffer st) (- k) in
  match summarize J llm (summary_json st) to_summarize with
  | Raise e => (st, Raise e)
  | Ret new_summary =>
      if opt_truthy new_summary
      then ({| summary_json := new_summary; history_buffer := retained |}, Ret tt)
      else (st, Ret tt)
  end.

Definition add_interaction (J : library) (user session : Z) (k : Z) (w : world)
    (prompt response : string) (full_response_for_history : option string)
    (db : list row) (st : memory) : (list row * memory) * result unit :=
  let timestamp := now w in
  let db_response :=
    match full_response_for_history with
    | Some full => full
    | None => response
    end in
  let '(db, logged) :=
    _log_interaction_to_db user session (insert w) db prompt db_response timestamp in
  match logged with
  | Raise e => ((db, st), Raise e)
  | Ret _ =>
      let st :=
        {| summary_json := summary_json st;
           history_buffer :=
             history_buffer st
             ++ [{| prompt := prompt; response := response; timestamp := timestamp;
                    token_count := None |}] |} in
      if k <? len (history_buffer st) then
        let '(st, res) := prune J k (llm w) st in ((db, st), res)
      else ((db, st), Ret tt)
  end.

End ShortTerm.

(** ** The chat route ([routes/chat.py]) *)

Module ChatRoute.

(** *** [count_message_tokens] *)

(** [v == s] for a string literal [s]. *)
Definition equals_str (v : json) (s : string) : bool :=
  match v with
  | JStr x => String.eqb x s
  | _ => false
  end.

(** The inner loop over the parts of a multimodal content. *)
Fixpoint content_parts_tokens (tk : tiktoken) (model_name : string)
    (items : list json) (total_tokens : Z) : result Z :=
  match items with
  | [] => Ret total_tokens
  | item :: rest =>
      type <- get item "type" JNull ;;
      if equals_str type "text" then
        text <- get item "text" (JStr "") ;;
        n <- count_tokens tk text model_name ;;
        content_parts_tokens tk model_name rest (total_tokens + n)
      else
        type <- get item "type" JNull ;;
        if equals_str type "image_url"
        then content_parts_tokens tk model_name rest (total_tokens + 765)
        else content_parts_tokens tk model_name rest total_tokens
  end.

(** The loop over the messages. *)
Fixpoint messages_tokens (tk : tiktoken) (model_name : string)
    (messages : list json) (total_tokens : Z) : result Z :=
  match messages with
  | [] => Ret total_tokens
  | message :: rest =>
      let total_tokens := total_tokens + 4 in
      content <- get message "content" (JStr "") ;;
      match content with
      | JStr _ =>
          n <- count_tokens tk content model_name ;;
          messages_tokens tk model_name rest (total_tokens + n)
      | JArr items =>
          total_tokens <- content_parts_tokens tk model_name items total_tokens ;;
          messages_tokens tk model_name rest total_tokens
      | _ => messages_tokens tk model_name rest total_tokens
      end
  end.

(** [[str(msg.get('content', '')) for msg in messages]]. *)
Fixpoint content_texts (py_str : json -> string) (messages : list json)
    : result (list string) :=
  match messages with
  | [] => Ret []
  | msg :: rest =>
      content <- get msg "content" (JStr "") ;;
      texts <- content_texts py_str rest ;;
      Ret (py_str content :: texts)
  end.

(** [py_str] is Python's [str()]. *)
Definition count_message_tokens (tk : tiktoken) (py_str : json -> string)
    (messages : list json) (model_name : string) : result Z :=
  try_except (messages_tokens tk model_name messages 0)
    any_exception
    (texts <- content_texts py_str messages ;;
     Ret (Z.max 10 (Z.of_nat (String.length (join " " texts)) / 4))).

(** *** [validate_reason_parameter] *)

(** [str.lower()] and [str.strip()] on text whose characters are code
    points below 256, one per [ascii]: the capital letters A to Z and
    those of 192 to 222 other than the sign 215 have a small letter 32
    above; the white space is 9 to 13, 28 to 32, 133 and 160. *)
Definition lower_char (c : ascii) : ascii :=
  let n := nat_of_ascii c in
  if (Nat.leb 65 n && Nat.leb n 90)
     || (Nat.leb 192 n && Nat.leb n 222 && negb (Nat.eqb n 215))
  then ascii_of_nat (n + 32) else c.

Fixpoint lower (s : string) : string :=
  match s with
  | EmptyString => EmptyString
  | String c rest => String (lower_char c) (lower rest)
  end.

Definition is_space (c : ascii) : bool :=
  let n := nat_of_ascii c in
  (Nat.leb 9 n && Nat.leb n 13) || (Nat.leb 28 n && Nat.leb n 32)
  || Nat.eqb n 133 || Nat.eqb n 160.

Fixpoint lstrip (s : string) : string :=
  match s with
  | EmptyString => EmptyString
  | String c rest => if is_space c then lstrip rest else s
  end.

Fixpoint rstrip (s : string) : string :=
  match s with
  | EmptyString => EmptyString
  | String c rest =>
      match rstrip rest with
      | EmptyString => if is_space c then EmptyString else String c EmptyString
      | rest' => String c rest'
      end
  end.

Definition strip (s : string) : string := rstrip (lstrip s).

Fixpoint str_in (s : string) (l : list string) : bool :=
  match l with
  | [] => false
  | x :: rest => String.eqb s x || str_in s rest
  end.

Definition validate_reason_parameter (reason : json) : string :=
  match reason with
  | JNull => "default"
  | JBool b => if b then "reason" else "default"
  | JStr s =>
      let reason := strip (lower s) in
      if str_in reason ["code"; "reason"; "default"] then reason else "default"
  | _ => "default"
  end.

(** *** The request quota of unauthenticated sessions *)

(** What SQLite answers to the [SELECT]. *)
Inductive select_outcome : Type :=
| Selected
| SelectFails.

(** The [unauthorized_request_counts] table. *)
Fixpoint stored_count (counts : list (string * Z)) (session_id : string) : option Z :=
  match counts with
  | [] => None
  | (k, c) :: rest => if String.eqb k session_id then Some c else stored_count rest session_id
  end.

(** [db.get_unauthorized_request_count]. *)
Definition get_unauthorized_request_count (outcome : select_outcome)
    (counts : list (string * Z)) (session_id : string) : Z :=
  match outcome with
  | SelectFails => 0
  | Selected =>
      match stored_count counts session_id with
      | Some c => c
      | None => 0
      end
  end.

Fixpoint bump (counts : list (string * Z)) (session_id : string) : list (string * Z) :=
  match counts with
  | [] => [(session_id, 1)]
  | (k, c) :: rest =>
      if String.eqb k session_id then (k, c + 1) :: rest
      else (k, c) :: bump rest session_id
  end.

(** [db.increment_unauthorized_request_count]: the error is logged, not
    raised. *)
Definition increment_unauthorized_request_count (outcome : insert_outcome)
    (counts : list (string * Z)) (session_id : string) : list (string * Z) :=
  match outcome with
  | Inserted => bump counts session_id
  | InsertFails => counts
  end.

(** The branch of [chat] for a request without a token: [true] when the
    request goes on to the model, [false] for the 429 answer. *)
Definition unauthorized_gate (rd : select_outcome) (wr : insert_outcome)
    (counts : list (string * Z)) (session_id : string) : list (string * Z) * bool :=
  let request_count := get_unauthorized_request_count rd counts session_id in
  if 2 <=? request_count then (counts, false)
  else (increment_unauthorized_request_count wr counts session_id, true).

(** Successive requests of one session, with the answers of the database
    to each; the result counts the requests served. *)
Fixpoint serve (answers : list (select_outcome * insert_outcome))
    (counts : list (string * Z)) (session_id : string) : list (string * Z) * nat :=
  match answers with
  | [] => (counts, O)
  | (rd, wr) :: rest =>
      let '(counts, served) := unauthorized_gate rd wr counts session_id in
      let '(counts, n) := serve rest counts session_id in
      (counts, if served then S n else n)
  end.

(** *** Shapes of messages *)

(** The parts of a multimodal content are dictionaries. *)
Definition parts_ok (content : json) : bool :=
  match content with
  | JArr items => List.forallb is_object items
  | _ => true
  end.

(** A message is a dictionary whose content, when a list, holds
    dictionaries: the messages the route builds. *)
Definition message_ok (message : json) : bool :=
  match message with
  | JObj members => parts_ok (dict_get members "content" (JStr ""))
  | _ => false
  end.

End ChatRoute.

(** ** Data of the further examples *)

Module Cases.

(** A summary object whose [important_details] holds a number. *)
Definition numeric_details_summary : string :=
  ("{" ++ JsonRef.quote "important_details" ++ ": [1]}")%string.

Definition numeric_details_state : memory :=
  {| summary_json := Some numeric_details_summary; history_buffer := [t1];
     token_buffer := [40]; current_token_sum := 0 |}.

(** A buffer written before token tracking: no [token_count] key. *)
Definition legacy_turn : interaction :=
  {| prompt := "old question"; response := "old answer";
     timestamp := "2025-08-14T23:33:38+00:00"; token_count := None |}.

Definition legacy_row : memory_row :=
  {| row_summary_json := None; row_history_buffer := Some [legacy_turn; legacy_turn] |}.

(** Chat messages as the route builds them. *)
Definition text_message (role content : string) : json :=
  JObj [("role", JStr role); ("content", JStr content)].

Definition vision_message (query url : string) : json :=
  JObj [("role", JStr "user");
        ("content",
         JArr [JObj [("type", JStr "text"); ("text", JStr query)];
               JObj [("type", JStr "image_url");
                     ("image_url", JObj [("url", JStr url)])]])].

(** A content list that holds a bare string instead of a part. *)
Definition bare_part_message : json :=
  JObj [("role", JStr "user"); ("content", JArr [JStr "hello"])].

(** A stand-in for [str()] in the examples. *)
Definition py_str (v : json) : string := JsonRef.dumps v.

(** A window of two interactions that is full. *)
Definition full_window : ShortTerm.memory :=
  {| ShortTerm.summary_json := None; ShortTerm.history_buffer := [legacy_turn; legacy_turn] |}.

End Cases.

(** * Properties *)

(** ** Slices and sums *)

Lemma len_map {A B : Type} (f : A -> B) (l : list A) : len (List.map f l) = len l.
Proof. unfold len. now rewrite List.length_map. Qed.

Lemma len_app {A : Type} (l1 l2 : list A) : len (l1 ++ l2) = len l1 + len l2.
Proof. unfold len. rewrite List.length_app. lia. Qed.

Lemma len_nonneg {A : Type} (l : list A) : 0 <= len l.
Proof. unfold len. lia. Qed.

Lemma clip_index_map {A B : Type} (f : A -> B) (l : list A) (k : Z) :
  clip_index (List.map f l) k = clip_index l k.
Proof. unfold clip_index. now rewrite len_map. Qed.

Lemma slice_to_map {A B : Type} (f : A -> B) (l : list A) (k : Z) :
  slice_to (List.map f l) k = List.map f (slice_to l k).
Proof. unfold slice_to. now rewrite clip_index_map, List.firstn_map. Qed.

Lemma slice_from_map {A B : Type} (f : A -> B) (l : list A) (k : Z) :
  slice_from (List.map f l) k = List.map f (slice_from l k).
Proof. unfold slice_from. now rewrite clip_index_map, List.skipn_map. Qed.

Lemma slice_to_from {A : Type} (l : list A) (k : Z) :
  slice_to l k ++ slice_from l k = l.
Proof. apply List.firstn_skipn. Qed.

(** ** Float arithmetic *)

(** Rounding a float that is already one leaves it as it is. *)
Lemma round_bounded (s : bool) (m : positive) (e : Z) :
  bounded 53 1024 m e = true ->
  binary_round_aux 53 1024 s (Zpos m) e loc_Exact = S754_finite s m e.
Proof.
  unfold bounded, canonical_mantissa. intros H.
  apply andb_true_iff in H. destruct H as [Hc He].
  apply Z.eqb_eq in Hc.
  unfold binary_round_aux, shr_fexp. cbn [Zdigits2 shr_record_of_loc].
  rewrite Hc, Z.sub_diag. cbn [shr shr_m loc_of_shr_record round_nearest_even Zdigits2].
  rewrite Hc, Z.sub_diag. cbn [shr shr_m]. rewrite He. reflexivity.
Qed.

Lemma digits2_pos_shift (m : positive) (k : positive) :
  Zpos (digits2_pos (Pos.iter xO m k)) = Zpos (digits2_pos m) + Zpos k.
Proof.
  induction k as [|k IH] using Pos.peano_ind.
  - cbn [Pos.iter digits2_pos]. rewrite Pos2Z.inj_succ. lia.
  - rewrite Pos.iter_succ. cbn [digits2_pos]. rewrite !Pos2Z.inj_succ. lia.
Qed.

Lemma digits2_pos_bound (m : positive) :
  2 ^ (Zpos (digits2_pos m) - 1) <= Zpos m < 2 ^ Zpos (digits2_pos m).
Proof.
  induction m as [m IH|m IH|]; cbn [digits2_pos].
  - rewrite Pos2Z.inj_succ. change (Zpos m~1) with (2 * Zpos m + 1).
    replace (Z.succ (Zpos (digits2_pos m)) - 1) with (Z.succ (Zpos (digits2_pos m) - 1)) by lia.
    rewrite !Z.pow_succ_r by lia.
    generalize dependent (2 ^ (Z.pos (digits2_pos m) - 1)).
    generalize (2 ^ Z.pos (digits2_pos m)). intros. lia.
  - rewrite Pos2Z.inj_succ. change (Zpos m~0) with (2 * Zpos m).
    replace (Z.succ (Zpos (digits2_pos m)) - 1) with (Z.succ (Zpos (digits2_pos m) - 1)) by lia.
    rewrite !Z.pow_succ_r by lia.
    generalize dependent (2 ^ (Z.pos (digits2_pos m) - 1)).
    generalize (2 ^ Z.pos (digits2_pos m)). intros. lia.
  - cbn. lia.
Qed.

Lemma normal_bounded (m : positive) (e : Z) :
  Zpos (digits2_pos m) = 53 -> -1073 <= e <= 971 ->
  bounded 53 1024 m e = true.
Proof.
  intros Hd He. unfold bounded, canonical_mantissa, fexp, emin.
  rewrite Hd. apply andb_true_iff. split; [apply Z.eqb_eq | apply Z.leb_le]; lia.
Qed.

(** An integer below 2^53 in size converts to a float with a full
    mantissa. *)
Lemma binary_round_small (s : bool) (p : positive) :
  Zpos p < 2 ^ 53 -> Float.normal (binary_round 53 1024 s p 0).
Proof.
  intros Hp. pose proof (digits2_pos_bound p) as Hb.
  assert (Hd : Zpos (digits2_pos p) <= 53).
  { destruct (Z.le_gt_cases (Zpos (digits2_pos p)) 53) as [H|H]; [exact H|].
    assert (2 ^ 53 <= 2 ^ (Zpos (digits2_pos p) - 1)) by (apply Z.pow_le_mono_r; lia).
    lia. }
  unfold binary_round, shl_align, fexp, emin.
  rewrite Z.add_0_r.
  replace (Z.max (Zpos (digits2_pos p) - 53) (3 - 1024 - 53))
    with (Zpos (digits2_pos p) - 53) by lia.
  rewrite Z.sub_0_r.
  destruct (Zpos (digits2_pos p) - 53) as [|k|k] eqn:Hk; try lia.
  - rewrite (round_bounded s p 0) by (apply normal_bounded; lia).
    exists s, p, 0. repeat split; lia.
  - pose proof (digits2_pos_shift p k) as Hs.
    rewrite (round_bounded s (Pos.iter xO p k) (Zneg k)) by (apply normal_bounded; lia).
    exists s, (Pos.iter xO p k), (Zneg k). repeat split; lia.
Qed.

Lemma of_Z_small (z : Z) :
  - 2 ^ 53 < z < 2 ^ 53 -> z <> 0 ->
  Float.normal (Float.of_Z z) /\ Float.of_int z = Ret (Float.of_Z z).
Proof.
  intros Hz Hnz.
  assert (Hn : Float.normal (Float.of_Z z)).
  { unfold Float.of_Z, binary_normalize, Float.prec, Float.emax.
    destruct z as [|p|p]; [congruence| |]; apply binary_round_small; lia. }
  split; [exact Hn|]. unfold Float.of_int.
  destruct Hn as (s & m & e & -> & _). reflexivity.
Qed.

Lemma shr_52 (m : positive) :
  iter_pos shr_1 52 {| shr_m := Zpos (Pos.iter xO m 52); shr_r := false; shr_s := false |}
  = {| shr_m := Zpos m; shr_r := false; shr_s := false |}.
Proof. reflexivity. Qed.

(** [x * 1.0] is [x]. *)
Lemma mul_one (x : Float.float) : Float.normal x -> Float.mul x Float.one = x.
Proof.
  intros (s & m & e & -> & Hd & He).
  unfold Float.mul, SFmul, Float.one.
  rewrite Pos.mul_comm.
  change (4503599627370496 * m)%positive with (Pos.iter xO m 52).
  unfold binary_round_aux, shr_fexp, fexp, emin, Float.prec, Float.emax.
  cbn [Zdigits2 shr_record_of_loc].
  rewrite digits2_pos_shift, Hd.
  replace (Z.max (53 + 52 + (e + -52) - 53) (3 - 1024 - 53) - (e + -52)) with 52 by lia.
  cbn [shr]. rewrite shr_52.
  cbn [shr_m loc_of_shr_record round_nearest_even Zdigits2 shr_record_of_loc].
  rewrite Hd.
  replace (Z.max (53 + (e + -52 + 52) - 53) (3 - 1024 - 53) - (e + -52 + 52)) with 0 by lia.
  cbn [shr shr_m].
  replace (e + -52 + 52) with e by lia.
  destruct (Z.leb_spec e (1024 - 53)); [|lia].
  destruct s; reflexivity.
Qed.

(** [x / 1.0] is [x]. *)
Lemma div_one (x : Float.float) : Float.normal x -> SFdiv Float.prec Float.emax x Float.one = x.
Proof.
  intros (s & m & e & -> & Hd & He).
  unfold SFdiv, Float.one, SFdiv_core_binary, fexp, emin, Float.prec, Float.emax.
  change (Zdigits2 (Zpos 4503599627370496)) with 53.
  cbn [Zdigits2]. rewrite Hd.
  replace (Z.min (Z.max (53 + e - (53 + -52) - 53) (3 - 1024 - 53)) (e - -52))
    with (e - 1) by lia.
  replace (e - -52 - (e - 1)) with 53 by lia.
  assert (Hdiv : Z.div_eucl (Z.shiftl (Zpos m) 53) 4503599627370496 = (Zpos m~0, 0)).
  { pose proof (Z_div_mod (Z.shiftl (Zpos m) 53) 4503599627370496 eq_refl) as H.
    destruct (Z.div_eucl (Z.shiftl (Z.pos m) 53) 4503599627370496) as [q r].
    destruct H as [H1 H2]. rewrite Z.shiftl_mul_pow2 in H1 by lia.
    change (2 ^ 53) with 9007199254740992 in H1.
    change (Zpos m~0) with (2 * Zpos m). f_equal; lia. }
  rewrite Hdiv. change (new_location 4503599627370496 0) with loc_Exact.
  change (Zpos m~0) with (Zpos (Pos.iter xO m 1)).
  unfold binary_round_aux, shr_fexp, fexp, emin.
  cbn [Zdigits2 shr_record_of_loc].
  rewrite digits2_pos_shift, Hd.
  replace (Z.max (53 + 1 + (e - 1) - 53) (3 - 1024 - 53) - (e - 1)) with 1 by lia.
  cbn [shr iter_pos Pos.iter shr_1 orb].
  cbn [shr_m loc_of_shr_record round_nearest_even Zdigits2 shr_record_of_loc].
  rewrite Hd.
  replace (Z.max (53 + (e - 1 + 1) - 53) (3 - 1024 - 53) - (e - 1 + 1)) with 0 by lia.
  cbn [shr shr_m].
  replace (e - 1 + 1) with e by lia.
  destruct (Z.leb_spec e (1024 - 53)); [|lia].
  destruct s; reflexivity.
Qed.

(** [0 + x] is [x]. *)
Lemma add_zero_normal (x : Float.float) : Float.normal x -> Float.add Float.zero x = x.
Proof. intros (s & m & e & -> & _). reflexivity. Qed.

(** The comparison of an integer with a float is the comparison of the
    numbers they stand for. *)
Lemma int_ge_spec (z : Z) (x : Float.float) : Float.int_ge z x = true <-> Float.le_Z x z.
Proof.
  destruct x as [s|s| |s m e]; cbn [Float.int_ge Float.le_Z].
  - apply Z.leb_le.
  - reflexivity.
  - split; [discriminate | contradiction].
  - unfold Float.to_Q. destruct e as [|p|p]; rewrite Z.leb_le.
    + rewrite Zle_Qle. reflexivity.
    + rewrite Zle_Qle. reflexivity.
    + unfold Qle. cbn [Qnum Qden inject_Z]. rewrite Pos2Z.inj_pow. lia.
Qed.

Lemma int_ge_monotone (z z' : Z) (x : Float.float) :
  z <= z' -> Float.int_ge z x = true -> Float.int_ge z' x = true.
Proof.
  intros Hz. destruct x as [s|s| |s m e]; cbn [Float.int_ge]; auto.
  - rewrite !Z.leb_le. lia.
  - destruct e as [|p|p]; rewrite !Z.leb_le; try lia.
    assert (0 < 2 ^ Zpos p) by (apply Z.pow_pos_nonneg; lia). nia.
Qed.

(** Under [max(1, .)] truncation and floor agree, and they raise alike. *)
Lemma max_one_int_floor {A : Type} (x : Float.float) (k : Z -> result A) :
  (truncated <- Float.to_int x ;; k (Z.max 1 truncated))
  = (floor <- Float.floor x ;; k (Z.max 1 floor)).
Proof.
  destruct x as [s|s| |s m e]; try reflexivity.
  cbn [Float.to_int Float.floor Float.signed]. destruct e as [|p|p]; cbn [bind].
  - destruct s; reflexivity.
  - destruct s; cbn [Float.signed]; [|reflexivity].
    now rewrite <- Z.mul_opp_l.
  - assert (Hp : 0 < 2 ^ Zpos p) by (apply Z.pow_pos_nonneg; lia).
    destruct s; cbn [Float.signed]; [|reflexivity].
    f_equal.
    assert (0 <= Zpos m / 2 ^ Zpos p) by (apply Z.div_pos; lia).
    assert (Zneg m / 2 ^ Zpos p < 1) by (apply Z.div_lt_upper_bound; lia).
    lia.
Qed.

(** ** The configurations *)

Lemma configure_default : configure default_config 1 1 = Ret default_manager.
Proof. vm_compute. reflexivity. Qed.

Lemma configure_scenario : configure scenario_config 1 1 = Ret scenario_manager.
Proof. vm_compute. reflexivity. Qed.

Lemma configure_unbounded : configure unbounded_config 1 1 = Ret unbounded_manager.
Proof. vm_compute. reflexivity. Qed.

(** The thresholds of the two configurations are the numbers 2700 and 90. *)
Lemma thresholds_exact :
  (Float.to_Q (adaptive_threshold default_manager) == 2700 # 1)%Q /\
  (Float.to_Q (adaptive_threshold scenario_manager) == 90 # 1)%Q.
Proof. split; vm_compute; reflexivity. Qed.

(** ** The trigger predicate *)

Lemma should_trigger_state (m : manager) (st : memory) :
  let st' := fst (_should_trigger_summarization m st) in
  summary_json st' = summary_json st /\
  history_buffer st' = history_buffer st /\
  token_buffer st' = token_buffer st.
Proof.
  unfold _should_trigger_summarization.
  repeat match goal with |- context [if ?b then _ else _] => destruct b end;
    cbn; auto.
Qed.

(** The answer as one boolean expression of the buffer. *)
Lemma should_trigger_decision (m : manager) (st : memory) :
  snd (_should_trigger_summarization m st)
  = negb (len (history_buffer st) <? min_interactions m)
    && (Float.int_ge (sum (token_buffer st)) (adaptive_threshold m)
        || (max_interactions m <=? len (history_buffer st))).
Proof.
  unfold _should_trigger_summarization.
  destruct (len (history_buffer st) <? min_interactions m); [reflexivity|].
  cbn [set_current_token_sum current_token_sum history_buffer negb andb].
  destruct (Float.int_ge _ _); [reflexivity|].
  destruct (max_interactions m <=? len (history_buffer st)); reflexivity.
Qed.

(** C4. [_should_trigger_summarization] answers false on every buffer
    shorter than [min_interactions]; it answers true exactly when the
    buffer holds at least [min_interactions] interactions and either the
    token sum has reached [adaptive_threshold], compared as numbers, or the
    buffer has reached [max_interactions]; and the threshold of a manager
    is the float product of [MAX_CONTEXT_TOKENS] and [SAFETY_MARGIN]. *)
Theorem should_trigger_iff (m : manager) (st : memory) :
  (len (history_buffer st) < min_interactions m ->
   snd (_should_trigger_summarization m st) = false) /\
  (snd (_should_trigger_summarization m st) = true <->
   min_interactions m <= len (history_buffer st) /\
   (Float.le_Z (adaptive_threshold m) (sum (token_buffer st)) \/
    max_interactions m <= len (history_buffer st))) /\
  (forall cfg user session,
     configure cfg user session = Ret m ->
     exists tok_K,
       Float.of_int (MAX_CONTEXT_TOKENS cfg) = Ret tok_K /\
       adaptive_threshold m = Float.mul tok_K (SAFETY_MARGIN cfg)).
Proof.
  split; [|split].
  - intros Hlt. rewrite should_trigger_decision.
    apply Z.ltb_lt in Hlt. rewrite Hlt. reflexivity.
  - rewrite should_trigger_decision, andb_true_iff, orb_true_iff, negb_true_iff,
      Z.ltb_ge, Z.leb_le, int_ge_spec. reflexivity.
  - intros cfg user session. unfold configure.
    destruct (Float.of_int (MAX_CONTEXT_TOKENS cfg)) as [tok_K|e]; cbn [bind];
      [|discriminate].
    intros [= <-]. exists tok_K. split; reflexivity.
Qed.

(** The product is the rounded one: with 100 context tokens and a margin of
    0.55 the threshold is the float next above 55, which a token sum of 55
    does not reach. *)
Lemma rounded_threshold_example :
  exists m,
    configure margin_55_config 1 1 = Ret m /\
    (Float.to_Q (adaptive_threshold m) == 55 + (1 # 2 ^ 47))%Q /\
    snd (_should_trigger_summarization m
           {| summary_json := None; history_buffer := [t1; t2];
              token_buffer := [30; 25]; current_token_sum := 0 |}) = false.
Proof.
  eexists. split; [vm_compute; reflexivity|].
  split; vm_compute; reflexivity.
Qed.

(** ** Parallel buffers *)

Lemma aligned_load (found : option memory_row) : aligned (load found).
Proof.
  unfold load, _load_from_db, aligned.
  destruct found as [r|]; [|reflexivity].
  destruct (row_history_buffer r); reflexivity.
Qed.

Lemma aligned_append (st : memory) (p r ts : string) (c : Z) :
  aligned st ->
  aligned (append_interaction st
             {| prompt := p; response := r; timestamp := ts; token_count := Some c |} c).
Proof.
  unfold aligned, append_interaction. cbn. intros ->.
  now rewrite List.map_app.
Qed.

Lemma aligned_should_trigger (m : manager) (st : memory) :
  aligned st -> aligned (fst (_should_trigger_summarization m st)).
Proof.
  unfold aligned. intros H.
  destruct (should_trigger_state m st) as (_ & Hh & Ht).
  now rewrite Hh, Ht.
Qed.

Lemma aligned_retained (st : memory) (dynamic_k : Z) :
  aligned st ->
  retained_tokens (retention_split st dynamic_k)
  = List.map token_count_or_zero (retained (retention_split st dynamic_k)).
Proof.
  unfold aligned, retention_split. intros H.
  destruct (len (history_buffer st) <=? dynamic_k); cbn;
    now rewrite H, slice_from_map.
Qed.

Lemma aligned_adaptive_prune (J : library) (m : manager) (llm : string -> llm_result)
    (st : memory) :
  aligned st -> aligned (fst (_adaptive_prune J m llm st)).
Proof.
  intros H. unfold _adaptive_prune.
  destruct (_calculate_dynamic_threshold m st) as [dk|e]; [|exact H].
  destruct (summarize J llm (summary_json st) _) as [new|e]; [|exact H].
  destruct (opt_truthy new); [|exact H].
  unfold aligned. cbn. now apply aligned_retained.
Qed.

Lemma log_interaction_returns (m : manager) (o : insert_outcome) (db : list row)
    (p r ts : string) (c : Z) :
  snd (_log_interaction_to_db m o db p r ts c) = Ret tt.
Proof. destruct o; reflexivity. Qed.

Lemma aligned_add_interaction (J : library) (m : manager) (w : world)
    (p r : string) (c : Z) (full : option string) (db : list row) (st : memory) :
  aligned st -> aligned (snd (fst (add_interaction J m w p r c full db st))).
Proof.
  intros H. unfold add_interaction.
  pose proof (log_interaction_returns m (insert w) db p
                (match full with Some f => f | None => r end) (now w) c) as Hlog.
  destruct (_log_interaction_to_db _ _ _ _ _ _ _) as [db' logged].
  cbn in Hlog. subst logged.
  pose proof (aligned_should_trigger m _ (aligned_append st p r (now w) c H)) as H1.
  destruct (_should_trigger_summarization m _) as [st1 trigger].
  cbn in H1. destruct trigger; [|exact H1].
  pose proof (aligned_adaptive_prune J m (llm w) st1 H1) as H2.
  destruct (_adaptive_prune J m (llm w) st1) as [st2 res]. exact H2.
Qed.

Lemma reachable_aligned (J : library) (m : manager) (st : memory) :
  reachable J m st -> aligned st.
Proof.
  induction 1 as [found | st w p r c full db _ IH].
  - apply aligned_load.
  - now apply aligned_add_interaction.
Qed.

(** C2. In every state reachable from a freshly loaded one by
    [add_interaction] calls, [token_buffer] is as long as [history_buffer]
    and its sum is the sum of the stored [token_count] fields (a missing
    field read as 0). *)
Theorem reachable_buffers_parallel (J : library) (m : manager) (st : memory) :
  reachable J m st ->
  len (token_buffer st) = len (history_buffer st) /\
  sum (token_buffer st) = sum (List.map token_count_or_zero (history_buffer st)).
Proof.
  intros H. apply reachable_aligned in H. unfold aligned in H.
  rewrite H. split; [apply len_map | reflexivity].
Qed.

(** ** A failed summarization *)

(** C1 (the code departs from it). With a summary already stored, a call of
    the summarizer model that raises makes [summarize] hand back the
    previous summary, which [_adaptive_prune] takes for a new one: the
    buffer loses its oldest interaction although nothing was summarized. *)
Theorem failed_summarization_truncates_buffer :
  summarize JsonRef.lib llm_down (summary_json summarized_state) [t1]
    = Ret (summary_json summarized_state) /\
  _adaptive_prune JsonRef.lib scenario_manager llm_down summarized_state
    = ({| summary_json := Some "{}"; history_buffer := [t2; t3];
          token_buffer := [40; 40]; current_token_sum := 120 |}, Ret tt).
Proof. split; vm_compute; reflexivity. Qed.

(** ** The hard cap on zero-token interactions *)

(** C3 (the code departs from it). Under the default configuration, 49
    zero-token interactions are added without a prune; the 50th reaches
    [max_interactions], the trigger fires, and the division by the smoothed
    average raises [ZeroDivisionError] out of [add_interaction]. *)
Theorem hard_cap_on_zero_tokens_raises :
  snd (run JsonRef.lib default_manager (List.repeat (empty_answer Inserted) 49)
           ([], load None)) = Ret tt /\
  snd (run JsonRef.lib default_manager (List.repeat (empty_answer Inserted) 50)
           ([], load None)) = Raise ZeroDivisionError.
Proof. split; vm_compute; reflexivity. Qed.

(** ** Context assembly *)

(** C7 (the code departs from it). A stored summary that decodes to a JSON
    array makes [summary_data.get] raise [AttributeError], which the
    [except (json.JSONDecodeError, TypeError)] clause does not catch. *)
Theorem get_context_raises_on_array_summary :
  loads JsonRef.lib "[]" = Some (JArr []) /\
  get_context JsonRef.lib array_summary_state = Raise AttributeError.
Proof. split; vm_compute; reflexivity. Qed.

(** ** The dynamic retention size *)

Lemma bind_assoc {A B C : Type} (r : result A) (f : A -> result B) (g : B -> result C) :
  bind (bind r f) g = bind r (fun a => bind (f a) g).
Proof. destruct r; reflexivity. Qed.

(** Whatever [_calculate_dynamic_threshold] returns on a non-empty buffer
    is an [optimal_k] of at least one brought between the two bounds. *)
Lemma dynamic_threshold_returns (m : manager) (st : memory) (k : Z) :
  _calculate_dynamic_threshold m st = Ret k ->
  (token_buffer st = [] /\ k = min_interactions m) \/
  (exists optimal_k, 1 <= optimal_k /\
     k = Z.max (min_interactions m) (Z.min (max_interactions m) optimal_k)).
Proof.
  unfold _calculate_dynamic_threshold.
  destruct (token_buffer st) as [|t rest].
  - intros [= <-]. left. auto.
  - destruct (avg_tokens m (t :: rest)) as [avg|e]; cbn [bind]; [|discriminate].
    destruct (Float.of_number avg) as [d|e]; cbn [bind]; [|discriminate].
    destruct (Float.truediv _ d) as [q|e]; cbn [bind]; [|discriminate].
    destruct (Float.to_int q) as [z|e]; cbn [bind]; [|discriminate].
    intros [= <-]. right. exists (Z.max 1 z). split; [lia | reflexivity].
Qed.

(** From the average on, the code and the formula agree. *)
Lemma dynamic_k_from_average (m : manager) (st : memory) :
  token_buffer st <> [] ->
  (avg <- avg_tokens m (token_buffer st) ;; Float.of_number avg)
  = Spec.average m (token_buffer st) ->
  _calculate_dynamic_threshold m st = Spec.dynamic_k m (token_buffer st).
Proof.
  intros Hne Havg.
  unfold _calculate_dynamic_threshold, Spec.dynamic_k, Spec.optimal_k, Spec.clamp.
  rewrite <- Havg.
  destruct (token_buffer st) as [|t rest]; [congruence|].
  destruct (avg_tokens m (t :: rest)) as [avg|e]; cbn [bind]; [|reflexivity].
  destruct (Float.of_number avg) as [d|e]; cbn [bind]; [|reflexivity].
  destruct (Float.truediv _ d) as [q|e]; cbn [bind]; [|reflexivity].
  rewrite (max_one_int_floor q
             (fun o => Ret (Z.max (min_interactions m) (Z.min (max_interactions m) o)))).
  destruct (Float.floor q); reflexivity.
Qed.

(** With a positive weight sum the guard of the code keeps the quotient of
    the formula. *)
Lemma smoothed_average_spec (m : manager) (tokens : list Z) :
  (forall weights, Spec.weights m (len tokens) = Ret weights ->
                   Float.lt Float.zero (Float.sum weights) = true) ->
  (avg <- smoothed_average m tokens ;; Float.of_number avg) = Spec.average m tokens.
Proof.
  intros Hpos. unfold smoothed_average, Spec.average, weighted_tokens.
  change (weights m (len tokens)) with (Spec.weights m (len tokens)).
  destruct (Spec.weights m (len tokens)) as [ws|e]; cbn [bind]; [|reflexivity].
  destruct (collect _) as [terms|e]; cbn [bind]; [|reflexivity].
  rewrite (Hpos ws eq_refl).
  destruct (Float.truediv _ _); reflexivity.
Qed.

(** The [n == 1] special case: on one count the formula multiplies and
    divides by the weight 1.0, which changes nothing. *)
Lemma single_average_spec (m : manager) (t : Z) :
  - 2 ^ 53 < t < 2 ^ 53 -> Spec.average m [t] = Float.of_int t.
Proof.
  intros Ht. unfold Spec.average.
  change (Spec.weights m (len [t])) with (Ret [Float.one] : result (list Float.float)).
  cbn [bind List.combine List.map collect fst snd].
  destruct (Z.eq_dec t 0) as [->|Hnz]; [reflexivity|].
  destruct (of_Z_small t Ht Hnz) as [Hn Hi]. rewrite Hi. cbn [bind].
  unfold Float.sum. cbn [List.fold_left].
  rewrite (mul_one _ Hn), (add_zero_normal _ Hn).
  change (Float.add Float.zero Float.one) with Float.one.
  unfold Float.truediv. cbn [Float.is_zero Float.one].
  now rewrite (div_one _ Hn).
Qed.

Lemma len_two {A : Type} (l : list A) : 2 <= len l -> (len l =? 1) = false /\ l <> [].
Proof.
  intros H. split; [apply Z.eqb_neq; lia|].
  intros ->. cbn in H. lia.
Qed.

(** C5 (the code departs from it). On a buffer whose counts are zero the
    average is zero and the division of the threshold by it raises
    [ZeroDivisionError]: no retention size is returned. This happens on the
    single count of a first empty answer, through the [n == 1] branch, and
    on two such counts, through the smoothed average, whose guard on the
    weight sum passes. *)
Theorem calculate_dynamic_threshold_zero_average :
  avg_tokens default_manager (token_buffer one_zero) = Ret (Float.Int 0) /\
  _calculate_dynamic_threshold default_manager one_zero = Raise ZeroDivisionError /\
  avg_tokens default_manager (token_buffer two_zeros) = Ret (Float.Flt Float.zero) /\
  _calculate_dynamic_threshold default_manager two_zeros = Raise ZeroDivisionError.
Proof.
  split; [vm_compute; reflexivity|].
  split; [vm_compute; reflexivity|].
  split; vm_compute; reflexivity.
Qed.

(** X30. [_calculate_dynamic_threshold] returns [min_interactions] on an
    empty buffer and otherwise agrees, raising included, with the formula
    [clamp(max(1, floor(adaptive_threshold / avg)), min_interactions,
    max_interactions)] of the smoothed average, each operation a float
    operation: on one count below 2^53 in size, where the code skips the
    weights, and on two or more counts whenever the weights sum to a
    positive number, so that the guard keeps the quotient. Being float
    arithmetic, the result can be one below the exact quotient: under
    [config.py] five counts of 450 average to a float above 450 and give the
    retention size 5, where 2700 / 450 is 6. *)
Theorem calculate_dynamic_threshold_spec (m : manager) (st : memory) :
  (token_buffer st = [] ->
   _calculate_dynamic_threshold m st = Ret (min_interactions m)) /\
  (forall t, token_buffer st = [t] -> - 2 ^ 53 < t < 2 ^ 53 ->
   _calculate_dynamic_threshold m st = Spec.dynamic_k m (token_buffer st)) /\
  (2 <= len (token_buffer st) ->
   (forall weights, Spec.weights m (len (token_buffer st)) = Ret weights ->
                    Float.lt Float.zero (Float.sum weights) = true) ->
   _calculate_dynamic_threshold m st = Spec.dynamic_k m (token_buffer st)) /\
  (exists avg,
     avg_tokens default_manager (token_buffer five_450) = Ret (Float.Flt avg) /\
     (450 # 1 < Float.to_Q avg)%Q /\
     _calculate_dynamic_threshold default_manager five_450 = Ret 5 /\
     Spec.dynamic_k default_manager (token_buffer five_450) = Ret 5 /\
     5 < 2700 / 450).
Proof.
  split; [|split; [|split]].
  - unfold _calculate_dynamic_threshold. intros ->. reflexivity.
  - intros t Htb Ht. apply dynamic_k_from_average; [rewrite Htb; discriminate|].
    rewrite Htb, single_average_spec by assumption. reflexivity.
  - intros Hlen Hpos. destruct (len_two _ Hlen) as [Hone Hne].
    apply dynamic_k_from_average; [assumption|].
    unfold avg_tokens. rewrite Hone. now apply smoothed_average_spec.
  - eexists. split; [vm_compute; reflexivity|].
    split; [vm_compute; reflexivity|].
    split; [vm_compute; reflexivity|].
    split; vm_compute; reflexivity.
Qed.

(** ** The retention split *)

Lemma clip_index_zero {A : Type} (l : list A) : clip_index l 0 = 0%nat.
Proof. unfold clip_index. cbn. pose proof (len_nonneg l). lia. Qed.

Lemma clip_index_len {A : Type} (l : list A) : clip_index l (len l) = List.length l.
Proof.
  unfold clip_index. pose proof (len_nonneg l).
  destruct (Z.ltb_spec (len l) 0); [lia|].
  rewrite Z.min_id, Z.max_r by lia. unfold len. apply Nat2Z.id.
Qed.

(** [l[:k]] is [l[0:k]] and [l[k:]] is [l[k:len(l)]]. *)
Lemma slice_to_slice {A : Type} (l : list A) (k : Z) : slice_to l k = slice l 0 k.
Proof. unfold slice_to, slice. now rewrite clip_index_zero. Qed.

Lemma slice_from_slice {A : Type} (l : list A) (k : Z) :
  slice_from l k = slice l k (len l).
Proof. unfold slice_from, slice. now rewrite clip_index_len, List.firstn_all. Qed.

(** A negative bound [-k] is the bound [len - k]. *)
Lemma clip_index_negative {A : Type} (l : list A) (k : Z) :
  0 < k < len l -> clip_index l (- k) = clip_index l (len l - k).
Proof.
  intros Hk. unfold clip_index.
  destruct (Z.ltb_spec (- k) 0); [|lia].
  destruct (Z.ltb_spec (len l - k) 0); [lia|].
  f_equal.
Qed.

Lemma slice_to_nonempty {A : Type} (l : list A) (k : Z) :
  1 <= k -> l <> [] -> slice_to l k <> [].
Proof.
  intros Hk Hl. unfold slice_to, clip_index.
  destruct l as [|x l]; [congruence|].
  destruct (Z.ltb_spec k 0); [lia|].
  assert (Hn : 1 <= len (x :: l)) by (unfold len; cbn [List.length]; lia).
  destruct (Z.to_nat (Z.max 0 (Z.min (len (x :: l)) k))) eqn:E; [lia|].
  cbn. discriminate.
Qed.

Lemma len_slices {A : Type} (l : list A) (k : Z) :
  len (slice_to l k) + len (slice_from l k) = len l.
Proof. rewrite <- len_app. now rewrite slice_to_from. Qed.

(** With a bound of at least one, [_calculate_dynamic_threshold] keeps at
    least one interaction. *)
Lemma dynamic_threshold_positive (m : manager) (st : memory) (dynamic_k : Z) :
  1 <= min_interactions m ->
  _calculate_dynamic_threshold m st = Ret dynamic_k -> 1 <= dynamic_k.
Proof.
  intros Hmin Hk.
  destruct (dynamic_threshold_returns m st dynamic_k Hk) as [[_ ->] | (o & Ho & ->)]; lia.
Qed.

(** The state on which [add_interaction] invokes [_adaptive_prune] has a
    non-empty buffer and a token buffer of the same length. *)
Lemma prune_invocation_state (J : library) (m : manager) (st : memory)
    (p r ts : string) (c : Z) :
  reachable J m st ->
  let st1 := fst (_should_trigger_summarization m
                    (append_interaction st
                       {| prompt := p; response := r; timestamp := ts;
                          token_count := Some c |} c)) in
  len (token_buffer st1) = len (history_buffer st1) /\ 0 < len (history_buffer st1).
Proof.
  intros H. cbv zeta.
  pose proof (aligned_should_trigger m _
                (aligned_append st p r ts c (reachable_aligned J m st H))) as Ha.
  destruct (should_trigger_state m
              (append_interaction st
                 {| prompt := p; response := r; timestamp := ts;
                    token_count := Some c |} c)) as (_ & Hh & _).
  unfold aligned in Ha. rewrite Ha, len_map. split; [reflexivity|].
  rewrite Hh. cbn [append_interaction history_buffer]. rewrite len_app.
  pose proof (len_nonneg (history_buffer st)). cbn. lia.
Qed.

(** X31. When [_adaptive_prune] runs on a buffer of length [n > 0] with
    a token buffer of the same length and the retention size [dynamic_k] it
    computed is at least one: for [n <= dynamic_k] the split index is
    [max(1, n // 2)], otherwise it is [n - dynamic_k]; [to_summarize] is
    [buffer[0:index]], [retained] is [buffer[index:n]], the token buffer is
    cut at the same index, nothing is lost and [to_summarize] is not
    empty. *)
Theorem retention_split_spec (m : manager) (st : memory) (dynamic_k : Z) :
  _calculate_dynamic_threshold m st = Ret dynamic_k ->
  len (token_buffer st) = len (history_buffer st) ->
  0 < len (history_buffer st) ->
  1 <= dynamic_k ->
  let n := len (history_buffer st) in
  let index := if n <=? dynamic_k then Z.max 1 (n / 2) else n - dynamic_k in
  let sp := retention_split st dynamic_k in
  to_summarize sp = slice (history_buffer st) 0 index /\
  retained sp = slice (history_buffer st) index n /\
  to_summarize_tokens sp = slice (token_buffer st) 0 index /\
  retained_tokens sp = slice (token_buffer st) index n /\
  len (to_summarize sp) + len (retained sp) = n /\
  to_summarize sp <> [].
Proof.
  intros _ Hlen Hn Hk. cbv zeta. unfold retention_split.
  assert (Hne : history_buffer st <> []).
  { intros E. rewrite E in Hn. cbn in Hn. lia. }
  destruct (Z.leb_spec (len (history_buffer st)) dynamic_k) as [Hle|Hgt];
    cbn [to_summarize retained to_summarize_tokens retained_tokens].
  - repeat split.
    + apply slice_to_slice.
    + apply slice_from_slice.
    + apply slice_to_slice.
    + rewrite slice_from_slice, Hlen. reflexivity.
    + apply len_slices.
    + apply slice_to_nonempty; [lia | assumption].
  - assert (Hh : clip_index (history_buffer st) (- dynamic_k)
                 = clip_index (history_buffer st) (len (history_buffer st) - dynamic_k))
      by (apply clip_index_negative; lia).
    assert (Ht : clip_index (token_buffer st) (- dynamic_k)
                 = clip_index (token_buffer st) (len (history_buffer st) - dynamic_k))
      by (rewrite <- Hlen; apply clip_index_negative; lia).
    assert (Eh : slice_to (history_buffer st) (- dynamic_k)
                 = slice_to (history_buffer st) (len (history_buffer st) - dynamic_k))
      by (unfold slice_to; now rewrite Hh).
    assert (Fh : slice_from (history_buffer st) (- dynamic_k)
                 = slice_from (history_buffer st) (len (history_buffer st) - dynamic_k))
      by (unfold slice_from; now rewrite Hh).
    assert (Et : slice_to (token_buffer st) (- dynamic_k)
                 = slice_to (token_buffer st) (len (history_buffer st) - dynamic_k))
      by (unfold slice_to; now rewrite Ht).
    assert (Ft : slice_from (token_buffer st) (- dynamic_k)
                 = slice_from (token_buffer st) (len (history_buffer st) - dynamic_k))
      by (unfold slice_from; now rewrite Ht).
    rewrite Eh, Fh, Et, Ft.
    repeat split.
    + apply slice_to_slice.
    + apply slice_from_slice.
    + apply slice_to_slice.
    + rewrite slice_from_slice, Hlen. reflexivity.
    + apply len_slices.
    + apply slice_to_nonempty; [lia | assumption].
Qed.

Lemma retention_split_spec_witness :
  to_summarize (retention_split three_forties 2) = slice [t1; t2; t3] 0 1 /\
  retained (retention_split three_forties 2) = slice [t1; t2; t3] 1 3 /\
  to_summarize_tokens (retention_split three_forties 2) = slice [40; 40; 40] 0 1 /\
  retained_tokens (retention_split three_forties 2) = slice [40; 40; 40] 1 3 /\
  len (to_summarize (retention_split three_forties 2))
  + len (retained (retention_split three_forties 2)) = 3 /\
  to_summarize (retention_split three_forties 2) <> [].
Proof.
  apply (retention_split_spec scenario_manager three_forties 2).
  - vm_compute. reflexivity.
  - reflexivity.
  - reflexivity.
  - lia.
Defined.


(** ** The scenario of three 40-token interactions *)

Lemma scenario_dynamic_k (st : memory) :
  token_buffer st = [40; 40; 40] ->
  _calculate_dynamic_threshold scenario_manager st = Ret 2.
Proof.
  intros Htb. unfold _calculate_dynamic_threshold. rewrite Htb.
  vm_compute. reflexivity.
Qed.

(** The prompt [summarize] sends for a log of one interaction when no
    summary is stored, and what it makes of a decodable answer. *)
Lemma summarize_one (J : library) (llm : string -> llm_result) (i : interaction)
    (c : string) :
  llm ("Here is the conversation log to summarize:" ++ nl ++ nl
       ++ "[" ++ timestamp i ++ "] USER: " ++ prompt i ++ nl
       ++ "[" ++ timestamp i ++ "] ASSISTANT: " ++ response i ++ nl ++ nl)%string
  = LlmContent c ->
  loads J c <> None ->
  summarize J llm None [i] = Ret (Some c).
Proof.
  intros Hllm Hc.
  transitivity
    (match llm ("Here is the conversation log to summarize:" ++ nl ++ nl
                ++ "[" ++ timestamp i ++ "] USER: " ++ prompt i ++ nl
                ++ "[" ++ timestamp i ++ "] ASSISTANT: " ++ response i ++ nl ++ nl)%string
     with
     | LlmRaises => Ret None
     | LlmContent summary_json_str =>
         match loads J summary_json_str with
         | None => Ret None
         | Some _ => Ret (Some summary_json_str)
         end
     end); [reflexivity|].
  rewrite Hllm. destruct (loads J c); congruence.
Qed.

(** What [add_interaction] does to the memory depends neither on the
    transcript nor on the answer of the database. *)
Lemma add_interaction_memory (J : library) (m : manager) (w : world)
    (p r : string) (c : Z) (full : option string) (db : list row) (st : memory) :
  let a := add_interaction J m w p r c full db st in
  let st1 := append_interaction st
               {| prompt := p; response := r; timestamp := now w;
                  token_count := Some c |} c in
  (snd (fst a), snd a)
  = if snd (_should_trigger_summarization m st1)
    then _adaptive_prune J m (llm w) (fst (_should_trigger_summarization m st1))
    else (fst (_should_trigger_summarization m st1), Ret tt).
Proof.
  cbv zeta. unfold add_interaction.
  pose proof (log_interaction_returns m (insert w) db p
                (match full with Some f => f | None => r end) (now w) c) as Hlog.
  destruct (_log_interaction_to_db _ _ _ _ _ _ _) as [db' logged].
  cbn in Hlog. subst logged.
  destruct (_should_trigger_summarization m _) as [st1 trigger].
  cbn [fst snd]. destruct trigger; [|reflexivity].
  destruct (_adaptive_prune J m (llm w) st1). reflexivity.
Qed.


Lemma scenario_prune (J : library) (llm : string -> llm_result) (c : string)
    (i1 i2 i3 : interaction) (cts : Z) :
  llm ("Here is the conversation log to summarize:" ++ nl ++ nl
       ++ "[" ++ timestamp i1 ++ "] USER: " ++ prompt i1 ++ nl
       ++ "[" ++ timestamp i1 ++ "] ASSISTANT: " ++ response i1 ++ nl ++ nl)%string
  = LlmContent c ->
  loads J c <> None ->
  str_truthy c = true ->
  _adaptive_prune J scenario_manager llm
    {| summary_json := None; history_buffer := [i1; i2; i3];
       token_buffer := [40; 40; 40]; current_token_sum := cts |}
  = ({| summary_json := Some c; history_buffer := [i2; i3];
        token_buffer := [40; 40]; current_token_sum := cts |}, Ret tt).
Proof.
  intros Hllm Hc Ht. unfold _adaptive_prune.
  rewrite scenario_dynamic_k by reflexivity.
  change (retention_split _ 2) with
    {| to_summarize := [i1]; to_summarize_tokens := [40];
       retained := [i2; i3]; retained_tokens := [40; 40] |}.
  cbn [to_summarize retained retained_tokens summary_json current_token_sum].
  rewrite (summarize_one J llm i1 c Hllm Hc).
  cbn [opt_truthy]. rewrite Ht. reflexivity.
Qed.

(** C8. Under the configuration min 2, max 50, margin 0.9 of 100 context
    tokens, whose threshold is the float 90.0, three calls with 40 response
    tokens each from the empty state: the first two leave the buffers as
    appended (sums 40 and 80, no prune); the third makes the trigger fire,
    the retention size is 2, the standard branch cuts off the first
    interaction, and the summarizer model is asked about that interaction
    alone: if it answers this one prompt with a decodable, non-empty [c],
    whatever it would answer to any other, the call ends with the summary
    [c], the last two interactions and the token buffer [40; 40]. *)
Theorem scenario_three_forty_token_calls (J : library) (w1 w2 w3 : world)
    (p1 r1 p2 r2 p3 r3 : string) (f1 f2 f3 : option string) (db : list row)
    (c : string) :
  llm w3 ("Here is the conversation log to summarize:" ++ nl ++ nl
          ++ "[" ++ now w1 ++ "] USER: " ++ p1 ++ nl
          ++ "[" ++ now w1 ++ "] ASSISTANT: " ++ r1 ++ nl ++ nl)%string
  = LlmContent c ->
  loads J c <> None ->
  str_truthy c = true ->
  let m := scenario_manager in
  let i1 := {| prompt := p1; response := r1; timestamp := now w1; token_count := Some 40 |} in
  let i2 := {| prompt := p2; response := r2; timestamp := now w2; token_count := Some 40 |} in
  let i3 := {| prompt := p3; response := r3; timestamp := now w3; token_count := Some 40 |} in
  let a1 := add_interaction J m w1 p1 r1 40 f1 db init in
  let a2 := add_interaction J m w2 p2 r2 40 f2 (fst (fst a1)) (snd (fst a1)) in
  let a3 := add_interaction J m w3 p3 r3 40 f3 (fst (fst a2)) (snd (fst a2)) in
  let full := {| summary_json := None; history_buffer := [i1; i2; i3];
                 token_buffer := [40; 40; 40]; current_token_sum := 120 |} in
  configure scenario_config 1 1 = Ret m /\
  (Float.to_Q (adaptive_threshold m) == 90 # 1)%Q /\
  (snd (fst a1), snd a1)
  = ({| summary_json := None; history_buffer := [i1];
        token_buffer := [40]; current_token_sum := 0 |}, Ret tt) /\
  (snd (fst a2), snd a2)
  = ({| summary_json := None; history_buffer := [i1; i2];
        token_buffer := [40; 40]; current_token_sum := 80 |}, Ret tt) /\
  _should_trigger_summarization m (append_interaction (snd (fst a2)) i3 40)
  = (full, true) /\
  _calculate_dynamic_threshold m full = Ret 2 /\
  retention_split full 2
  = {| to_summarize := [i1]; to_summarize_tokens := [40];
       retained := [i2; i3]; retained_tokens := [40; 40] |} /\
  summarize J (llm w3) (summary_json full) (to_summarize (retention_split full 2))
  = Ret (Some c) /\
  (snd (fst a3), snd a3)
  = ({| summary_json := Some c; history_buffer := [i2; i3];
        token_buffer := [40; 40]; current_token_sum := 120 |}, Ret tt).
Proof.
  intros Hllm Hc Ht. cbv zeta.
  pose proof (add_interaction_memory J scenario_manager w1 p1 r1 40 f1 db init) as E1.
  cbv zeta in E1.
  destruct (add_interaction J scenario_manager w1 p1 r1 40 f1 db init)
    as [[db1 st1] res1].
  cbn [fst snd] in *.
  change (_should_trigger_summarization _ _) with
    ({| summary_json := None;
        history_buffer := [{| prompt := p1; response := r1; timestamp := now w1;
                              token_count := Some 40 |}];
        token_buffer := [40]; current_token_sum := 0 |}, false) in E1.
  cbn [fst snd] in E1. injection E1 as -> ->.
  pose proof (add_interaction_memory J scenario_manager w2 p2 r2 40 f2 db1
                {| summary_json := None;
                   history_buffer := [{| prompt := p1; response := r1; timestamp := now w1;
                                         token_count := Some 40 |}];
                   token_buffer := [40]; current_token_sum := 0 |}) as E2.
  cbv zeta in E2.
  destruct (add_interaction J scenario_manager w2 p2 r2 40 f2 db1 _)
    as [[db2 st2] res2].
  cbn [fst snd] in *.
  change (_should_trigger_summarization _ _) with
    ({| summary_json := None;
        history_buffer := [{| prompt := p1; response := r1; timestamp := now w1;
                              token_count := Some 40 |};
                           {| prompt := p2; response := r2; timestamp := now w2;
                              token_count := Some 40 |}];
        token_buffer := [40; 40]; current_token_sum := 80 |}, false) in E2.
  cbn [fst snd] in E2. injection E2 as -> ->.
  pose proof (add_interaction_memory J scenario_manager w3 p3 r3 40 f3 db2
                {| summary_json := None;
                   history_buffer := [{| prompt := p1; response := r1; timestamp := now w1;
                                         token_count := Some 40 |};
                                      {| prompt := p2; response := r2; timestamp := now w2;
                                         token_count := Some 40 |}];
                   token_buffer := [40; 40]; current_token_sum := 80 |}) as E3.
  cbv zeta in E3.
  destruct (add_interaction J scenario_manager w3 p3 r3 40 f3 db2 _)
    as [[db3 st3] res3].
  cbn [fst snd] in *.
  change (_should_trigger_summarization scenario_manager _) with
    ({| summary_json := None;
        history_buffer := [{| prompt := p1; response := r1; timestamp := now w1;
                              token_count := Some 40 |};
                           {| prompt := p2; response := r2; timestamp := now w2;
                              token_count := Some 40 |};
                           {| prompt := p3; response := r3; timestamp := now w3;
                              token_count := Some 40 |}];
        token_buffer := [40; 40; 40]; current_token_sum := 120 |}, true) in E3 |- *.
  cbn [fst snd] in E3.
  rewrite (scenario_prune J (llm w3) c
             {| prompt := p1; response := r1; timestamp := now w1; token_count := Some 40 |}
             {| prompt := p2; response := r2; timestamp := now w2; token_count := Some 40 |}
             {| prompt := p3; response := r3; timestamp := now w3; token_count := Some 40 |}
             120 Hllm Hc Ht) in E3.
  split; [exact configure_scenario|].
  split; [exact (proj2 thresholds_exact)|].
  split; [reflexivity|].
  split; [reflexivity|].
  split; [reflexivity|].
  split; [apply scenario_dynamic_k; reflexivity|].
  split; [reflexivity|].
  split;
    [exact (summarize_one J (llm w3)
              {| prompt := p1; response := r1; timestamp := now w1;
                 token_count := Some 40 |} c Hllm Hc)|].
  exact E3.
Qed.

Lemma scenario_three_forty_token_calls_witness :
  let answering := llm_expecting first_turn_prompt empty_summary in
  let w1 := world_at "2025-08-29T21:44:30+00:00" Inserted llm_down in
  let w2 := world_at "2025-08-29T21:45:10+00:00" Inserted llm_down in
  let w3 := world_at "2025-08-29T21:46:02+00:00" InsertFails answering in
  let m := scenario_manager in
  let a1 := add_interaction JsonRef.lib m w1 "first question" "first answer" 40 None [] init in
  let a2 := add_interaction JsonRef.lib m w2 "second question" "second answer" 40 None
                            (fst (fst a1)) (snd (fst a1)) in
  let a3 := add_interaction JsonRef.lib m w3 "third question" "third answer" 40 None
                            (fst (fst a2)) (snd (fst a2)) in
  (snd (fst a3), snd a3)
  = ({| summary_json := Some empty_summary;
        history_buffer :=
          [ {| prompt := "second question"; response := "second answer";
               timestamp := "2025-08-29T21:45:10+00:00"; token_count := Some 40 |};
            {| prompt := "third question"; response := "third answer";
               timestamp := "2025-08-29T21:46:02+00:00"; token_count := Some 40 |} ];
        token_buffer := [40; 40]; current_token_sum := 120 |}, Ret tt).
Proof.
  cbv zeta.
  apply (scenario_three_forty_token_calls JsonRef.lib
           (world_at "2025-08-29T21:44:30+00:00" Inserted llm_down)
           (world_at "2025-08-29T21:45:10+00:00" Inserted llm_down)
           (world_at "2025-08-29T21:46:02+00:00" InsertFails
                     (llm_expecting first_turn_prompt empty_summary))
           "first question" "first answer" "second question" "second answer"
           "third question" "third answer" None None None [] empty_summary).
  - vm_compute. reflexivity.
  - vm_compute. discriminate.
  - reflexivity.
Defined.

(** ** The token estimator *)

Lemma tokenizer_path_nonneg (tk : tiktoken) (text : json) (model_name : string) (n : Z) :
  tokenizer_path tk text model_name = Ret n -> 0 <= n.
Proof.
  unfold tokenizer_path.
  destruct (negb (truthy text) || negb (is_str text)).
  - intros [= <-]. lia.
  - destruct (get_tokenizer_for_model tk model_name) as [tokenizer|e]; [|discriminate].
    cbn [bind]. destruct (encode_value tokenizer text) as [tokens|e]; [|discriminate].
    cbn [bind]. intros [= <-]. apply len_nonneg.
Qed.

(** C9. [count_tokens] returns 0 on every falsy or non-string text; on
    every string it returns a non-negative integer, never raising; and
    whenever the tokenizer path raises on a string it returns
    [max(1, len(text) // 4)]. *)
Theorem count_tokens_spec (tk : tiktoken) (text : json) (model_name : string) :
  (truthy text = false \/ is_str text = false ->
   count_tokens tk text model_name = Ret 0) /\
  (forall s, text = JStr s ->
   exists n, count_tokens tk text model_name = Ret n /\ 0 <= n) /\
  (forall s e, text = JStr s ->
   tokenizer_path tk text model_name = Raise e ->
   count_tokens tk text model_name
   = Ret (Z.max 1 (Z.of_nat (String.length s) / 4))).
Proof.
  unfold count_tokens. split; [|split].
  - intros H. unfold tokenizer_path.
    assert (Hb : negb (truthy text) || negb (is_str text) = true)
      by (destruct H as [-> | ->]; cbn; auto using orb_true_r).
    rewrite Hb. reflexivity.
  - intros s ->.
    destruct (tokenizer_path tk (JStr s) model_name) as [n|e] eqn:Hp.
    + exists n. split; [reflexivity|]. eapply tokenizer_path_nonneg; eassumption.
    + cbn. eexists. split; [reflexivity|]. lia.
  - intros s e -> ->. reflexivity.
Qed.

Lemma count_tokens_spec_witness :
  count_tokens offline_tiktoken (JStr "twelve chars") "default" = Ret 3.
Proof.
  apply (proj2 (proj2 (count_tokens_spec offline_tiktoken (JStr "twelve chars") "default"))
           "twelve chars" ConnectionError); reflexivity.
Defined.

(** ** A failed transcript insert *)

(** X32. When the transcript insert fails with
    [sqlite3.Error], the error is swallowed and the transcript keeps no row
    of the call; [add_interaction] still appends the interaction and its
    token count, still evaluates the trigger predicate and ends, memory and
    outcome, exactly as the same call with a successful insert: it returns
    normally whenever the trigger does not fire, and an exception can only
    be one the pruning path raises. *)
Theorem failed_insert_is_transparent (J : library) (m : manager) (w : world)
    (p r : string) (c : Z) (full : option string) (db : list row) (st : memory) :
  let failing := {| now := now w; insert := InsertFails; llm := llm w |} in
  let succeeding := {| now := now w; insert := Inserted; llm := llm w |} in
  let a := add_interaction J m failing p r c full db st in
  let b := add_interaction J m succeeding p r c full db st in
  let i := {| prompt := p; response := r; timestamp := now w; token_count := Some c |} in
  let st1 := append_interaction st i c in
  let checked := _should_trigger_summarization m st1 in
  fst (fst a) = db /\
  List.length (fst (fst b)) = S (List.length db) /\
  (snd (fst a), snd a) = (snd (fst b), snd b) /\
  (snd (fst a), snd a)
  = (if snd checked then _adaptive_prune J m (llm w) (fst checked)
     else (fst checked, Ret tt)) /\
  (snd checked = false ->
   snd a = Ret tt /\
   history_buffer (snd (fst a)) = history_buffer st ++ [i] /\
   token_buffer (snd (fst a)) = token_buffer st ++ [c]) /\
  (forall e, snd a = Raise e ->
   snd checked = true /\
   snd (_adaptive_prune J m (llm w) (fst checked)) = Raise e).
Proof.
  cbv zeta.
  pose proof (add_interaction_memory J m
                {| now := now w; insert := InsertFails; llm := llm w |}
                p r c full db st) as Ha.
  pose proof (add_interaction_memory J m
                {| now := now w; insert := Inserted; llm := llm w |}
                p r c full db st) as Hb.
  cbv zeta in Ha, Hb. cbn [now llm] in Ha, Hb.
  split; [|split; [|split; [|split; [|split]]]].
  - unfold add_interaction. cbn [insert _log_interaction_to_db execute_insert try_except
                                  exn_eqb].
    destruct (_should_trigger_summarization m _) as [st1 trigger].
    destruct trigger; [|reflexivity].
    destruct (_adaptive_prune J m _ st1). reflexivity.
  - unfold add_interaction. cbn [insert _log_interaction_to_db execute_insert try_except].
    destruct (_should_trigger_summarization m _) as [st1 trigger].
    destruct trigger;
      [destruct (_adaptive_prune J m _ st1)|]; cbn [fst];
      rewrite List.length_app; cbn; lia.
  - now rewrite Ha, Hb.
  - exact Ha.
  - intros Hf. rewrite Hf in Ha.
    pose proof (f_equal fst Ha) as Hst. pose proof (f_equal snd Ha) as Hres.
    cbn [fst snd] in Hst, Hres.
    destruct (should_trigger_state m
                (append_interaction st
                   {| prompt := p; response := r; timestamp := now w;
                      token_count := Some c |} c)) as (_ & Hh & Ht).
    rewrite Hst, Hres. repeat split; assumption.
  - intros e He.
    destruct (snd (_should_trigger_summarization m _)) eqn:Hf.
    + split; [reflexivity|].
      pose proof (f_equal snd Ha) as Hres. cbn [snd] in Hres. congruence.
    + pose proof (f_equal snd Ha) as Hres. cbn [snd] in Hres. congruence.
Qed.

(** C10 (the code departs from it). On the 50th empty answer under the
    default configuration with a failing insert: the [sqlite3.Error] is
    swallowed and no row is written, the interaction and its count are
    appended, the trigger fires on the hard cap, and the call raises
    [ZeroDivisionError] from the division by the zero average. *)
Theorem failed_insert_call_can_raise :
  let a := add_interaction JsonRef.lib default_manager (quiet_world InsertFails llm_down)
             "hello" "" 0 (Some "<think>...</think>")
             (fst forty_nine_zeros) (snd forty_nine_zeros) in
  _log_interaction_to_db default_manager InsertFails (fst forty_nine_zeros)
    "hello" "<think>...</think>" "2025-08-29T21:44:30+00:00" 0
  = (fst forty_nine_zeros, Ret tt) /\
  fst (fst a) = fst forty_nine_zeros /\
  len (history_buffer (snd (fst a))) = 50 /\
  len (token_buffer (snd (fst a))) = 50 /\
  snd a = Raise ZeroDivisionError.
Proof.
  cbv zeta.
  split; [vm_compute; reflexivity|].
  split; [vm_compute; reflexivity|].
  split; [vm_compute; reflexivity|].
  split; vm_compute; reflexivity.
Qed.

(** ** Reachable states of a run *)

Lemma run_reachable (J : library) (m : manager) (calls : list call)
    (db : list row) (st : memory) :
  reachable J m st -> reachable J m (snd (fst (run J m calls (db, st)))).
Proof.
  revert db st. induction calls as [|c calls IH]; intros db st H; [exact H|].
  cbn [run fst snd].
  pose proof (reach_add J m st (call_world c) (call_prompt c) (call_response c)
                (call_tokens c) (call_full_response c) db H) as H1.
  destruct (add_interaction J m _ _ _ _ _ db st) as [[db1 st1] res].
  cbn [fst snd] in H1. destruct res; [apply IH; exact H1 | exact H1].
Qed.

Lemma reachable_buffers_parallel_witness :
  len (token_buffer (snd forty_nine_zeros)) = len (history_buffer (snd forty_nine_zeros)) /\
  sum (token_buffer (snd forty_nine_zeros))
  = sum (List.map token_count_or_zero (history_buffer (snd forty_nine_zeros))).
Proof.
  apply (reachable_buffers_parallel JsonRef.lib default_manager).
  apply run_reachable. apply reach_load.
Defined.

(** ** What a failed summarization leaves alone *)

Lemma summarize_failure (J : library) (llm : string -> llm_result)
    (previous : option string) (log : list interaction) (r : option string) :
  llm_fails J llm -> summarize J llm previous log = Ret r -> r = previous.
Proof.
  intros Hf. unfold summarize. destruct log as [|i log]; [congruence|].
  destruct (previous_summary_log J previous) as [formatted|e]; [|discriminate].
  cbn [bind].
  destruct (Hf ("Here is the conversation log to summarize:" ++ nl ++ nl
                ++ List.fold_left (fun acc i0 => acc ++ format_interaction i0)
                                  (i :: log) formatted)%string)
    as [-> | (c & -> & ->)]; congruence.
Qed.

(** X1. When no summary is stored yet, a failed summarization leaves the
    summary and both buffers as they were. *)
Theorem failed_summarization_without_summary (J : library) (m : manager)
    (llm : string -> llm_result) (st : memory) :
  opt_truthy (summary_json st) = false ->
  llm_fails J llm ->
  fst (_adaptive_prune J m llm st) = st.
Proof.
  intros Hs Hf. unfold _adaptive_prune.
  destruct (_calculate_dynamic_threshold m st) as [dk|e]; [|reflexivity].
  destruct (summarize J llm (summary_json st) _) as [new|e] eqn:Hsum; [|reflexivity].
  apply summarize_failure in Hsum; [|assumption]. subst new.
  rewrite Hs. reflexivity.
Qed.

Lemma failed_summarization_without_summary_witness :
  fst (_adaptive_prune JsonRef.lib scenario_manager llm_down three_forties)
  = three_forties.
Proof.
  apply failed_summarization_without_summary.
  - reflexivity.
  - intros user_prompt. left. reflexivity.
Defined.

(** With a summary stored, the same failure still replaces the buffers by
    the retained slices whenever the call completes. *)
Lemma failed_summarization_with_summary (J : library) (m : manager)
    (llm : string -> llm_result) (st st' : memory) (dynamic_k : Z) :
  opt_truthy (summary_json st) = true ->
  llm_fails J llm ->
  _calculate_dynamic_threshold m st = Ret dynamic_k ->
  _adaptive_prune J m llm st = (st', Ret tt) ->
  summary_json st' = summary_json st /\
  history_buffer st' = retained (retention_split st dynamic_k) /\
  token_buffer st' = retained_tokens (retention_split st dynamic_k).
Proof.
  intros Hs Hf Hk. unfold _adaptive_prune. rewrite Hk.
  destruct (summarize J llm (summary_json st) _) as [new|e] eqn:Hsum; [|discriminate].
  apply summarize_failure in Hsum; [|assumption]. subst new.
  rewrite Hs. intros [= <-]. cbn. auto.
Qed.

(** ** Context assembly without a usable summary *)

(** Whatever the [json] library, a summary that decodes to anything but an
    object makes [get_context] raise [AttributeError]. *)
Lemma get_context_non_object_summary (J : library) (st : memory) (s : string) (v : json) :
  summary_json st = Some s ->
  str_truthy s = true ->
  loads J s = Some v ->
  is_object v = false ->
  get_context J st = Raise AttributeError.
Proof.
  intros Hs Ht Hl Hv. unfold get_context, summary_message. rewrite Hs, Ht, Hl.
  destruct v; try discriminate Hv; reflexivity.
Qed.

(** X2. A stored summary that does not decode is left out: the context is
    exactly the user and assistant messages of the buffer, as when no
    summary is stored. *)
Theorem get_context_undecodable_summary (J : library) (st : memory) (s : string) :
  summary_json st = Some s ->
  loads J s = None ->
  get_context J st = Ret (short_term_messages (history_buffer st)) /\
  get_context J st
  = get_context J {| summary_json := None; history_buffer := history_buffer st;
                     token_buffer := token_buffer st;
                     current_token_sum := current_token_sum st |}.
Proof.
  intros Hs Hl. unfold get_context, summary_message. rewrite Hs. cbn [summary_json].
  destruct (str_truthy s); [rewrite Hl|]; split; reflexivity.
Qed.

Lemma get_context_undecodable_summary_witness :
  get_context JsonRef.lib
    {| summary_json := Some "not json"; history_buffer := [t1];
       token_buffer := [40]; current_token_sum := 0 |}
  = Ret [ {| role := "user"; content := "first question" |};
          {| role := "assistant"; content := "first answer" |} ].
Proof.
  apply (get_context_undecodable_summary JsonRef.lib
           {| summary_json := Some "not json"; history_buffer := [t1];
              token_buffer := [40]; current_token_sum := 0 |} "not json").
  - reflexivity.
  - vm_compute. reflexivity.
Defined.

(** ** Trigger monotonicity and pruning progress *)

(** X3. With the buffer length unchanged, a trigger that fires at one token
    sum fires at every larger one. *)
Theorem trigger_monotone (m : manager) (st st' : memory) :
  snd (_should_trigger_summarization m st) = true ->
  len (history_buffer st') = len (history_buffer st) ->
  sum (token_buffer st) <= sum (token_buffer st') ->
  snd (_should_trigger_summarization m st') = true.
Proof.
  rewrite !should_trigger_decision. intros H Hlen Hsum. rewrite Hlen.
  apply andb_true_iff in H. destruct H as [Hmin Hor].
  rewrite Hmin. cbn [andb].
  apply orb_true_iff in Hor. apply orb_true_iff.
  destruct Hor as [Hq|Hmax]; [left|right; assumption].
  eapply int_ge_monotone; eassumption.
Qed.

Lemma trigger_monotone_witness :
  snd (_should_trigger_summarization scenario_manager
         {| summary_json := None; history_buffer := [t1; t2; t3];
            token_buffer := [40; 40; 50]; current_token_sum := 0 |}) = true.
Proof.
  apply (trigger_monotone scenario_manager three_forties).
  - vm_compute. reflexivity.
  - reflexivity.
  - vm_compute. discriminate.
Defined.

(** X4. A prune that installs a new summary shortens the buffer, provided the
    retention size is at least one. *)
Theorem prune_progress (J : library) (m : manager) (llm : string -> llm_result)
    (st : memory) (dynamic_k : Z) (new_summary : option string) :
  _calculate_dynamic_threshold m st = Ret dynamic_k ->
  1 <= dynamic_k ->
  0 < len (history_buffer st) ->
  summarize J llm (summary_json st) (to_summarize (retention_split st dynamic_k))
  = Ret new_summary ->
  opt_truthy new_summary = true ->
  len (history_buffer (fst (_adaptive_prune J m llm st))) < len (history_buffer st).
Proof.
  intros Hk H1 Hn Hsum Ht. unfold _adaptive_prune. rewrite Hk, Hsum, Ht.
  cbn [fst history_buffer].
  assert (Hne : history_buffer st <> []).
  { intros E. rewrite E in Hn. cbn in Hn. lia. }
  unfold retention_split.
  destruct (Z.leb_spec (len (history_buffer st)) dynamic_k); cbn [retained].
  - pose proof (len_slices (history_buffer st) (Z.max 1 (len (history_buffer st) / 2))) as Hs.
    assert (Hp : slice_to (history_buffer st) (Z.max 1 (len (history_buffer st) / 2)) <> [])
      by (apply slice_to_nonempty; [lia | assumption]).
    destruct (slice_to (history_buffer st) _) eqn:E; [congruence|].
    unfold len in *. cbn [List.length] in Hs. lia.
  - pose proof (len_slices (history_buffer st) (- dynamic_k)) as Hs.
    assert (Hp : slice_to (history_buffer st) (- dynamic_k) <> []).
    { unfold slice_to. rewrite clip_index_negative by lia.
      fold (slice_to (history_buffer st) (len (history_buffer st) - dynamic_k)).
      apply slice_to_nonempty; [lia | assumption]. }
    destruct (slice_to (history_buffer st) _) eqn:E; [congruence|].
    unfold len in *. cbn [List.length] in Hs. lia.
Qed.

Lemma prune_progress_witness :
  len (history_buffer
         (fst (_adaptive_prune JsonRef.lib scenario_manager
                 (llm_answers "{}") three_forties)))
  < len (history_buffer three_forties).
Proof.
  apply (prune_progress JsonRef.lib scenario_manager (llm_answers "{}")
           three_forties 2 (Some "{}")).
  - vm_compute. reflexivity.
  - lia.
  - reflexivity.
  - vm_compute. reflexivity.
  - reflexivity.
Defined.

(** * Further properties *)

(** ** Bounds of the retention size *)

(** X5. Whenever [_calculate_dynamic_threshold] returns, the retention size is
    at least [min_interactions]; it is at most [max_interactions] when the
    two bounds are in order, and [min_interactions] itself when they cross. *)
Theorem dynamic_threshold_bounds (m : manager) (st : memory) (k : Z) :
  _calculate_dynamic_threshold m st = Ret k ->
  min_interactions m <= k /\
  (min_interactions m <= max_interactions m -> k <= max_interactions m) /\
  (max_interactions m < min_interactions m -> k = min_interactions m).
Proof.
  intros Hk.
  destruct (dynamic_threshold_returns m st k Hk) as [[_ ->] | (o & Ho & ->)]; lia.
Qed.

Lemma dynamic_threshold_bounds_witness :
  min_interactions scenario_manager <= 2 /\
  (min_interactions scenario_manager <= max_interactions scenario_manager ->
   2 <= max_interactions scenario_manager) /\
  (max_interactions scenario_manager < min_interactions scenario_manager ->
   2 = min_interactions scenario_manager).
Proof.
  apply (dynamic_threshold_bounds scenario_manager three_forties 2).
  vm_compute. reflexivity.
Defined.

(** ** Zero averages in general *)

Lemma in_range (n i : Z) : List.In i (range n) -> 0 <= i < n.
Proof.
  unfold range. intros H. apply List.in_map_iff in H.
  destruct H as (k & <- & Hk). apply List.in_seq in Hk. lia.
Qed.

(** [collect] raises what one of its items raises. *)
Lemma collect_raises {A : Type} (items : list (result A)) (e : exn) :
  collect items = Raise e -> List.In (Raise e) items.
Proof.
  induction items as [|item items IH]; cbn [collect]; [discriminate|].
  destruct item as [a|e']; cbn [bind].
  - destruct (collect items) as [l|e'']; cbn [bind]; [discriminate|].
    intros [= <-]. right. now apply IH.
  - intros [= <-]. now left.
Qed.

(** With an exponent that is not negative, [**] can only overflow. *)
Lemma pow_raises (x : Float.float) (k : Z) (e : exn) :
  0 <= k -> Float.pow x k = Raise e -> e = OverflowError.
Proof.
  intros Hk. destruct k as [|p|p]; [discriminate| |lia].
  destruct x as [s|s| |s m ex]; cbn [Float.pow]; try discriminate.
  destruct (binary_round _ _ _ _ _); try discriminate. now intros [= <-].
Qed.

Lemma of_int_raises (z : Z) (e : exn) : Float.of_int z = Raise e -> e = OverflowError.
Proof.
  unfold Float.of_int. destruct (Float.of_Z z); try discriminate. now intros [= <-].
Qed.

Lemma weights_raise (m : manager) (n : Z) (e : exn) :
  weights m n = Raise e -> e = OverflowError.
Proof.
  unfold weights. intros H. apply collect_raises in H.
  apply List.in_map_iff in H. destruct H as (i & Hi & Hin).
  apply in_range in Hin. eapply pow_raises; [|exact Hi]. lia.
Qed.

Lemma weighted_tokens_raise (tokens : list Z) (ws : list Float.float) (e : exn) :
  weighted_tokens tokens ws = Raise e -> e = OverflowError.
Proof.
  unfold weighted_tokens. intros H. apply collect_raises in H.
  apply List.in_map_iff in H. destruct H as ([t w] & Ht & _).
  cbn [fst snd] in Ht.
  destruct (Float.of_int t) as [x|e'] eqn:Hx; cbn [bind] in Ht; [discriminate|].
  injection Ht as ->. eapply of_int_raises; eassumption.
Qed.

(** A float above zero is not zero. *)
Lemma positive_not_zero (x : Float.float) :
  Float.lt Float.zero x = true -> Float.is_zero x = false.
Proof. destruct x as [s|s| |s m e]; try reflexivity. discriminate. Qed.

(** Computing the average of the buffer can only overflow. *)
Lemma avg_tokens_raises (m : manager) (tokens : list Z) (e : exn) :
  avg_tokens m tokens = Raise e -> e = OverflowError.
Proof.
  unfold avg_tokens. destruct (len tokens =? 1); [discriminate|].
  unfold smoothed_average.
  destruct (weights m (len tokens)) as [ws|e'] eqn:Hw; cbn [bind].
  - destruct (weighted_tokens tokens ws) as [terms|e'] eqn:Ht; cbn [bind].
    + destruct (Float.lt Float.zero (Float.sum ws)) eqn:Hpos; [|discriminate].
      unfold Float.truediv. rewrite (positive_not_zero _ Hpos). discriminate.
    + intros [= <-]. eapply weighted_tokens_raise; eassumption.
  - intros [= <-]. eapply weights_raise; eassumption.
Qed.

Lemma to_int_raises (x : Float.float) (e : exn) :
  Float.to_int x = Raise e -> e = OverflowError \/ e = ValueError.
Proof. destruct x; cbn [Float.to_int]; try discriminate; intros [= <-]; auto. Qed.

(** [_calculate_dynamic_threshold] raises [ZeroDivisionError] exactly on a
    non-empty buffer whose average, as the divisor, is zero. *)
Lemma dynamic_threshold_zero_division (m : manager) (st : memory) :
  _calculate_dynamic_threshold m st = Raise ZeroDivisionError <->
  token_buffer st <> [] /\
  exists avg divisor,
    avg_tokens m (token_buffer st) = Ret avg /\
    Float.of_number avg = Ret divisor /\ Float.is_zero divisor = true.
Proof.
  unfold _calculate_dynamic_threshold.
  destruct (token_buffer st) as [|t rest].
  - split; [discriminate | intros (H & _); congruence].
  - destruct (avg_tokens m (t :: rest)) as [avg|e] eqn:Ha; cbn [bind].
    + destruct (Float.of_number avg) as [d|e] eqn:Hd; cbn [bind].
      * unfold Float.truediv. destruct (Float.is_zero d) eqn:Hz; cbn [bind].
        -- split; [|reflexivity]. intros _. split; [discriminate|]. eauto.
        -- split.
           ++ intros H. destruct (Float.to_int _) eqn:Ht; cbn [bind] in H; [discriminate|].
              injection H as ->. apply to_int_raises in Ht. destruct Ht; discriminate.
           ++ intros (_ & avg' & d' & [= <-] & Hd' & Hz').
              rewrite Hd in Hd'. injection Hd' as <-. congruence.
      * split.
        -- intros [= ->]. destruct avg; cbn [Float.of_number] in Hd; [|discriminate].
           apply of_int_raises in Hd. discriminate.
        -- intros (_ & avg' & d' & [= <-] & Hd' & _). congruence.
    + split.
      * intros [= ->]. apply avg_tokens_raises in Ha. discriminate.
      * intros (_ & avg' & d' & Ha' & _). discriminate.
Qed.

(** Its exceptions are those of the arithmetic. *)
Lemma dynamic_threshold_raises (m : manager) (st : memory) (e : exn) :
  _calculate_dynamic_threshold m st = Raise e ->
  e = ZeroDivisionError \/ e = OverflowError \/ e = ValueError.
Proof.
  unfold _calculate_dynamic_threshold.
  destruct (token_buffer st) as [|t rest]; [discriminate|].
  destruct (avg_tokens m (t :: rest)) as [avg|e'] eqn:Ha; cbn [bind].
  - destruct (Float.of_number avg) as [d|e'] eqn:Hd; cbn [bind].
    + unfold Float.truediv. destruct (Float.is_zero d); cbn [bind].
      * intros [= <-]. auto.
      * destruct (Float.to_int _) eqn:Ht; cbn [bind]; [discriminate|].
        intros [= <-]. apply to_int_raises in Ht. tauto.
    + intros [= <-]. destruct avg; cbn [Float.of_number] in Hd; [|discriminate].
      apply of_int_raises in Hd. auto.
  - intros [= <-]. apply avg_tokens_raises in Ha. auto.
Qed.

(** A term of the weighted sum of zero counts is a zero, or a NaN when the
    weight is not finite; such terms sum to 0.0 or to a NaN. *)
Lemma mul_zero (w : Float.float) :
  Float.zero_or_nan (Float.mul Float.zero w) /\
  (Float.is_finite w = true -> Float.is_zero (Float.mul Float.zero w) = true).
Proof.
  destruct w as [s|s| |s m e]; cbn; unfold Float.zero_or_nan; cbn; split; auto; discriminate.
Qed.

Lemma weighted_zero_tokens (tokens : list Z) (ws : list Float.float) :
  List.Forall (fun t => t = 0) tokens ->
  exists terms,
    weighted_tokens tokens ws = Ret terms /\
    List.Forall Float.zero_or_nan terms /\
    (List.Forall (fun w => Float.is_finite w = true) ws ->
     List.Forall (fun x => Float.is_zero x = true) terms).
Proof.
  unfold weighted_tokens. intros Hz. revert ws.
  induction Hz as [|t tokens Ht _ IH]; intros ws.
  - exists []. cbn. auto.
  - destruct ws as [|w ws]; [exists []; cbn; auto|].
    destruct (IH ws) as (terms & Hc & Hall & Hfin). subst t.
    cbn [List.combine List.map collect fst snd].
    change (Float.of_int 0) with (Ret Float.zero : result Float.float).
    cbn [bind]. rewrite Hc. cbn [bind].
    exists (Float.mul Float.zero w :: terms). split; [reflexivity|].
    destruct (mul_zero w) as [Hm Hf]. split.
    + constructor; assumption.
    + intros Hws. inversion Hws; subst. constructor; auto.
Qed.

Lemma fold_zero_or_nan (terms : list Float.float) (acc : Float.float) :
  acc = Float.zero \/ acc = S754_nan ->
  List.Forall Float.zero_or_nan terms ->
  let total := List.fold_left Float.add terms acc in
  (total = Float.zero \/ total = S754_nan) /\
  (acc = Float.zero -> List.Forall (fun x => Float.is_zero x = true) terms ->
   total = Float.zero).
Proof.
  intros Hacc Hall. revert acc Hacc. cbv zeta.
  induction Hall as [|x terms Hx _ IH]; intros acc Hacc; cbn [List.fold_left].
  - auto.
  - assert (Hstep : (Float.add acc x = Float.zero \/ Float.add acc x = S754_nan) /\
                    (acc = Float.zero -> Float.is_zero x = true ->
                     Float.add acc x = Float.zero)).
    { destruct Hacc as [-> | ->]; [|split; [right; reflexivity | discriminate]].
      destruct Hx as [Hx | ->].
      - destruct x as [s| | |]; try discriminate Hx. destruct s; cbn; auto.
      - cbn. split; [auto | discriminate]. }
    destruct Hstep as [Hs Hz]. destruct (IH _ Hs) as [H1 H2]. split; [exact H1|].
    intros Ha Hzeros. inversion Hzeros; subst. apply H2; auto.
Qed.

Lemma last_zero (tokens : list Z) :
  List.Forall (fun t => t = 0) tokens -> List.last tokens 0 = 0.
Proof.
  induction 1 as [|t tokens Ht _ IH]; [reflexivity|].
  destruct tokens; [exact Ht | exact IH].
Qed.

Lemma div_zero_positive (w : Float.float) :
  Float.lt Float.zero w = true ->
  Float.is_zero (SFdiv Float.prec Float.emax Float.zero w) = true.
Proof.
  destruct w as [s|s| |s m e]; try discriminate;
    destruct s; try discriminate; reflexivity.
Qed.

Lemma truediv_zero (x : Float.float) :
  Float.truediv x Float.zero = Raise ZeroDivisionError.
Proof. reflexivity. Qed.

(** On every non-empty buffer of zero counts the retention size cannot be
    computed: the call raises, and with [ZeroDivisionError] whenever the
    weights are finite numbers. *)
Lemma zero_tokens_raise (m : manager) (st : memory) :
  token_buffer st <> [] ->
  List.Forall (fun t => t = 0) (token_buffer st) ->
  exists e,
    _calculate_dynamic_threshold m st = Raise e /\
    (forall ws, weights m (len (token_buffer st)) = Ret ws ->
       List.Forall (fun w => Float.is_finite w = true) ws ->
       e = ZeroDivisionError).
Proof.
  intros Hne Hz. unfold _calculate_dynamic_threshold, avg_tokens.
  destruct (token_buffer st) as [|t rest] eqn:Htb; [congruence|].
  destruct (Z.eqb_spec (len (t :: rest)) 1) as [H1|H1].
  - inversion Hz; subst. cbn [List.nth bind Float.of_number].
    change (Float.of_int 0) with (Ret Float.zero : result Float.float).
    cbn [bind]. rewrite truediv_zero. cbn [bind]. eauto.
  - unfold smoothed_average.
    destruct (weights m (len (t :: rest))) as [ws|e]; cbn [bind].
    2: { exists e. split; [reflexivity | discriminate]. }
    destruct (weighted_zero_tokens (t :: rest) ws Hz) as (terms & -> & Hall & Hfin).
    cbn [bind].
    destruct (fold_zero_or_nan terms Float.zero (or_introl eq_refl) Hall) as [Hsum Hsum0].
    cbv zeta in Hsum, Hsum0. fold (Float.sum terms) in Hsum, Hsum0.
    destruct (Float.lt Float.zero (Float.sum ws)) eqn:Hpos.
    + unfold Float.truediv at 1. rewrite (positive_not_zero _ Hpos).
      cbn [bind Float.of_number].
      pose proof (div_zero_positive _ Hpos) as Hdz.
      destruct Hsum as [Hs | Hs]; rewrite Hs.
      * unfold Float.truediv. rewrite Hdz. cbn [bind]. eauto.
      * exists ValueError. split.
        -- unfold Float.truediv.
           assert (Hn : SFdiv Float.prec Float.emax S754_nan (Float.sum ws) = S754_nan)
             by reflexivity.
           rewrite Hn. cbn [Float.is_zero bind].
           assert (Hq : SFdiv Float.prec Float.emax (adaptive_threshold m) S754_nan
                        = S754_nan) by (destruct (adaptive_threshold m); reflexivity).
           rewrite Hq. reflexivity.
        -- intros ws' [= <-] Hf. rewrite (Hsum0 eq_refl (Hfin Hf)) in Hs. discriminate.
    + cbn [bind Float.of_number]. rewrite (last_zero _ Hz).
      change (Float.of_int 0) with (Ret Float.zero : result Float.float).
      cbn [bind]. rewrite truediv_zero. cbn [bind]. eauto.
Qed.

(** ** Memory statistics *)

Lemma int_truediv_raises (a b : Z) (e : exn) :
  b <> 0 -> Float.int_truediv a b = Raise e -> e = OverflowError.
Proof.
  intros Hb. unfold Float.int_truediv.
  destruct (Z.eqb_spec b 0); [congruence|].
  destruct (SFdiv _ _ _ _); try discriminate. now intros [= <-].
Qed.

Lemma len_cons_nonzero {A : Type} (x : A) (l : list A) : len (x :: l) <> 0.
Proof. unfold len. cbn [List.length]. lia. Qed.

(** X6. [get_memory_stats] returns on an empty token buffer; it raises
    [ZeroDivisionError] exactly when the token buffer is not empty, the
    plain average is a float and the (smoothed) average, as the divisor of
    the threshold, is zero; and whatever it raises is an exception of the
    arithmetic. *)
Theorem memory_stats_raise_iff (m : manager) (st : memory) :
  (token_buffer st = [] -> exists stats, Stats.get_memory_stats m st = Ret stats) /\
  (Stats.get_memory_stats m st = Raise ZeroDivisionError <->
   token_buffer st <> [] /\
   (exists plain,
      Float.int_truediv (sum (token_buffer st)) (len (token_buffer st)) = Ret plain) /\
   exists avg divisor,
     avg_tokens m (token_buffer st) = Ret avg /\
     Float.of_number avg = Ret divisor /\ Float.is_zero divisor = true) /\
  (forall e, Stats.get_memory_stats m st = Raise e ->
     e = ZeroDivisionError \/ e = OverflowError \/ e = ValueError).
Proof.
  pose proof (dynamic_threshold_zero_division m st) as Hz.
  pose proof (dynamic_threshold_raises m st) as Hr.
  unfold Stats.get_memory_stats.
  destruct (token_buffer st) as [|t rest] eqn:Htb.
  - cbn [bind]. split; [eauto|]. split; [|discriminate].
    split; [discriminate | intros (H & _); congruence].
  - split; [discriminate|].
    destruct (Float.int_truediv (sum (t :: rest)) (len (t :: rest))) as [plain|e'] eqn:Hp;
      cbn [bind].
    + destruct (_calculate_dynamic_threshold m st) as [k|e'] eqn:Hk; cbn [bind].
      * split; [|discriminate]. split; [discriminate|].
        intros (_ & _ & H). assert (Hk' : (Ret k : result Z) = Raise ZeroDivisionError)
          by (apply Hz; split; [discriminate | exact H]).
        discriminate.
      * split.
        -- split.
           ++ intros [= ->]. split; [discriminate|]. split; [eauto|].
              apply Hz. reflexivity.
           ++ intros (_ & _ & H). f_equal. symmetry.
              assert (Hk' : (Raise e' : result Z) = Raise ZeroDivisionError)
                by (apply Hz; split; [discriminate | exact H]).
              congruence.
        -- intros e [= <-]. apply Hr. reflexivity.
    + apply int_truediv_raises in Hp; [|apply len_cons_nonzero]. subst e'. split.
      * split; [discriminate|]. intros (_ & (plain & H) & _). discriminate.
      * intros e [= <-]. auto.
Qed.

(** X7. With [min_interactions >= 2], the first interaction of a session
    added with a zero token count makes [add_interaction] return normally
    and the [get_memory_stats] the route calls next raise
    [ZeroDivisionError]. *)
Theorem memory_stats_after_first_zero_token_interaction (J : library) (m : manager)
    (w : world) (p r : string) (full : option string) (db : list row) :
  2 <= min_interactions m ->
  let a := Memory.add_interaction J m w p r 0 full db init in
  snd a = Ret tt /\
  token_buffer (snd (fst a)) = [0] /\
  Stats.get_memory_stats m (snd (fst a)) = Raise ZeroDivisionError.
Proof.
  intros Hmin. cbv zeta.
  pose proof (add_interaction_memory J m w p r 0 full db init) as E.
  cbv zeta in E.
  assert (Hno : _should_trigger_summarization m
                  (append_interaction init
                     {| prompt := p; response := r; timestamp := now w;
                        token_count := Some 0 |} 0)
                = (append_interaction init
                     {| prompt := p; response := r; timestamp := now w;
                        token_count := Some 0 |} 0, false)).
  { unfold _should_trigger_summarization. cbn [append_interaction history_buffer init].
    destruct (Z.ltb_spec (len ([] ++ [{| prompt := p; response := r; timestamp := now w;
                                        token_count := Some 0 |}])) (min_interactions m))
      as [_|H]; [reflexivity|].
    unfold len in H. cbn in H. lia. }
  rewrite Hno in E. cbn [fst snd] in E.
  pose proof (f_equal fst E) as E1. pose proof (f_equal snd E) as E2.
  cbn [fst snd] in E1, E2. rewrite E1, E2.
  split; [reflexivity | split; [reflexivity|]].
  reflexivity.
Qed.

Lemma memory_stats_after_first_zero_token_interaction_witness :
  Stats.get_memory_stats default_manager
    (snd (fst (Memory.add_interaction JsonRef.lib default_manager
                 (quiet_world Inserted llm_down) "hello" "" 0 None [] init)))
  = Raise ZeroDivisionError.
Proof.
  apply (memory_stats_after_first_zero_token_interaction JsonRef.lib default_manager
           (quiet_world Inserted llm_down) "hello" "" None []).
  vm_compute. discriminate.
Defined.

(** ** Statistics of a buffer written before token tracking *)

Lemma fold_all_zero (l : list Z) (acc : Z) :
  List.Forall (fun x => x = 0) l -> List.fold_left Z.add l acc = acc.
Proof.
  intros H. revert acc. induction H as [|x l Hx _ IH]; intros acc; [reflexivity|].
  cbn [List.fold_left]. subst x. rewrite Z.add_0_r. apply IH.
Qed.

Lemma int_truediv_zero (b : Z) : 0 < b -> Float.int_truediv 0 b = Ret Float.zero.
Proof.
  intros Hb. unfold Float.int_truediv.
  destruct (Z.eqb_spec b 0); [lia|]. destruct b; try lia. reflexivity.
Qed.

(** X8. A manager loaded from a non-empty buffer whose interactions carry no
    [token_count] starts with a token sum of 0, and its [get_memory_stats]
    raises: with [ZeroDivisionError] whenever the weights of the smoothed
    average are finite numbers. *)
Theorem stats_after_loading_untracked_buffer (m : manager) (r : memory_row)
    (buffer : list interaction) :
  row_history_buffer r = Some buffer ->
  buffer <> [] ->
  List.Forall (fun i => token_count i = None) buffer ->
  sum (token_buffer (load (Some r))) = 0 /\
  exists e,
    Stats.get_memory_stats m (load (Some r)) = Raise e /\
    (forall ws, weights m (len buffer) = Ret ws ->
       List.Forall (fun w => Float.is_finite w = true) ws ->
       e = ZeroDivisionError).
Proof.
  intros Hr Hne Hall. unfold load, _load_from_db. rewrite Hr.
  set (st := {| summary_json := row_summary_json r; history_buffer := buffer;
                token_buffer := List.map token_count_or_zero buffer;
                current_token_sum := current_token_sum init |}).
  assert (Hz : List.Forall (fun x => x = 0) (token_buffer st)).
  { cbn [st token_buffer]. apply List.Forall_map.
    eapply List.Forall_impl; [|exact Hall].
    intros i Hi. unfold token_count_or_zero. now rewrite Hi. }
  assert (Htb : token_buffer st <> []).
  { cbn [st token_buffer]. destruct buffer; [congruence | discriminate]. }
  assert (Hsum : sum (token_buffer st) = 0) by (unfold sum; now apply fold_all_zero).
  split; [exact Hsum|].
  destruct (zero_tokens_raise m st Htb Hz) as (e & Hk & He).
  exists e. split.
  - unfold Stats.get_memory_stats. rewrite Hsum, Hk.
    destruct (token_buffer st) as [|t rest] eqn:E; [congruence|].
    rewrite int_truediv_zero; [reflexivity|].
    unfold len. cbn [List.length]. lia.
  - intros ws Hw. apply He. cbn [st token_buffer]. now rewrite len_map.
Qed.

Lemma stats_after_loading_untracked_buffer_witness :
  sum (token_buffer (load (Some Cases.legacy_row))) = 0 /\
  Stats.get_memory_stats default_manager (load (Some Cases.legacy_row))
  = Raise ZeroDivisionError.
Proof.
  destruct (stats_after_loading_untracked_buffer default_manager Cases.legacy_row
              [Cases.legacy_turn; Cases.legacy_turn] eq_refl
              ltac:(discriminate) ltac:(repeat constructor))
    as (Hsum & e & Hraise & He).
  split; [exact Hsum|].
  rewrite Hraise. f_equal.
  apply (He [S754_finite false 7205759403792794 (-53); Float.one]).
  - vm_compute. reflexivity.
  - repeat constructor.
Defined.

(** ** Saving and loading *)

Lemma select_upsert_same (table : list Store.conversation_row)
    (new : Store.conversation_row) :
  Store.select (Store.upsert table new) (Store.key_user_id new)
               (Store.key_session_number new)
  = Some (Store.columns new).
Proof.
  induction table as [|r rest IH]; cbn [Store.upsert Store.select].
  - unfold Store.same_key. now rewrite !Z.eqb_refl.
  - destruct (Store.same_key r _ _) eqn:Hk; cbn [Store.select].
    + unfold Store.same_key. now rewrite !Z.eqb_refl.
    + rewrite Hk. exact IH.
Qed.

Lemma select_upsert_other (table : list Store.conversation_row)
    (new : Store.conversation_row) (user session : Z) :
  Store.same_key new user session = false ->
  Store.select (Store.upsert table new) user session = Store.select table user session.
Proof.
  intros Hnew. induction table as [|r rest IH]; cbn [Store.upsert Store.select].
  - now rewrite Hnew.
  - destruct (Store.same_key r (Store.key_user_id new) (Store.key_session_number new))
      eqn:Hk; cbn [Store.select].
    + rewrite Hnew.
      assert (Hr : Store.same_key r user session = false).
      { unfold Store.same_key in *.
        apply andb_true_iff in Hk. destruct Hk as [H1 H2].
        apply Z.eqb_eq in H1, H2. rewrite H1, H2. exact Hnew. }
      now rewrite Hr.
    + destruct (Store.same_key r user session); [reflexivity | exact IH].
Qed.

Lemma upsert_upsert_same (table : list Store.conversation_row)
    (r1 r2 : Store.conversation_row) :
  Store.key_user_id r1 = Store.key_user_id r2 ->
  Store.key_session_number r1 = Store.key_session_number r2 ->
  Store.upsert (Store.upsert table r1) r2 = Store.upsert table r2.
Proof.
  intros Hu Hs. induction table as [|r rest IH]; cbn [Store.upsert].
  - unfold Store.same_key. rewrite Hu, Hs, !Z.eqb_refl. reflexivity.
  - rewrite Hu, Hs.
    destruct (Store.same_key r (Store.key_user_id r2) (Store.key_session_number r2))
      eqn:Hk; cbn [Store.upsert].
    + unfold Store.same_key. rewrite Hu, Hs, !Z.eqb_refl. reflexivity.
    + rewrite Hk. f_equal. exact IH.
Qed.

Lemma select_after_save (m : manager) (now : string)
    (table : list Store.conversation_row) (st : memory) :
  Store.select (fst (Store.save_to_db m Inserted now table st))
               (Memory.user_id m) (Memory.session_number m)
  = Some {| row_summary_json := summary_json st;
            row_history_buffer := Some (history_buffer st) |}.
Proof.
  exact (select_upsert_same table
           {| Store.key_user_id := Memory.user_id m;
              Store.key_session_number := Memory.session_number m;
              Store.columns := {| row_summary_json := summary_json st;
                                  row_history_buffer := Some (history_buffer st) |};
              Store.last_updated := now |}).
Qed.

(** X9. For a state whose token buffer is aligned with its history (every
    reachable state), constructing a manager after a successful
    [save_to_db] gives back the summary, the history and the token buffer;
    only [current_token_sum] restarts at 0. *)
Theorem save_then_load (m : manager) (now : string)
    (table : list Store.conversation_row) (st : memory) :
  aligned st ->
  Store.construct m (fst (Store.save_to_db m Inserted now table st))
  = {| summary_json := summary_json st; history_buffer := history_buffer st;
       token_buffer := token_buffer st; current_token_sum := 0 |}.
Proof.
  intros Ha. unfold Store.construct. rewrite select_after_save.
  unfold load, _load_from_db. cbn. unfold aligned in Ha. now rewrite Ha.
Qed.

Lemma save_then_load_witness :
  Store.construct default_manager
    (fst (Store.save_to_db default_manager Inserted "2025-08-29T21:45:00+00:00" []
            (snd forty_nine_zeros)))
  = {| summary_json := summary_json (snd forty_nine_zeros);
       history_buffer := history_buffer (snd forty_nine_zeros);
       token_buffer := token_buffer (snd forty_nine_zeros);
       current_token_sum := 0 |}.
Proof.
  apply save_then_load.
  apply (reachable_aligned JsonRef.lib default_manager).
  apply run_reachable. apply reach_load.
Defined.

(** X10. [get_context] of the manager constructed after a successful
    [save_to_db] is [get_context] of the saved state. *)
Theorem context_survives_save_and_load (J : library) (m : manager) (now : string)
    (table : list Store.conversation_row) (st : memory) :
  get_context J (Store.construct m (fst (Store.save_to_db m Inserted now table st)))
  = get_context J st.
Proof.
  unfold Store.construct. rewrite select_after_save.
  reflexivity.
Qed.

(** X11. [save_to_db], failing or not, leaves what every other (user,
    session) key selects unchanged. *)
Theorem save_leaves_other_sessions (m : manager) (outcome : insert_outcome) (now : string)
    (table : list Store.conversation_row) (st : memory) (user session : Z) :
  (user, session) <> (Memory.user_id m, Memory.session_number m) ->
  Store.select (fst (Store.save_to_db m outcome now table st)) user session
  = Store.select table user session.
Proof.
  intros Hne. unfold Store.save_to_db. destruct outcome; [|reflexivity].
  cbn [fst]. apply select_upsert_other. unfold Store.same_key. cbn.
  destruct (Z.eqb_spec (Memory.user_id m) user);
    destruct (Z.eqb_spec (Memory.session_number m) session); try reflexivity.
  subst. congruence.
Qed.

Lemma save_leaves_other_sessions_witness :
  Store.select
    (fst (Store.save_to_db default_manager Inserted "2025-08-29T21:45:00+00:00" []
            three_forties)) 2 1
  = Store.select [] 2 1.
Proof.
  apply save_leaves_other_sessions. discriminate.
Defined.

(** Two successful saves of one session leave the table that the second
    alone would leave: the first state is overwritten, not merged. *)
Lemma last_save_wins (m : manager) (now1 now2 : string)
    (table : list Store.conversation_row) (st1 st2 : memory) :
  fst (Store.save_to_db m Inserted now2
         (fst (Store.save_to_db m Inserted now1 table st1)) st2)
  = fst (Store.save_to_db m Inserted now2 table st2).
Proof.
  unfold Store.save_to_db. cbn [fst]. apply upsert_upsert_same; reflexivity.
Qed.

(** ** The transcript *)

Lemma add_interaction_transcript (J : library) (m : manager) (w : world)
    (p r : string) (c : Z) (full : option string) (db : list row) (st : memory) :
  fst (fst (Memory.add_interaction J m w p r c full db st))
  = match insert w with
    | Inserted =>
        db ++ [{| row_user_id := Memory.user_id m;
                  row_session_number := Memory.session_number m;
                  row_prompt := p;
                  row_response := match full with Some f => f | None => r end;
                  row_timestamp := now w; row_token_count := c |}]
    | InsertFails => db
    end.
Proof.
  unfold Memory.add_interaction.
  destruct (insert w); cbn [_log_interaction_to_db execute_insert try_except exn_eqb];
    destruct (_should_trigger_summarization m _) as [st1 trigger];
    destruct trigger; try reflexivity;
    destruct (_adaptive_prune J m (llm w) st1); reflexivity.
Qed.

(** X13. A run of [add_interaction] calls only appends to [chat_history]:
    the old rows stay, at most one row per call is added, and every new row
    carries the manager's user and session. *)
Theorem transcript_is_append_only (J : library) (m : manager) (calls : list call)
    (db : list row) (st : memory) :
  exists rows,
    fst (fst (run J m calls (db, st))) = db ++ rows /\
    (List.length rows <= List.length calls)%nat /\
    List.Forall (fun r => row_user_id r = Memory.user_id m /\
                          row_session_number r = Memory.session_number m) rows.
Proof.
  revert db st. induction calls as [|c calls IH]; intros db st.
  - exists []. cbn. rewrite List.app_nil_r. auto.
  - cbn [run fst snd].
    pose proof (add_interaction_transcript J m (call_world c) (call_prompt c)
                  (call_response c) (call_tokens c) (call_full_response c) db st) as Ht.
    destruct (Memory.add_interaction J m _ _ _ _ _ db st) as [[db1 st1] res].
    cbn [fst] in Ht.
    assert (Hone : exists new, db1 = db ++ new /\ (List.length new <= 1)%nat /\
                     List.Forall (fun r => row_user_id r = Memory.user_id m /\
                                           row_session_number r = Memory.session_number m)
                                 new).
    { destruct (insert (call_world c)); subst db1.
      - eexists. split; [reflexivity|]. split; [cbn; lia|].
        constructor; [cbn; auto | constructor].
      - exists []. rewrite List.app_nil_r. cbn. auto. }
    destruct Hone as (new & -> & Hlen & Hall).
    destruct res as [[]|e].
    + destruct (IH (db ++ new) st1) as (rows & Hrows & Hl & Hf).
      exists (new ++ rows). rewrite Hrows, List.app_assoc.
      split; [reflexivity|]. split.
      * rewrite List.length_app. cbn [List.length]. lia.
      * apply List.Forall_app. auto.
    + exists new. cbn [fst]. split; [reflexivity|]. split; [cbn [List.length]; lia | exact Hall].
Qed.

(** ** Two requests on one session *)

(** X14. Two requests that construct their manager from the same table, add
    one interaction each without a prune, and save one after the other:
    the table ends with the buffer of the second request only, while the
    transcript holds the rows of both. *)
Theorem concurrent_requests_lose_an_interaction (J : library) (m : manager)
    (table : list Store.conversation_row) (db : list row) (wA wB : world)
    (pA rA pB rB : string) (cA cB : Z) (fA fB : option string) (nowA nowB : string) :
  let st := Store.construct m table in
  let iA := {| prompt := pA; response := rA; timestamp := now wA; token_count := Some cA |} in
  let iB := {| prompt := pB; response := rB; timestamp := now wB; token_count := Some cB |} in
  let a := Memory.add_interaction J m wA pA rA cA fA db st in
  let b := Memory.add_interaction J m wB pB rB cB fB (fst (fst a)) st in
  let table1 := fst (Store.save_to_db m Inserted nowA table (snd (fst a))) in
  let table2 := fst (Store.save_to_db m Inserted nowB table1 (snd (fst b))) in
  insert wA = Inserted ->
  insert wB = Inserted ->
  snd (_should_trigger_summarization m (append_interaction st iA cA)) = false ->
  snd (_should_trigger_summarization m (append_interaction st iB cB)) = false ->
  history_buffer (Store.construct m table1) = history_buffer st ++ [iA] /\
  history_buffer (Store.construct m table2) = history_buffer st ++ [iB] /\
  List.map row_prompt (fst (fst b)) = List.map row_prompt db ++ [pA; pB].
Proof.
  cbv zeta. intros HA HB HtA HtB.
  set (st := Store.construct m table) in *.
  pose proof (add_interaction_memory J m wA pA rA cA fA db st) as Ea.
  pose proof (add_interaction_transcript J m wA pA rA cA fA db st) as Ta.
  cbv zeta in Ea. rewrite HtA in Ea. rewrite HA in Ta.
  destruct (Memory.add_interaction J m wA pA rA cA fA db st) as [[dbA stA] resA].
  cbn [fst snd] in *.
  pose proof (add_interaction_memory J m wB pB rB cB fB dbA st) as Eb.
  pose proof (add_interaction_transcript J m wB pB rB cB fB dbA st) as Tb.
  cbv zeta in Eb. rewrite HtB in Eb. rewrite HB in Tb.
  destruct (Memory.add_interaction J m wB pB rB cB fB dbA st) as [[dbB stB] resB].
  cbn [fst snd] in *.
  pose proof (f_equal fst Ea) as EA. pose proof (f_equal fst Eb) as EB.
  cbn [fst] in EA, EB.
  destruct (should_trigger_state m
              (append_interaction st
                 {| prompt := pA; response := rA; timestamp := now wA;
                    token_count := Some cA |} cA)) as (_ & HhA & _).
  destruct (should_trigger_state m
              (append_interaction st
                 {| prompt := pB; response := rB; timestamp := now wB;
                    token_count := Some cB |} cB)) as (_ & HhB & _).
  split; [|split].
  - unfold Store.construct at 1. rewrite select_after_save.
    cbn. rewrite EA, HhA. reflexivity.
  - unfold Store.construct at 1. rewrite select_after_save.
    cbn. rewrite EB, HhB. reflexivity.
  - subst dbB dbA. rewrite !List.map_app, <- List.app_assoc. reflexivity.
Qed.

(** ** What [summarize] can answer *)

Lemma all_strings_raises (items : list json) (e : exn) :
  all_strings items = Raise e -> e = TypeError.
Proof.
  induction items as [|v items IH]; cbn [all_strings]; [discriminate|].
  destruct v; try (intros [= <-]; reflexivity).
  destruct (all_strings items); cbn [bind]; [discriminate|].
  intros [= <-]. now apply IH.
Qed.

Lemma str_join_raises (sep : string) (v : json) (e : exn) :
  str_join sep v = Raise e -> e = TypeError.
Proof.
  destruct v; cbn [str_join]; try discriminate; try (intros [= <-]; reflexivity).
  destruct (all_strings items) eqn:Ha; cbn [bind]; [discriminate|].
  intros [= <-]. eapply all_strings_raises; eassumption.
Qed.

Lemma previous_summary_log_raises_iff (J : library) (previous : option string) (e : exn) :
  previous_summary_log J previous = Raise e <->
  e = AttributeError /\
  exists s v, previous = Some s /\ str_truthy s = true /\
              loads J s = Some v /\ is_object v = false.
Proof.
  unfold previous_summary_log. split.
  - destruct previous as [s|]; [|discriminate].
    destruct (str_truthy s) eqn:Ht; [|discriminate].
    destruct (loads J s) as [v|] eqn:Hl; [|discriminate].
    destruct v; cbn [get bind];
      try (intros [= <-]; split; [reflexivity|]; eexists _, _; repeat split; eauto).
    destruct (str_join ", " _) as [joined|e'] eqn:Hj; cbn [bind try_except];
      [discriminate|].
    apply str_join_raises in Hj. subst e'. cbn. discriminate.
  - intros (-> & s & v & -> & Ht & Hl & Hv). rewrite Ht, Hl.
    destruct v; try discriminate Hv; reflexivity.
Qed.

Lemma summarize_returns (J : library) (llm : string -> llm_result)
    (previous : option string) (log : list interaction) (r : option string) :
  summarize J llm previous log = Ret r ->
  r = previous \/ exists c, r = Some c /\ loads J c <> None.
Proof.
  unfold summarize. destruct log as [|i log]; [intros [= <-]; auto|].
  destruct (previous_summary_log J previous) as [formatted|e]; cbn [bind];
    [|discriminate].
  destruct (llm _) as [|c]; [intros [= <-]; auto|].
  destruct (loads J c) eqn:Hc; intros [= <-]; [right | left; reflexivity].
  exists c. split; [reflexivity | congruence].
Qed.

Lemma summarize_raises_iff (J : library) (llm : string -> llm_result)
    (previous : option string) (log : list interaction) (e : exn) :
  summarize J llm previous log = Raise e <->
  log <> [] /\ previous_summary_log J previous = Raise e.
Proof.
  unfold summarize. destruct log as [|i log].
  - split; [discriminate | intros (H & _); congruence].
  - destruct (previous_summary_log J previous) as [formatted|e'] eqn:Hp; cbn [bind].
    + split; [|intros (_ & H); discriminate].
      destruct (llm _) as [|c]; [discriminate|].
      destruct (loads J c); discriminate.
    + split; [intros [= <-]; split; [discriminate | reflexivity]
             | intros (_ & [= <-]); reflexivity].
Qed.

(** X15. [summarize] returns the previous summary on an empty log; whatever
    it returns is the previous summary or a string that decodes; and it
    raises exactly when the log is not empty and the previous summary
    decodes to something other than an object, with [AttributeError]. *)
Theorem summarize_answers (J : library) (llm : string -> llm_result)
    (previous : option string) (log : list interaction) :
  (log = [] -> summarize J llm previous log = Ret previous) /\
  (forall r, summarize J llm previous log = Ret r ->
     r = previous \/ exists c, r = Some c /\ loads J c <> None) /\
  (forall e, summarize J llm previous log = Raise e <->
     e = AttributeError /\ log <> [] /\
     exists s v, previous = Some s /\ str_truthy s = true /\
                 loads J s = Some v /\ is_object v = false).
Proof.
  split; [|split].
  - intros ->. reflexivity.
  - intros r. apply summarize_returns.
  - intros e. rewrite summarize_raises_iff, previous_summary_log_raises_iff. tauto.
Qed.

(** ** The summary across [add_interaction] *)

Lemma adaptive_prune_summary (J : library) (m : manager) (llm : string -> llm_result)
    (st : memory) :
  summary_json (fst (_adaptive_prune J m llm st)) = summary_json st \/
  exists c, summary_json (fst (_adaptive_prune J m llm st)) = Some c /\
            str_truthy c = true /\ loads J c <> None.
Proof.
  unfold _adaptive_prune.
  destruct (_calculate_dynamic_threshold m st) as [dk|e]; [|left; reflexivity].
  destruct (summarize J llm (summary_json st) _) as [new|e] eqn:Hs; [|left; reflexivity].
  destruct (opt_truthy new) eqn:Ht; [|left; reflexivity].
  cbn [fst summary_json].
  destruct (summarize_returns J llm (summary_json st) _ new Hs)
    as [-> | (c & -> & Hc)]; [left; reflexivity | right].
  exists c. auto.
Qed.

(** X16. After [add_interaction] the stored summary is the one before, or a
    new non-empty string that decodes: a summary is never emptied, dropped
    or replaced by undecodable text. *)
Theorem add_interaction_summary (J : library) (m : manager) (w : world)
    (p r : string) (c : Z) (full : option string) (db : list row) (st : memory) :
  let st' := snd (fst (Memory.add_interaction J m w p r c full db st)) in
  summary_json st' = summary_json st \/
  exists new, summary_json st' = Some new /\ str_truthy new = true /\ loads J new <> None.
Proof.
  cbv zeta.
  pose proof (f_equal fst (add_interaction_memory J m w p r c full db st)) as E.
  cbv zeta in E. cbn [fst] in E. rewrite E.
  destruct (should_trigger_state m
              (append_interaction st
                 {| prompt := p; response := r; timestamp := now w;
                    token_count := Some c |} c)) as (Hs & _ & _).
  cbn [append_interaction summary_json] in Hs.
  destruct (snd (_should_trigger_summarization m _)).
  - rewrite <- Hs. apply adaptive_prune_summary.
  - left. cbn [fst]. exact Hs.
Qed.

(** ** The newest interaction *)

Lemma skipn_app_last {A : Type} (k : nat) (l : list A) (x : A) :
  (k <= List.length l)%nat -> List.skipn k (l ++ [x]) = List.skipn k l ++ [x].
Proof.
  intros H. rewrite List.skipn_app.
  replace (k - List.length l)%nat with 0%nat by lia. reflexivity.
Qed.

Lemma retention_split_keeps_last {A : Type} (l : list A) (x : A) (n dk : Z) :
  n = len (l ++ [x]) -> 2 <= n -> 2 <= dk ->
  let index := if n <=? dk then Z.max 1 (n / 2) else - dk in
  slice_from (l ++ [x]) index = List.skipn (clip_index (l ++ [x]) index) l ++ [x].
Proof.
  intros Hn H2 Hk. cbv zeta. unfold slice_from. apply skipn_app_last.
  rewrite len_app in Hn. unfold len in Hn. cbn [List.length] in Hn.
  unfold clip_index. rewrite len_app. unfold len. cbn [List.length].
  destruct (Z.leb_spec n dk).
  - assert (Hh : n / 2 <= n - 1) by (apply Z.div_le_upper_bound; lia).
    destruct (Z.ltb_spec (Z.max 1 (n / 2)) 0); lia.
  - destruct (Z.ltb_spec (- dk) 0); lia.
Qed.

(** X17. With [min_interactions >= 2] and aligned buffers, the interaction
    just added is the last of [history_buffer] and its count the last of
    [token_buffer] after [add_interaction], pruned or not. *)
Theorem newest_interaction_is_kept (J : library) (m : manager) (w : world)
    (p r : string) (c : Z) (full : option string) (db : list row) (st : memory) :
  2 <= min_interactions m ->
  aligned st ->
  let i := {| prompt := p; response := r; timestamp := now w; token_count := Some c |} in
  let st' := snd (fst (Memory.add_interaction J m w p r c full db st)) in
  exists front front_tokens,
    history_buffer st' = front ++ [i] /\ token_buffer st' = front_tokens ++ [c].
Proof.
  intros Hmin Ha. cbv zeta.
  pose proof (f_equal fst (add_interaction_memory J m w p r c full db st)) as E.
  cbv zeta in E. cbn [fst] in E. rewrite E. clear E.
  set (i := {| prompt := p; response := r; timestamp := now w; token_count := Some c |}).
  destruct (should_trigger_state m (append_interaction st i c)) as (Hs & Hh & Ht).
  pose proof (should_trigger_decision m (append_interaction st i c)) as Hd.
  cbn [append_interaction history_buffer token_buffer] in Hh, Ht, Hd.
  destruct (_should_trigger_summarization m (append_interaction st i c)) as [st1 trigger].
  cbn [fst snd] in *.
  assert (Hkeep : exists front front_tokens,
             history_buffer st1 = front ++ [i] /\ token_buffer st1 = front_tokens ++ [c])
    by (rewrite Hh, Ht; eauto).
  destruct trigger; [|exact Hkeep].
  unfold _adaptive_prune.
  destruct (_calculate_dynamic_threshold m st1) as [dk|e] eqn:Hk; [|exact Hkeep].
  destruct (summarize J (llm w) (summary_json st1) _) as [new|e]; [|exact Hkeep].
  destruct (opt_truthy new); [|exact Hkeep].
  cbn [fst history_buffer token_buffer].
  assert (Hdk : 2 <= dk).
  { destruct (dynamic_threshold_returns m st1 dk Hk) as [[_ ->] | (o & Ho & ->)]; lia. }
  symmetry in Hd. apply andb_true_iff in Hd. destruct Hd as [Hlen _].
  apply negb_true_iff in Hlen. apply Z.ltb_ge in Hlen.
  assert (Hal : len (token_buffer st ++ [c]) = len (history_buffer st ++ [i])).
  { unfold aligned in Ha. rewrite Ha, !len_app, len_map. reflexivity. }
  unfold retention_split. rewrite Hh, Ht.
  pose proof (retention_split_keeps_last (history_buffer st) i
                (len (history_buffer st ++ [i])) dk eq_refl ltac:(lia) Hdk) as Rh.
  pose proof (retention_split_keeps_last (token_buffer st) c
                (len (history_buffer st ++ [i])) dk (eq_sym Hal) ltac:(lia) Hdk) as Rt.
  cbv zeta in Rh, Rt.
  destruct (len (history_buffer st ++ [i]) <=? dk); cbn [retained retained_tokens];
    rewrite Rh, Rt; eauto.
Qed.

(** ** The buffer after a prune *)

Lemma len_slice_from {A : Type} (l : list A) (k : Z) :
  len (slice_from l k) = len l - Z.of_nat (clip_index l k).
Proof.
  unfold slice_from, len. rewrite List.length_skipn.
  assert (H : (clip_index l k <= List.length l)%nat).
  { unfold clip_index, len. lia. }
  lia.
Qed.

Lemma retained_at_most_dynamic_k (st : memory) (dynamic_k : Z) :
  1 <= dynamic_k ->
  len (retained (retention_split st dynamic_k)) <= dynamic_k.
Proof.
  intros Hk. unfold retention_split.
  destruct (Z.leb_spec (len (history_buffer st)) dynamic_k); cbn [retained];
    rewrite len_slice_from.
  - lia.
  - rewrite clip_index_negative by lia. unfold clip_index.
    destruct (Z.ltb_spec (len (history_buffer st) - dynamic_k) 0); lia.
Qed.

(** X18. With [min_interactions >= 1], [_adaptive_prune] leaves the state as
    it was or a buffer of at most [max(min_interactions, max_interactions)]
    interactions. *)
Theorem pruned_buffer_is_bounded (J : library) (m : manager)
    (llm : string -> llm_result) (st : memory) :
  1 <= min_interactions m ->
  let st' := fst (_adaptive_prune J m llm st) in
  st' = st \/
  len (history_buffer st') <= Z.max (min_interactions m) (max_interactions m).
Proof.
  intros Hmin. cbv zeta. unfold _adaptive_prune.
  destruct (_calculate_dynamic_threshold m st) as [dk|e] eqn:Hk; [|left; reflexivity].
  destruct (summarize J llm (summary_json st) _) as [new|e]; [|left; reflexivity].
  destruct (opt_truthy new); [|left; reflexivity].
  right. cbn [fst history_buffer].
  assert (Hdk : 1 <= dk <= Z.max (min_interactions m) (max_interactions m)).
  { destruct (dynamic_threshold_returns m st dk Hk) as [[_ ->] | (o & Ho & ->)]; lia. }
  pose proof (retained_at_most_dynamic_k st dk (proj1 Hdk)). lia.
Qed.

Lemma pruned_buffer_is_bounded_witness :
  fst (_adaptive_prune JsonRef.lib scenario_manager (llm_answers "{}")
         three_forties) = three_forties \/
  len (history_buffer
         (fst (_adaptive_prune JsonRef.lib scenario_manager (llm_answers "{}")
                 three_forties)))
  <= Z.max (min_interactions scenario_manager)
           (max_interactions scenario_manager).
Proof.
  apply (pruned_buffer_is_bounded JsonRef.lib scenario_manager
           (llm_answers "{}") three_forties).
  vm_compute. discriminate.
Defined.

(** ** The shape of the context *)

Lemma interaction_messages_shape (i : interaction) :
  List.Forall (fun msg => (role msg = "user" \/ role msg = "assistant") /\
                          str_truthy (content msg) = true)
              (interaction_messages i) /\
  (List.length (interaction_messages i) <= 2)%nat.
Proof.
  unfold interaction_messages.
  destruct (str_truthy (prompt i)) eqn:Hp; destruct (str_truthy (response i)) eqn:Hr;
    cbn [List.app List.length]; (split; [|lia]);
    repeat (apply List.Forall_cons; [cbn [role content]; auto|]);
    apply List.Forall_nil.
Qed.

Lemma short_term_messages_shape (buffer : list interaction) :
  List.Forall (fun msg => (role msg = "user" \/ role msg = "assistant") /\
                          str_truthy (content msg) = true)
              (short_term_messages buffer) /\
  (List.length (short_term_messages buffer) <= 2 * List.length buffer)%nat.
Proof.
  unfold short_term_messages.
  induction buffer as [|i buffer [IHf IHl]]; cbn [List.flat_map List.length].
  - split; [constructor | lia].
  - destruct (interaction_messages_shape i) as [Hf Hl]. split.
    + apply List.Forall_app. auto.
    + rewrite List.length_app. lia.
Qed.

Lemma summary_message_shape (J : library) (s : string) (messages : list message) :
  summary_message J s = Ret messages ->
  messages = [] \/ exists text, messages = [{| role := "system"; content := text |}].
Proof.
  unfold summary_message.
  destruct (loads J s) as [v|]; [|cbn; intros [= <-]; auto].
  destruct (get v "interactions" (JArr [])) as [interactions|e]; cbn [bind];
    [|cbn; destruct (caught_parse_errors e); [intros [= <-]; auto | discriminate]].
  destruct (get v "important_details" (JArr [])) as [details|e]; cbn [bind];
    [|cbn; destruct (caught_parse_errors e); [intros [= <-]; auto | discriminate]].
  destruct (truthy details).
  - destruct (str_join ", " details) as [joined|e]; cbn [bind try_except].
    + intros [= <-]. right. eauto.
    + destruct (caught_parse_errors e); [intros [= <-]; auto | discriminate].
  - cbn [bind try_except]. intros [= <-]. right. eauto.
Qed.

(** X19. Whenever [get_context] returns, its list is at most one system
    message followed by the messages of the buffer, each of role user or
    assistant with a non-empty content, at most [1 + 2 * len] in all. *)
Theorem get_context_shape (J : library) (st : memory) (messages : list message) :
  get_context J st = Ret messages ->
  exists head,
    messages = head ++ short_term_messages (history_buffer st) /\
    (head = [] \/ exists text, head = [{| role := "system"; content := text |}]) /\
    List.Forall (fun msg => (role msg = "user" \/ role msg = "assistant") /\
                            str_truthy (content msg) = true)
                (short_term_messages (history_buffer st)) /\
    len messages <= 1 + 2 * len (history_buffer st).
Proof.
  unfold get_context. intros H.
  destruct (short_term_messages_shape (history_buffer st)) as [Hf Hl].
  assert (Hhead : exists head,
             messages = head ++ short_term_messages (history_buffer st) /\
             (head = [] \/ exists text, head = [{| role := "system"; content := text |}])).
  { destruct (summary_json st) as [s|]; [destruct (str_truthy s)|].
    - destruct (summary_message J s) as [head|e] eqn:Hs; cbn [bind] in H; [|discriminate].
      injection H as <-. exists head. split; [reflexivity|].
      eapply summary_message_shape; eassumption.
    - cbn [bind] in H. injection H as <-. exists []. auto.
    - cbn [bind] in H. injection H as <-. exists []. auto. }
  destruct Hhead as (head & -> & Hh). exists head.
  repeat split; auto.
  unfold len. rewrite List.length_app.
  destruct Hh as [-> | (text & ->)]; cbn [List.length]; lia.
Qed.

Lemma get_context_shape_witness :
  exists head,
    [ {| role := "user"; content := "first question" |};
      {| role := "assistant"; content := "first answer" |} ]
    = head ++ short_term_messages [t1] /\
    (head = [] \/ exists text, head = [{| role := "system"; content := text |}]) /\
    List.Forall (fun msg => (role msg = "user" \/ role msg = "assistant") /\
                            str_truthy (content msg) = true)
                (short_term_messages [t1]) /\
    len [ {| role := "user"; content := "first question" |};
          {| role := "assistant"; content := "first answer" |} ] <= 1 + 2 * len [t1].
Proof.
  apply (get_context_shape JsonRef.lib
           {| summary_json := Some "not json"; history_buffer := [t1];
              token_buffer := [40]; current_token_sum := 0 |}).
  vm_compute. reflexivity.
Defined.

(** X20. For a stored summary object whose [important_details] is a list:
    if all its items are strings the context starts with one system
    message; if one is not, the [TypeError] of the join is caught and the
    whole summary is left out of the context. *)
Theorem summary_with_bad_details (J : library) (st : memory) (s : string)
    (members : list (string * json)) (items : list json) :
  summary_json st = Some s ->
  str_truthy s = true ->
  loads J s = Some (JObj members) ->
  dict_get members "important_details" (JArr []) = JArr items ->
  (forall strings, all_strings items = Ret strings ->
     exists text,
       get_context J st
       = Ret ({| role := "system"; content := text |}
              :: short_term_messages (history_buffer st))) /\
  (forall e, all_strings items = Raise e ->
     get_context J st = Ret (short_term_messages (history_buffer st))).
Proof.
  intros Hs Ht Hl Hd. unfold get_context, summary_message.
  rewrite Hs, Ht, Hl. cbn [get bind]. rewrite Hd. split.
  - intros strings Ha. destruct items as [|v items].
    + cbn [truthy bind try_except]. eexists. reflexivity.
    + cbn [truthy str_join]. rewrite Ha. cbn [bind try_except]. eexists. reflexivity.
  - intros e Ha. pose proof (all_strings_raises _ _ Ha) as ->.
    destruct items as [|v items]; [discriminate Ha|].
    cbn [truthy str_join]. rewrite Ha. reflexivity.
Qed.

(** ** The estimate of [count_tokens] on any value *)

Lemma count_tokens_returns (tk : tiktoken) (text : json) (model_name : string) :
  exists n, count_tokens tk text model_name = Ret n /\ 0 <= n /\
            (truthy text = false -> n = 0).
Proof.
  unfold count_tokens.
  destruct (tokenizer_path tk text model_name) as [n|e] eqn:Hp.
  - exists n. split; [reflexivity|]. split.
    + eapply tokenizer_path_nonneg; eassumption.
    + intros Hf. unfold tokenizer_path in Hp. rewrite Hf in Hp. cbn in Hp. congruence.
  - unfold tokenizer_path in Hp.
    destruct (negb (truthy text) || negb (is_str text)) eqn:Hb; [discriminate|].
    apply orb_false_iff in Hb. destruct Hb as [Ht Hs].
    apply negb_false_iff in Ht, Hs.
    destruct text; try discriminate Hs.
    cbn. eexists. split; [reflexivity|]. split; [lia|].
    cbn in Ht. congruence.
Qed.

(** ** The fixed window *)

(** X21. In the manager with a fixed window [k >= 1], starting from at most
    [k] interactions, [add_interaction] leaves the new interaction last and
    either at most [k] interactions or, when the prune installed nothing,
    the buffer just appended. *)
Theorem window_add_interaction (J : library) (user session k : Z) (w : world)
    (p r : string) (full : option string) (db : list ShortTerm.row)
    (st : ShortTerm.memory) :
  1 <= k ->
  len (ShortTerm.history_buffer st) <= k ->
  let i := {| prompt := p; response := r; timestamp := now w; token_count := None |} in
  let st' := snd (fst (ShortTerm.add_interaction J user session k w p r full db st)) in
  (exists front, ShortTerm.history_buffer st' = front ++ [i]) /\
  (len (ShortTerm.history_buffer st') <= k \/
   st' = {| ShortTerm.summary_json := ShortTerm.summary_json st;
            ShortTerm.history_buffer := ShortTerm.history_buffer st ++ [i] |}).
Proof.
  intros Hk Hlen. cbv zeta. unfold ShortTerm.add_interaction.
  set (i := {| prompt := p; response := r; timestamp := now w; token_count := None |}).
  assert (Hlog : snd (ShortTerm._log_interaction_to_db user session (insert w) db p
                        (match full with Some f => f | None => r end) (now w)) = Ret tt)
    by (destruct (insert w); reflexivity).
  destruct (ShortTerm._log_interaction_to_db _ _ _ _ _ _ _) as [db' logged].
  cbn [snd] in Hlog. subst logged.
  cbn [ShortTerm.history_buffer ShortTerm.summary_json].
  destruct (Z.ltb_spec k (len (ShortTerm.history_buffer st ++ [i]))) as [Hgt|Hle].
  - unfold ShortTerm.prune. cbn [ShortTerm.history_buffer ShortTerm.summary_json].
    destruct (summarize J (llm w) _ _) as [new|e]; [|cbn; eauto].
    destruct (opt_truthy new); [|cbn; eauto].
    cbn [fst snd ShortTerm.history_buffer].
    assert (Hn : len (ShortTerm.history_buffer st ++ [i]) = k + 1).
    { rewrite len_app in *. unfold len in *. cbn [List.length] in *. lia. }
    assert (Hc : clip_index (ShortTerm.history_buffer st ++ [i]) (- k) = 1%nat).
    { rewrite clip_index_negative by lia. unfold clip_index. rewrite Hn.
      destruct (Z.ltb_spec (k + 1 - k) 0); lia. }
    split.
    + unfold slice_from. rewrite Hc, skipn_app_last; [eauto|].
      rewrite len_app in Hn. unfold len in Hn. cbn [List.length] in Hn. lia.
    + left. rewrite len_slice_from, Hc, Hn. lia.
  - cbn [fst snd ShortTerm.history_buffer]. split; [eauto|].
    left. exact Hle.
Qed.

(** ** Counting the tokens of a request *)

Lemma content_parts_tokens_ok (tk : tiktoken) (model_name : string) (items : list json) :
  List.forallb is_object items = true ->
  exists n, 0 <= n /\
    forall total, ChatRoute.content_parts_tokens tk model_name items total = Ret (total + n).
Proof.
  induction items as [|item items IH]; cbn [List.forallb ChatRoute.content_parts_tokens].
  - intros _. exists 0. split; [lia|]. intros total. now rewrite Z.add_0_r.
  - intros H. apply andb_true_iff in H. destruct H as [Hi Hr].
    destruct (IH Hr) as (n & Hn & Hrest).
    destruct item; try discriminate Hi. cbn [get bind].
    destruct (ChatRoute.equals_str _ "text").
    + destruct (count_tokens_returns tk (dict_get members "text" (JStr "")) model_name)
        as (c & Hc & Hpos & _).
      rewrite Hc. cbn [bind]. exists (c + n). split; [lia|].
      intros total. rewrite Hrest. f_equal. lia.
    + destruct (ChatRoute.equals_str _ "image_url").
      * exists (765 + n). split; [lia|]. intros total. rewrite Hrest. f_equal. lia.
      * exists n. split; [lia|]. intros total. apply Hrest.
Qed.

Lemma messages_tokens_ok (tk : tiktoken) (model_name : string) (messages : list json) :
  List.forallb ChatRoute.message_ok messages = true ->
  exists n, 4 * len messages <= n /\
    forall total, ChatRoute.messages_tokens tk model_name messages total = Ret (total + n).
Proof.
  induction messages as [|message messages IH];
    cbn [List.forallb ChatRoute.messages_tokens].
  - intros _. exists 0. split; [cbn; lia|]. intros total. now rewrite Z.add_0_r.
  - intros H. apply andb_true_iff in H. destruct H as [Hm Hr].
    destruct (IH Hr) as (n & Hn & Hrest).
    assert (Hlen : len (message :: messages) = 1 + len messages)
      by (unfold len; cbn [List.length]; lia).
    destruct message; try discriminate Hm. cbn [get bind].
    cbn [ChatRoute.message_ok] in Hm.
    destruct (dict_get members "content" (JStr "")) as [| | |s|items|] eqn:Hc.
    + exists (4 + n). split; [lia|]. intros total. rewrite Hrest. f_equal. lia.
    + exists (4 + n). split; [lia|]. intros total. rewrite Hrest. f_equal. lia.
    + exists (4 + n). split; [lia|]. intros total. rewrite Hrest. f_equal. lia.
    + destruct (count_tokens_returns tk (JStr s) model_name) as (c & Hct & Hpos & _).
      rewrite Hct. cbn [bind]. exists (4 + c + n). split; [lia|].
      intros total. rewrite Hrest. f_equal. lia.
    + cbn [ChatRoute.parts_ok] in Hm.
      destruct (content_parts_tokens_ok tk model_name items Hm) as (c & Hpos & Hparts).
      exists (4 + c + n). split; [lia|].
      intros total. rewrite Hparts. cbn [bind]. rewrite Hrest. f_equal. lia.
    + exists (4 + n). split; [lia|]. intros total. rewrite Hrest. f_equal. lia.
Qed.

Lemma messages_tokens_app (tk : tiktoken) (model_name : string)
    (first second : list json) (total : Z) :
  ChatRoute.messages_tokens tk model_name (first ++ second) total
  = (t <- ChatRoute.messages_tokens tk model_name first total ;;
     ChatRoute.messages_tokens tk model_name second t).
Proof.
  revert total. induction first as [|message first IH]; intros total; [reflexivity|].
  cbn [List.app ChatRoute.messages_tokens].
  destruct (get message "content" (JStr "")) as [content|e]; cbn [bind]; [|reflexivity].
  destruct content; try apply IH.
  - destruct (count_tokens tk (JStr s) model_name); cbn [bind]; [apply IH | reflexivity].
  - destruct (ChatRoute.content_parts_tokens tk model_name items (total + 4));
      cbn [bind]; [apply IH | reflexivity].
Qed.

(** X22. On messages that are dictionaries whose list contents hold
    dictionaries, [count_message_tokens] returns the value of its loop,
    never the length heuristic, and at least 4 per message. *)
Theorem count_message_tokens_well_formed (tk : tiktoken) (py_str : json -> string)
    (messages : list json) (model_name : string) :
  List.forallb ChatRoute.message_ok messages = true ->
  exists n,
    ChatRoute.count_message_tokens tk py_str messages model_name = Ret n /\
    ChatRoute.messages_tokens tk model_name messages 0 = Ret n /\
    4 * len messages <= n.
Proof.
  intros H. destruct (messages_tokens_ok tk model_name messages H) as (n & Hn & Hloop).
  exists n. unfold ChatRoute.count_message_tokens. rewrite Hloop. cbn. auto.
Qed.

(** On such messages [count_message_tokens] is additive over
    concatenation. *)
Lemma count_message_tokens_additive (tk : tiktoken) (py_str : json -> string)
    (first second : list json) (model_name : string) :
  List.forallb ChatRoute.message_ok first = true ->
  List.forallb ChatRoute.message_ok second = true ->
  exists n1 n2,
    ChatRoute.count_message_tokens tk py_str first model_name = Ret n1 /\
    ChatRoute.count_message_tokens tk py_str second model_name = Ret n2 /\
    ChatRoute.count_message_tokens tk py_str (first ++ second) model_name = Ret (n1 + n2).
Proof.
  intros H1 H2.
  destruct (messages_tokens_ok tk model_name first H1) as (n1 & _ & L1).
  destruct (messages_tokens_ok tk model_name second H2) as (n2 & _ & L2).
  exists n1, n2. unfold ChatRoute.count_message_tokens.
  rewrite messages_tokens_app, !L1, !L2. cbn [bind]. rewrite L2. cbn. auto.
Qed.

Lemma content_parts_tokens_fails (tk : tiktoken) (model_name : string)
    (items : list json) (total : Z) :
  List.forallb is_object items = false ->
  exists e, ChatRoute.content_parts_tokens tk model_name items total = Raise e.
Proof.
  revert total. induction items as [|item items IH]; intros total;
    cbn [List.forallb ChatRoute.content_parts_tokens]; [discriminate|].
  intros H. apply andb_false_iff in H.
  destruct item; try (cbn; eauto; fail).
  destruct H as [H|H]; [discriminate H|].
  cbn [get bind].
  destruct (ChatRoute.equals_str _ "text").
  - destruct (count_tokens_returns tk (dict_get members "text" (JStr "")) model_name)
      as (c & Hc & _).
    rewrite Hc. cbn [bind]. apply IH, H.
  - destruct (ChatRoute.equals_str _ "image_url"); apply IH, H.
Qed.

Lemma messages_tokens_fails (tk : tiktoken) (model_name : string)
    (messages : list json) (total : Z) :
  List.forallb ChatRoute.message_ok messages = false ->
  exists e, ChatRoute.messages_tokens tk model_name messages total = Raise e.
Proof.
  revert total. induction messages as [|message messages IH]; intros total;
    cbn [List.forallb ChatRoute.messages_tokens]; [discriminate|].
  intros H. apply andb_false_iff in H.
  destruct message; try (cbn; eauto; fail).
  cbn [get bind]. cbn [ChatRoute.message_ok] in H.
  destruct (dict_get members "content" (JStr "")) as [| | |s|items|] eqn:Hc;
    try (destruct H as [H|H]; [discriminate H | apply IH, H]).
  - destruct (count_tokens_returns tk (JStr s) model_name) as (c & Hct & _).
    rewrite Hct. cbn [bind].
    destruct H as [H|H]; [discriminate H | apply IH, H].
  - cbn [ChatRoute.parts_ok] in H.
    destruct (List.forallb is_object items) eqn:Hp.
    + destruct (content_parts_tokens_ok tk model_name items Hp) as (c & _ & Hparts).
      rewrite Hparts. cbn [bind].
      destruct H as [H|H]; [discriminate H | apply IH, H].
    + destruct (content_parts_tokens_fails tk model_name items (total + 4) Hp) as (e & He).
      rewrite He. cbn. eauto.
Qed.

Lemma content_texts_objects (py_str : json -> string) (messages : list json) :
  List.forallb is_object messages = true ->
  exists texts, ChatRoute.content_texts py_str messages = Ret texts /\
                List.length texts = List.length messages.
Proof.
  induction messages as [|msg messages IH]; cbn [List.forallb ChatRoute.content_texts].
  - intros _. exists []. auto.
  - intros H. apply andb_true_iff in H. destruct H as [Hm Hr].
    destruct (IH Hr) as (texts & Ht & Hl).
    destruct msg; try discriminate Hm. cbn [get bind]. rewrite Ht. cbn [bind].
    eexists. split; [reflexivity|]. cbn [List.length]. now rewrite Hl.
Qed.

Lemma content_texts_non_object (py_str : json -> string) (messages : list json) :
  List.forallb is_object messages = false ->
  ChatRoute.content_texts py_str messages = Raise AttributeError.
Proof.
  induction messages as [|msg messages IH]; cbn [List.forallb ChatRoute.content_texts];
    [discriminate|].
  intros H. apply andb_false_iff in H.
  destruct msg; try reflexivity.
  destruct H as [H|H]; [discriminate H|].
  cbn [get bind]. rewrite (IH H). reflexivity.
Qed.

Lemma message_ok_is_object (messages : list json) :
  List.forallb is_object messages = false ->
  List.forallb ChatRoute.message_ok messages = false.
Proof.
  induction messages as [|msg messages IH]; cbn [List.forallb]; [discriminate|].
  intros H. apply andb_false_iff in H. apply andb_false_iff.
  destruct H as [H|H]; [left | right; auto].
  destruct msg; try discriminate H; reflexivity.
Qed.

(** X24. On other messages the loop raises; the handler then raises
    [AttributeError] itself if some message is not a dictionary, and
    otherwise returns [max(10, len(text) // 4)] of the joined contents. *)
Theorem count_message_tokens_malformed (tk : tiktoken) (py_str : json -> string)
    (messages : list json) (model_name : string) :
  List.forallb ChatRoute.message_ok messages = false ->
  (List.forallb is_object messages = false ->
   ChatRoute.count_message_tokens tk py_str messages model_name = Raise AttributeError) /\
  (List.forallb is_object messages = true ->
   exists texts,
     ChatRoute.content_texts py_str messages = Ret texts /\
     ChatRoute.count_message_tokens tk py_str messages model_name
     = Ret (Z.max 10 (Z.of_nat (String.length (join " " texts)) / 4))).
Proof.
  intros Hbad.
  destruct (messages_tokens_fails tk model_name messages 0 Hbad) as (e & He).
  unfold ChatRoute.count_message_tokens. rewrite He. cbn [try_except any_exception].
  split.
  - intros H. rewrite (content_texts_non_object py_str messages H). reflexivity.
  - intros H. destruct (content_texts_objects py_str messages H) as (texts & Ht & _).
    exists texts. rewrite Ht. auto.
Qed.

(** ** The mode of a request *)

(** X25. [validate_reason_parameter] answers code, reason or default on
    every input, and is idempotent. *)
Theorem validate_reason_normalises (reason : json) :
  let mode := ChatRoute.validate_reason_parameter reason in
  (mode = "code" \/ mode = "reason" \/ mode = "default") /\
  ChatRoute.validate_reason_parameter (JStr mode) = mode.
Proof.
  cbv zeta.
  assert (Hrange : ChatRoute.validate_reason_parameter reason = "code" \/
                   ChatRoute.validate_reason_parameter reason = "reason" \/
                   ChatRoute.validate_reason_parameter reason = "default").
  { unfold ChatRoute.validate_reason_parameter.
    destruct reason as [|b|z|s|items|members]; auto.
    - destruct b; auto.
    - destruct (ChatRoute.str_in _ _) eqn:Hin; [|auto].
      cbn [ChatRoute.str_in] in Hin.
      destruct (String.eqb_spec (ChatRoute.strip (ChatRoute.lower s)) "code"); [auto|].
      destruct (String.eqb_spec (ChatRoute.strip (ChatRoute.lower s)) "reason"); [auto|].
      destruct (String.eqb_spec (ChatRoute.strip (ChatRoute.lower s)) "default"); [auto|].
      discriminate Hin. }
  split; [exact Hrange|].
  destruct Hrange as [-> | [-> | ->]]; reflexivity.
Qed.

(** ** The quota of unauthenticated sessions *)

Lemma stored_count_bump_same (counts : list (string * Z)) (session_id : string) :
  ChatRoute.stored_count (ChatRoute.bump counts session_id) session_id
  = Some (ChatRoute.get_unauthorized_request_count ChatRoute.Selected counts session_id + 1).
Proof.
  unfold ChatRoute.get_unauthorized_request_count.
  induction counts as [|[k c] counts IH]; cbn [ChatRoute.bump ChatRoute.stored_count].
  - now rewrite String.eqb_refl.
  - destruct (String.eqb k session_id) eqn:Hk; cbn [ChatRoute.stored_count]; rewrite Hk.
    + reflexivity.
    + exact IH.
Qed.

Lemma stored_count_bump_other (counts : list (string * Z)) (session_id other : string) :
  other <> session_id ->
  ChatRoute.stored_count (ChatRoute.bump counts session_id) other
  = ChatRoute.stored_count counts other.
Proof.
  intros Hne. induction counts as [|[k c] counts IH];
    cbn [ChatRoute.bump ChatRoute.stored_count].
  - destruct (String.eqb_spec session_id other); [congruence | reflexivity].
  - destruct (String.eqb_spec k session_id); cbn [ChatRoute.stored_count].
    + destruct (String.eqb_spec k other); [congruence | reflexivity].
    + destruct (String.eqb k other); [reflexivity | exact IH].
Qed.

(** X26. With a working database, of [n] successive requests of one
    unauthenticated session exactly [min(n, 2 - count)] are served, [count]
    being the stored count at the start (none is served from 2 on). *)
Theorem unauthenticated_quota (n : nat) (counts : list (string * Z)) (session_id : string) :
  snd (ChatRoute.serve (List.repeat (ChatRoute.Selected, Inserted) n) counts session_id)
  = Nat.min n
      (Z.to_nat (2 - ChatRoute.get_unauthorized_request_count ChatRoute.Selected
                       counts session_id)).
Proof.
  revert counts. induction n as [|n IH]; intros counts; [reflexivity|].
  cbn [List.repeat ChatRoute.serve]. unfold ChatRoute.unauthorized_gate.
  destruct (Z.leb_spec 2 (ChatRoute.get_unauthorized_request_count ChatRoute.Selected
                            counts session_id)) as [Hfull|Hfree].
  - specialize (IH counts).
    destruct (ChatRoute.serve _ counts session_id) as [counts' served].
    cbn [snd] in *. rewrite IH. lia.
  - cbn [ChatRoute.increment_unauthorized_request_count].
    specialize (IH (ChatRoute.bump counts session_id)).
    assert (Hnext : ChatRoute.get_unauthorized_request_count ChatRoute.Selected
                      (ChatRoute.bump counts session_id) session_id
                    = ChatRoute.get_unauthorized_request_count ChatRoute.Selected
                        counts session_id + 1).
    { unfold ChatRoute.get_unauthorized_request_count at 1.
      now rewrite stored_count_bump_same. }
    rewrite Hnext in IH.
    destruct (ChatRoute.serve _ (ChatRoute.bump counts session_id) session_id)
      as [counts' served].
    cbn [snd] in *. rewrite IH. lia.
Qed.

(** X27. If every [SELECT] fails, every request is served whatever is stored;
    and if every increment fails, a session below the limit is served
    without end. *)
Theorem quota_fails_open (writes : list insert_outcome) (n : nat)
    (counts : list (string * Z)) (session_id : string) :
  snd (ChatRoute.serve (List.map (fun wr => (ChatRoute.SelectFails, wr)) writes)
                       counts session_id)
  = List.length writes /\
  (ChatRoute.get_unauthorized_request_count ChatRoute.Selected counts session_id < 2 ->
   snd (ChatRoute.serve (List.repeat (ChatRoute.Selected, InsertFails) n)
                        counts session_id) = n).
Proof.
  split.
  - revert counts. induction writes as [|wr writes IH]; intros counts; [reflexivity|].
    cbn [List.map ChatRoute.serve List.length]. unfold ChatRoute.unauthorized_gate.
    cbn [ChatRoute.get_unauthorized_request_count Z.leb Z.compare].
    specialize (IH (ChatRoute.increment_unauthorized_request_count wr counts session_id)).
    destruct (ChatRoute.serve _ _ session_id) as [counts' served].
    cbn [snd] in *. now rewrite IH.
  - intros Hfree. induction n as [|n IH]; [reflexivity|].
    cbn [List.repeat ChatRoute.serve]. unfold ChatRoute.unauthorized_gate.
    destruct (Z.leb_spec 2 (ChatRoute.get_unauthorized_request_count ChatRoute.Selected
                              counts session_id)); [lia|].
    cbn [ChatRoute.increment_unauthorized_request_count].
    destruct (ChatRoute.serve _ counts session_id) as [counts' served].
    cbn [snd] in *. now rewrite IH.
Qed.

(** X28. The gate never changes the stored count of another session. *)
Theorem quota_is_per_session (rd : ChatRoute.select_outcome) (wr : insert_outcome)
    (counts : list (string * Z)) (session_id other : string) :
  other <> session_id ->
  ChatRoute.stored_count (fst (ChatRoute.unauthorized_gate rd wr counts session_id)) other
  = ChatRoute.stored_count counts other.
Proof.
  intros Hne. unfold ChatRoute.unauthorized_gate.
  destruct (2 <=? _); [reflexivity|].
  destruct wr; cbn [fst ChatRoute.increment_unauthorized_request_count]; [|reflexivity].
  now apply stored_count_bump_other.
Qed.

(** ** The model name *)

Lemma model_tokenizer_map_constant (model_name : string) :
  map_get model_tokenizer_map model_name "cl100k_base" = "cl100k_base".
Proof.
  unfold model_tokenizer_map. cbn [map_get].
  repeat match goal with
         | |- context [if ?b then _ else _] => destruct b; [reflexivity|]
         end.
  reflexivity.
Qed.

(** X29. The model name has no influence on the estimate: every model is
    counted with the encoding cl100k_base. *)
Theorem count_tokens_ignores_model (tk : tiktoken) (text : json)
    (model_name other_model : string) :
  get_tokenizer_for_model tk model_name = get_tokenizer_for_model tk other_model /\
  count_tokens tk text model_name = count_tokens tk text other_model.
Proof.
  assert (H : get_tokenizer_for_model tk model_name
              = get_tokenizer_for_model tk other_model).
  { unfold get_tokenizer_for_model. now rewrite !model_tokenizer_map_constant. }
  split; [exact H|].
  unfold count_tokens, tokenizer_path. now rewrite H.
Qed.

(** ** Examples of the further properties *)

Lemma concurrent_requests_lose_an_interaction_witness :
  let m := default_manager in
  let w := quiet_world Inserted llm_down in
  let a := Memory.add_interaction JsonRef.lib m w "first" "one" 5 None []
             (Store.construct m []) in
  let b := Memory.add_interaction JsonRef.lib m w "second" "two" 6 None (fst (fst a))
             (Store.construct m []) in
  let table1 := fst (Store.save_to_db m Inserted "t1" [] (snd (fst a))) in
  let table2 := fst (Store.save_to_db m Inserted "t2" table1 (snd (fst b))) in
  history_buffer (Store.construct m table1)
  = history_buffer (Store.construct m [])
    ++ [{| prompt := "first"; response := "one"; timestamp := now w;
           token_count := Some 5 |}] /\
  history_buffer (Store.construct m table2)
  = history_buffer (Store.construct m [])
    ++ [{| prompt := "second"; response := "two"; timestamp := now w;
           token_count := Some 6 |}] /\
  List.map row_prompt (fst (fst b)) = List.map row_prompt [] ++ ["first"; "second"].
Proof.
  cbv zeta.
  apply (concurrent_requests_lose_an_interaction JsonRef.lib default_manager [] []
           (quiet_world Inserted llm_down) (quiet_world Inserted llm_down)
           "first" "one" "second" "two" 5 6 None None "t1" "t2");
    vm_compute; reflexivity.
Defined.

Lemma newest_interaction_is_kept_witness :
  exists front front_tokens,
    history_buffer
      (snd (fst (Memory.add_interaction JsonRef.lib scenario_manager
                   (quiet_world Inserted (llm_answers "{}")) "fourth question"
                   "fourth answer" 40 None [] three_forties)))
    = front ++ [{| prompt := "fourth question"; response := "fourth answer";
                   timestamp := now (quiet_world Inserted (llm_answers "{}"));
                   token_count := Some 40 |}] /\
    token_buffer
      (snd (fst (Memory.add_interaction JsonRef.lib scenario_manager
                   (quiet_world Inserted (llm_answers "{}")) "fourth question"
                   "fourth answer" 40 None [] three_forties)))
    = front_tokens ++ [40].
Proof.
  apply (newest_interaction_is_kept JsonRef.lib scenario_manager
           (quiet_world Inserted (llm_answers "{}")) "fourth question" "fourth answer"
           40 None [] three_forties).
  - vm_compute. discriminate.
  - reflexivity.
Defined.

Lemma summary_with_bad_details_witness :
  get_context JsonRef.lib Cases.numeric_details_state
  = Ret (short_term_messages (history_buffer Cases.numeric_details_state)).
Proof.
  apply (proj2 (summary_with_bad_details JsonRef.lib Cases.numeric_details_state
                  Cases.numeric_details_summary
                  [("important_details", JArr [JInt 1])] [JInt 1]
                  eq_refl eq_refl eq_refl eq_refl) TypeError).
  reflexivity.
Defined.

Lemma window_add_interaction_witness :
  let w := quiet_world Inserted (llm_answers "{}") in
  let i := {| prompt := "new question"; response := "new answer"; timestamp := now w;
              token_count := None |} in
  let st' := snd (fst (ShortTerm.add_interaction JsonRef.lib 1 1 2 w "new question"
                         "new answer" None [] Cases.full_window)) in
  (exists front, ShortTerm.history_buffer st' = front ++ [i]) /\
  (len (ShortTerm.history_buffer st') <= 2 \/
   st' = {| ShortTerm.summary_json := ShortTerm.summary_json Cases.full_window;
            ShortTerm.history_buffer := ShortTerm.history_buffer Cases.full_window ++ [i] |}).
Proof.
  cbv zeta.
  apply (window_add_interaction JsonRef.lib 1 1 2 (quiet_world Inserted (llm_answers "{}"))
           "new question" "new answer" None [] Cases.full_window).
  - lia.
  - vm_compute. discriminate.
Defined.

Lemma count_message_tokens_well_formed_witness :
  exists n,
    ChatRoute.count_message_tokens offline_tiktoken Cases.py_str
      [Cases.vision_message "what is this" "data:image/png;base64,AAAA"] "default" = Ret n /\
    ChatRoute.messages_tokens offline_tiktoken "default"
      [Cases.vision_message "what is this" "data:image/png;base64,AAAA"] 0 = Ret n /\
    4 * len [Cases.vision_message "what is this" "data:image/png;base64,AAAA"] <= n.
Proof.
  apply (count_message_tokens_well_formed offline_tiktoken Cases.py_str
           [Cases.vision_message "what is this" "data:image/png;base64,AAAA"] "default").
  reflexivity.
Defined.

Lemma count_message_tokens_additive_witness :
  exists n1 n2,
    ChatRoute.count_message_tokens offline_tiktoken Cases.py_str
      [Cases.text_message "system" "You are a helpful assistant."] "default" = Ret n1 /\
    ChatRoute.count_message_tokens offline_tiktoken Cases.py_str
      [Cases.text_message "user" "hello there"] "default" = Ret n2 /\
    ChatRoute.count_message_tokens offline_tiktoken Cases.py_str
      ([Cases.text_message "system" "You are a helpful assistant."]
       ++ [Cases.text_message "user" "hello there"]) "default" = Ret (n1 + n2).
Proof.
  apply (count_message_tokens_additive offline_tiktoken Cases.py_str
           [Cases.text_message "system" "You are a helpful assistant."]
           [Cases.text_message "user" "hello there"] "default"); reflexivity.
Defined.

Lemma count_message_tokens_malformed_witness :
  ChatRoute.count_message_tokens offline_tiktoken Cases.py_str [JStr "hello"] "default"
  = Raise AttributeError.
Proof.
  apply (proj1 (count_message_tokens_malformed offline_tiktoken Cases.py_str
                  [JStr "hello"] "default" eq_refl)).
  reflexivity.
Defined.

Lemma quota_is_per_session_witness :
  ChatRoute.stored_count
    (fst (ChatRoute.unauthorized_gate ChatRoute.Selected Inserted [("guest-a", 1)] "guest-b"))
    "guest-a"
  = ChatRoute.stored_count [("guest-a", 1)] "guest-a".
Proof.
  apply quota_is_per_session. discriminate.
Defined.

